(** * Personal Finance Tracker: budget status and report aggregation

    A shallow embedding of the derived-value logic of the finance tracker:
    the virtual fields of the Budget model, the budget cards of the
    Dashboard component, the report aggregations of the reports router and
    the create/update handlers of the budgets and transactions routers.

    Modelling conventions.
    - A stored JavaScript Number (amount, spent, threshold) is a finite
      rational [Q]; arithmetic on it is exact, rounding is outside the model.
      The result of a division is a [jsnum], which adds the non-finite
      values a division by zero produces.
    - A Date is its time value, milliseconds since the epoch, as [Z]; the
      server's local time zone is UTC.
    - Object ids, enum values and messages are strings.
    - A collection is the list of its documents in insertion order. *)

From Stdlib Require Import ZArith QArith Qminmax Qround Lqa List Bool Lia Ascii String.
From Stdlib Require Import Sorted.
From stdpp Require Import gmap strings.
Import ListNotations.

Local Open Scope string_scope.

(** ** JavaScript numbers *)

Definition Qltb (x y : Q) : bool := negb (Qle_bool y x).

(** The value of an arithmetic expression: a finite number, an infinity or
    NaN. *)
Inductive jsnum : Type :=
| Num (q : Q)
| PosInf
| NegInf
| NaN.

(** [a / b] on finite operands. *)
Definition js_div (a b : Q) : jsnum :=
  if Qeq_bool b 0 then
    if Qeq_bool a 0 then NaN
    else if Qle_bool 0 a then PosInf else NegInf
  else Num (a / b).

(** [x * k] for a finite [k]. *)
Definition js_mul (x : jsnum) (k : Q) : jsnum :=
  match x with
  | Num q => Num (q * k)
  | PosInf =>
      if Qeq_bool k 0 then NaN else if Qle_bool 0 k then PosInf else NegInf
  | NegInf =>
      if Qeq_bool k 0 then NaN else if Qle_bool 0 k then NegInf else PosInf
  | NaN => NaN
  end.

(** [x >= t] and [x > t]; every comparison with NaN is false. *)
Definition js_ge (x : jsnum) (t : Q) : bool :=
  match x with
  | Num q => Qle_bool t q
  | PosInf => true
  | NegInf => false
  | NaN => false
  end.

Definition js_gt (x : jsnum) (t : Q) : bool :=
  match x with
  | Num q => Qltb t q
  | PosInf => true
  | NegInf => false
  | NaN => false
  end.

(** [Math.max(a, b)] on finite operands. *)
Definition Math_max (a b : Q) : Q := if Qle_bool a b then b else a.

Definition is_finite (x : jsnum) : bool :=
  match x with Num _ => true | _ => false end.

(** ** The Budget model (budgetSchema and its virtuals) *)

Definition Date := Z.

Record AlertThresholds : Type := mkThresholds {
  warning : Q;
  critical : Q
}.

Definition defaultThresholds : AlertThresholds :=
  {| warning := 80; critical := 95 |}.

Record Budget : Type := mkBudget {
  b_id : string;
  b_user : string;
  b_category : string;
  amount : Q;
  period : string;
  startDate : Date;
  endDate : Date;
  spent : Q;
  alertThresholds : AlertThresholds;
  isActive : bool;
  notes : string
}.

(** [budgetSchema.virtual('remaining')] *)
Definition remaining (b : Budget) : Q :=
  Math_max 0 (amount b - spent b).

(** [budgetSchema.virtual('percentageUsed')] *)
Definition percentageUsed (b : Budget) : jsnum :=
  if Qltb 0 (amount b) then js_mul (js_div (spent b) (amount b)) 100
  else Num 0.

(** [budgetSchema.virtual('status')] *)
Definition status (b : Budget) : string :=
  let percentage := percentageUsed b in
  if js_ge percentage 100 then "exceeded"
  else if js_ge percentage (critical (alertThresholds b)) then "critical"
  else if js_ge percentage (warning (alertThresholds b)) then "warning"
  else "good".

(** ** The Dashboard component (client side)

    The client keeps its own transactions, categories and budgets; a budget
    there has a category id and an amount, and no alert thresholds.  Names
    that collide with members of [Object.prototype] are outside the model. *)

Module Dashboard.

Record Transaction : Type := mkTransaction {
  t_id : string;
  t_type : string;
  t_amount : Q;
  t_categoryId : string;
  t_date : Date
}.

Record Category : Type := mkCategory {
  c_id : string;
  c_name : string;
  c_color : string;
  c_type : string
}.

Record Budget : Type := mkBudget {
  fb_id : string;
  fb_categoryId : string;
  fb_amount : Q
}.

(** One element of [budgetStatus]: the budget spread into the object,
    then the derived fields. *)
Record BudgetCard : Type := mkBudgetCard {
  bc_budget : Budget;
  bc_spent : Q;
  bc_remaining : Q;
  bc_percentage : jsnum;
  bc_categoryName : string;
  bc_categoryColor : string;
  bc_status : string
}.

(** [isWithinInterval(date, { start, end })] *)
Definition isWithinInterval (d start end_ : Date) : bool :=
  ((start <=? d) && (d <=? end_))%Z.

(** [currentMonth]: the transactions of the selected month, whose first
    and last instants are [start] and [end_]. *)
Definition currentMonth (transactions : list Transaction)
    (start end_ : Date) : list Transaction :=
  List.filter
    (fun transaction => isWithinInterval (t_date transaction) start end_)
    transactions.

(** [.reduce((sum, t) => sum + t.amount, 0)] *)
Definition sumAmounts (l : list Transaction) : Q :=
  fold_left (fun sum t => (sum + t_amount t)%Q) l 0%Q.

Record Stats : Type := mkStats {
  totalIncome : Q;
  totalExpenses : Q;
  balance : Q
}.

(** [stats] *)
Definition stats (currentMonth : list Transaction) : Stats :=
  let totalIncome :=
    sumAmounts (List.filter (fun t => String.eqb (t_type t) "income")
                            currentMonth) in
  let totalExpenses :=
    sumAmounts (List.filter (fun t => String.eqb (t_type t) "expense")
                            currentMonth) in
  {| totalIncome := totalIncome;
     totalExpenses := totalExpenses;
     balance := (totalIncome - totalExpenses)%Q |}.

(** [x || fallback] on a string: the empty string is falsy. *)
Definition orElse (x fallback : string) : string :=
  if String.eqb x "" then fallback else x.

(** [categories.find(c => c.id === id)] *)
Definition findCategory (categories : list Category) (id : string)
  : option Category :=
  find (fun c => String.eqb (c_id c) id) categories.

(** The label under which [categoryData] files a transaction:
    [category?.name || 'Uncategorized']. *)
Definition categoryLabel (categories : list Category) (t : Transaction)
  : string :=
  match findCategory categories (t_categoryId t) with
  | Some category => orElse (c_name category) "Uncategorized"
  | None => "Uncategorized"
  end.

(** The reducer of [categoryData]:
    [acc[categoryName] = (acc[categoryName] || 0) + t.amount].  The
    accumulator is an object literal read as a map from names to numbers,
    which it is for every name but those it inherits from
    [Object.prototype]. *)
Definition addExpense (categories : list Category)
    (acc : gmap string Q) (t : Transaction) : gmap string Q :=
  let categoryName := categoryLabel categories t in
  <[categoryName := (default 0%Q (acc !! categoryName) + t_amount t)%Q]> acc.

Definition expensesByCategory (currentMonth : list Transaction)
    (categories : list Category) : gmap string Q :=
  fold_left (addExpense categories)
    (List.filter (fun t => String.eqb (t_type t) "expense") currentMonth) ∅.

Record Slice : Type := mkSlice {
  s_name : string;
  s_value : Q;
  s_color : string
}.

(** [categoryData]: one pie slice per entry of [expensesByCategory]; the
    colour is looked up again, by name. *)
Definition categoryData (currentMonth : list Transaction)
    (categories : list Category) : list Slice :=
  map (fun '(name, value) =>
         {| s_name := name;
            s_value := value;
            s_color :=
              match find (fun c => String.eqb (c_name c) name) categories with
              | Some category => orElse (c_color category) "#64748b"
              | None => "#64748b"
              end |})
      (map_to_list (expensesByCategory currentMonth categories)).

(** [budgetStatus], for one budget of [budgets.map]. *)
Definition budgetStatus (currentMonth : list Transaction)
    (categories : list Category) (budget : Budget) : BudgetCard :=
  let spent :=
    sumAmounts
      (List.filter (fun t => String.eqb (t_type t) "expense"
                        && String.eqb (t_categoryId t) (fb_categoryId budget))
              currentMonth) in
  let category := findCategory categories (fb_categoryId budget) in
  let percentage :=
    if Qltb 0 (fb_amount budget)
    then js_mul (js_div spent (fb_amount budget)) 100
    else Num 0 in
  {| bc_budget := budget;
     bc_spent := spent;
     bc_remaining := (fb_amount budget - spent)%Q;
     bc_percentage := percentage;
     bc_categoryName :=
       match category with
       | Some c => orElse (c_name c) "Unknown"
       | None => "Unknown"
       end;
     bc_categoryColor :=
       match category with
       | Some c => orElse (c_color c) "#64748b"
       | None => "#64748b"
       end;
     bc_status :=
       if js_gt percentage 100 then "over"
       else if js_gt percentage 80 then "warning"
       else "good" |}.

End Dashboard.

(** ** Server-side documents *)

Record Transaction : Type := mkTransaction {
  tx_id : string;
  tx_user : string;
  tx_type : string;
  tx_amount : Q;
  tx_description : string;
  tx_category : string;
  tx_date : Date
}.

Record Category : Type := mkCategory {
  cat_id : string;
  cat_user : string;
  cat_name : string;
  cat_type : string;
  cat_color : string;
  cat_isActive : bool
}.

(** ** Aggregation pipeline stages *)

(** [$group]: one accumulator per distinct key.  The groups are listed in
    the order in which their keys first occur; the database promises no
    order, and no statement below depends on it. *)
Section Group.
Context {D K A : Type}.
Variable key : D -> K.
Variable keq : K -> K -> bool.
Variable init : D -> A.
Variable step : A -> D -> A.

Fixpoint upsert (d : D) (groups : list (K * A)) : list (K * A) :=
  match groups with
  | [] => [(key d, init d)]
  | (k, a) :: rest =>
      if keq k (key d) then (k, step a d) :: rest
      else (k, a) :: upsert d rest
  end.

Definition group (docs : list D) : list (K * A) :=
  fold_left (fun groups d => upsert d groups) docs [].
End Group.

(** [$sort]: a stable insertion sort; [before a b] says that [a] may
    precede [b]. *)
Section Sort.
Context {A : Type}.
Variable before : A -> A -> bool.

Fixpoint insert_sorted (x : A) (l : list A) : list A :=
  match l with
  | [] => [x]
  | y :: rest =>
      if before y x then y :: insert_sorted x rest else x :: y :: rest
  end.

Definition sort (l : list A) : list A :=
  fold_left (fun acc x => insert_sorted x acc) l [].
End Sort.

(** The date part of a [$match] filter: [$gte] and [$lte] bounds, each
    present only when the query gave it. *)
Definition dateInRange (startDate endDate : option Date) (d : Date) : bool :=
  match startDate with Some s => (s <=? d)%Z | None => true end
  && match endDate with Some e => (d <=? e)%Z | None => true end.

(** ** GET /api/reports/summary *)

Record Stat : Type := mkStat {
  st_total : Q;
  st_count : Z;
  st_avgAmount : Q
}.

Record SumCount : Type := mkSumCount {
  sc_total : Q;
  sc_count : Z
}.

(** The accumulators [total: { $sum: '$amount' }], [count: { $sum: 1 }]. *)
Definition sc_init (t : Transaction) : SumCount :=
  {| sc_total := (0 + tx_amount t)%Q; sc_count := 1 |}.

Definition sc_step (a : SumCount) (t : Transaction) : SumCount :=
  {| sc_total := (sc_total a + tx_amount t)%Q; sc_count := sc_count a + 1 |}.

(** [avgAmount: { $avg: '$amount' }] of a group. *)
Definition sc_stat (a : SumCount) : Stat :=
  {| st_total := sc_total a;
     st_count := sc_count a;
     st_avgAmount := (sc_total a / inject_Z (sc_count a))%Q |}.

Record Summary : Type := mkSummary {
  income : Stat;
  expense : Stat;
  balance : Q;
  totalTransactions : Z
}.

Definition zeroStat : Stat :=
  {| st_total := 0; st_count := 0; st_avgAmount := 0 |}.

(** [result[item._id] = { total, count, avgAmount }] for the two keys the
    response reads afterwards. *)
Definition setStat (result : Stat * Stat) (item : string * SumCount)
  : Stat * Stat :=
  let '(inc, exp) := result in
  let '(id, acc) := item in
  if String.eqb id "income" then (sc_stat acc, exp)
  else if String.eqb id "expense" then (inc, sc_stat acc)
  else (inc, exp).

(** The documents the summary's [$match] selects. *)
Definition summaryMatched (transactions : list Transaction) (user : string)
    (startDate endDate : option Date) : list Transaction :=
  List.filter (fun t => String.eqb (tx_user t) user
                        && dateInRange startDate endDate (tx_date t))
              transactions.

Definition summary (transactions : list Transaction) (user : string)
    (startDate endDate : option Date) : Summary :=
  let matched := summaryMatched transactions user startDate endDate in
  let groups := group tx_type String.eqb sc_init sc_step matched in
  let '(inc, exp) := fold_left setStat groups (zeroStat, zeroStat) in
  {| income := inc;
     expense := exp;
     balance := (st_total inc - st_total exp)%Q;
     totalTransactions := st_count inc + st_count exp |}.

(** The total the summary reports for a type. *)
Definition summaryTotal (s : Summary) (type : string) : Q :=
  if String.eqb type "income" then st_total (income s)
  else if String.eqb type "expense" then st_total (expense s)
  else 0.

(** ** GET /api/reports/category-breakdown *)

Record BreakdownAcc : Type := mkBreakdownAcc {
  ba_name : string;
  ba_color : string;
  ba_total : Q;
  ba_count : Z
}.

Record BreakdownRow : Type := mkBreakdownRow {
  br_id : string;
  br_name : string;
  br_color : string;
  br_total : Q;
  br_count : Z;
  br_avgAmount : Q
}.

(** [$lookup] into the categories collection followed by
    [$unwind: '$categoryInfo']: one output document per category whose
    [_id] equals the transaction's reference, hence none when the
    reference does not resolve. *)
Definition lookupUnwind (categories : list Category) (t : Transaction)
  : list (Transaction * Category) :=
  map (fun c => (t, c))
      (List.filter (fun c => String.eqb (cat_id c) (tx_category t)) categories).

Definition ba_init (d : Transaction * Category) : BreakdownAcc :=
  {| ba_name := cat_name (snd d);
     ba_color := cat_color (snd d);
     ba_total := (0 + tx_amount (fst d))%Q;
     ba_count := 1 |}.

Definition ba_step (a : BreakdownAcc) (d : Transaction * Category)
  : BreakdownAcc :=
  {| ba_name := ba_name a;
     ba_color := ba_color a;
     ba_total := (ba_total a + tx_amount (fst d))%Q;
     ba_count := ba_count a + 1 |}.

Definition ba_row (g : string * BreakdownAcc) : BreakdownRow :=
  {| br_id := fst g;
     br_name := ba_name (snd g);
     br_color := ba_color (snd g);
     br_total := ba_total (snd g);
     br_count := ba_count (snd g);
     br_avgAmount := (ba_total (snd g) / inject_Z (ba_count (snd g)))%Q |}.

(** [{ $sort: { total: -1 } }] *)
Definition totalDesc (a b : BreakdownRow) : bool :=
  Qle_bool (br_total b) (br_total a).

Definition categoryBreakdown (transactions : list Transaction)
    (categories : list Category) (user : string) (type : string)
    (startDate endDate : option Date) : list BreakdownRow :=
  let matched :=
    List.filter (fun t => String.eqb (tx_user t) user
                     && String.eqb (tx_type t) type
                     && dateInRange startDate endDate (tx_date t))
           transactions in
  let unwound := flat_map (lookupUnwind categories) matched in
  let groups :=
    group (fun d => tx_category (fst d)) String.eqb ba_init ba_step unwound in
  sort totalDesc (map ba_row groups).

(** ** Calendar arithmetic behind [new Date(y, m, d)] and [$month] *)

Local Open Scope Z_scope.

Definition msPerDay : Z := 86400000.

(** Days from 1970-01-01 to the given proleptic Gregorian date
    ([month] in 1..12). *)
Definition daysFromCivil (year month day : Z) : Z :=
  let y := if month <=? 2 then year - 1 else year in
  let era := y / 400 in
  let yoe := y - era * 400 in
  let mp := if 2 <? month then month - 3 else month + 9 in
  let doy := (153 * mp + 2) / 5 + day - 1 in
  let doe := yoe * 365 + yoe / 4 - yoe / 100 + doy in
  era * 146097 + doe - 719468.

(** The inverse: the (year, month, day) of a day number. *)
Definition civilFromDays (days : Z) : Z * Z * Z :=
  let z := days + 719468 in
  let era := z / 146097 in
  let doe := z - era * 146097 in
  let yoe := (doe - doe / 1460 + doe / 36524 - doe / 146096) / 365 in
  let doy := doe - (365 * yoe + yoe / 4 - yoe / 100) in
  let mp := (5 * doy + 2) / 153 in
  let d := doy - (153 * mp + 2) / 5 + 1 in
  let m := if mp <? 10 then mp + 3 else mp - 9 in
  (if m <=? 2 then yoe + era * 400 + 1 else yoe + era * 400, m, d).

(** [new Date(year, monthIndex, day)]: midnight at the start of that day;
    a year from 0 to 99 stands for 1900 + year. *)
Definition new_Date (year monthIndex day : Z) : Date :=
  let fullYear := if (0 <=? year) && (year <=? 99) then 1900 + year else year in
  daysFromCivil fullYear (monthIndex + 1) day * msPerDay.

(** An instant given by calendar date and time of day, for writing
    examples. *)
Definition instant (year month day hours minutes : Z) : Date :=
  daysFromCivil year month day * msPerDay + hours * 3600000 + minutes * 60000.

(** [{ $month: '$date' }], from 1 to 12, and the year of a date. *)
Definition monthOf (d : Date) : Z :=
  let '(_, m, _) := civilFromDays (d / msPerDay) in m.

Definition yearOf (d : Date) : Z :=
  let '(y, _, _) := civilFromDays (d / msPerDay) in y.

Definition dayOf (d : Date) : Z :=
  let '(_, _, dd) := civilFromDays (d / msPerDay) in dd.

(** ** GET /api/reports/monthly-trends *)

Record MonthAcc : Type := mkMonthAcc {
  ma_income : Q;
  ma_expense : Q;
  ma_incomeCount : Z;
  ma_expenseCount : Z
}.

Record TrendEntry : Type := mkTrendEntry {
  te_month : string;
  te_income : Q;
  te_expense : Q;
  te_balance : Q;
  te_incomeCount : Z;
  te_expenseCount : Z
}.

Definition monthNames : list string :=
  ["Jan"; "Feb"; "Mar"; "Apr"; "May"; "Jun";
   "Jul"; "Aug"; "Sep"; "Oct"; "Nov"; "Dec"].

Definition monthTypeEq (a b : Z * string) : bool :=
  (fst a =? fst b)%Z && String.eqb (snd a) (snd b).

(** [$cond: [{ $eq: ['$_id.type', type] }, value, 0]] *)
Definition condQ (actual type : string) (value : Q) : Q :=
  if String.eqb actual type then value else 0.

Definition condZ (actual type : string) (value : Z) : Z :=
  if String.eqb actual type then value else 0.

(** The second [$group], over the (month, type) groups of the first. *)
Definition ma_init (g : (Z * string) * SumCount) : MonthAcc :=
  let type := snd (fst g) in
  {| ma_income := (0 + condQ type "income" (sc_total (snd g)))%Q;
     ma_expense := (0 + condQ type "expense" (sc_total (snd g)))%Q;
     ma_incomeCount := 0 + condZ type "income" (sc_count (snd g));
     ma_expenseCount := 0 + condZ type "expense" (sc_count (snd g)) |}.

Definition ma_step (a : MonthAcc) (g : (Z * string) * SumCount) : MonthAcc :=
  let type := snd (fst g) in
  {| ma_income := (ma_income a + condQ type "income" (sc_total (snd g)))%Q;
     ma_expense := (ma_expense a + condQ type "expense" (sc_total (snd g)))%Q;
     ma_incomeCount :=
       ma_incomeCount a + condZ type "income" (sc_count (snd g));
     ma_expenseCount :=
       ma_expenseCount a + condZ type "expense" (sc_count (snd g)) |}.

(** The [$match] of the pipeline: the user's transactions from
    [new Date(year, 0, 1)] to [new Date(year, 11, 31)], both included. *)
Definition trendMatch (user : string) (year : Z) (t : Transaction) : bool :=
  String.eqb (tx_user t) user
  && ((new_Date year 0 1 <=? tx_date t)%Z
      && (tx_date t <=? new_Date year 11 31)%Z).

(** The aggregation: [$match], [$group] by (month, type), [$group] by
    month, [$sort] by [_id]. *)
Definition trends (transactions : list Transaction) (user : string)
    (year : Z) : list (Z * MonthAcc) :=
  let matched := List.filter (trendMatch user year) transactions in
  let byMonthType :=
    group (fun t => (monthOf (tx_date t), tx_type t)) monthTypeEq
          sc_init sc_step matched in
  let byMonth :=
    group (fun g : (Z * string) * SumCount => fst (fst g)) Z.eqb
          ma_init ma_step byMonthType in
  sort (fun a b => (fst a <=? fst b)%Z) byMonth.

(** The callback of [monthNames.map]: [monthData?.field || 0]. *)
Definition trendEntry (trends : list (Z * MonthAcc)) (month : string)
    (index : nat) : TrendEntry :=
  let monthData := find (fun t => (fst t =? Z.of_nat index + 1)%Z) trends in
  let income :=
    match monthData with Some d => ma_income (snd d) | None => 0%Q end in
  let expense :=
    match monthData with Some d => ma_expense (snd d) | None => 0%Q end in
  {| te_month := month;
     te_income := income;
     te_expense := expense;
     te_balance := (income - expense)%Q;
     te_incomeCount :=
       match monthData with Some d => ma_incomeCount (snd d) | None => 0 end;
     te_expenseCount :=
       match monthData with
       | Some d => ma_expenseCount (snd d)
       | None => 0
       end |}.

(** [Array.prototype.map] with the element index. *)
Fixpoint mapi_from {A B : Type} (f : A -> nat -> B) (i : nat) (l : list A)
  : list B :=
  match l with
  | [] => []
  | x :: rest => f x i :: mapi_from f (S i) rest
  end.

Definition monthlyTrends (transactions : list Transaction) (user : string)
    (year : Z) : list TrendEntry :=
  mapi_from (trendEntry (trends transactions user year)) 0 monthNames.

(** ** Request handling: responses and validators *)

Inductive Response (A : Type) : Type :=
| Ok (body : A)                         (* 200 *)
| Created (body : A)                    (* 201 *)
| ValidationFailed (errors : list string) (* 400, 'Validation failed' *)
| BadRequest (message : string)         (* 400 *)
| NotFound (message : string)           (* 404 *)
| ServerError.                          (* 500, 'Server error' *)

Arguments Ok {A} body.
Arguments Created {A} body.
Arguments ValidationFailed {A} errors.
Arguments BadRequest {A} message.
Arguments NotFound {A} message.
Arguments ServerError {A}.

(** The HTTP status code of a response. *)
Definition statusCode {A : Type} (r : Response A) : Z :=
  match r with
  | Ok _ => 200
  | Created _ => 201
  | ValidationFailed _ => 400
  | BadRequest _ => 400
  | NotFound _ => 404
  | ServerError => 500
  end.

Definition isHexDigit (c : ascii) : bool :=
  let n := nat_of_ascii c in
  ((48 <=? n) && (n <=? 57) || (65 <=? n) && (n <=? 70)
   || (97 <=? n) && (n <=? 102))%nat.

(** [isMongoId()]: 24 hexadecimal digits.  Ids are written that way
    throughout; the [0x] and [0h] prefixes that [isHexadecimal] also lets
    through are not part of the model. *)
Definition isMongoId (s : string) : bool :=
  (String.length s =? 24)%nat && forallb isHexDigit (list_ascii_of_string s).

(** [isFloat({ min: 0.01 })] on a field that is [None] when it is missing
    or does not read as a number. *)
Definition isFloatMin (v : option Q) : bool :=
  match v with
  | Some q => Qle_bool (1 # 100) q
  | None => false
  end.

(** [isIn(values)] *)
Definition isIn (values : list string) (s : string) : bool :=
  existsb (String.eqb s) values.

(** One validator of the chain: its message when the check fails. *)
Definition check (ok : bool) (message : string) : list string :=
  if ok then [] else [message].

(** ** POST /api/budgets *)

(** The request body; a date field is [None] when it is missing or is not
    an ISO 8601 date. *)
Record BudgetBody : Type := mkBudgetBody {
  bb_category : string;
  bb_amount : option Q;
  bb_period : string;
  bb_startDate : option Date;
  bb_endDate : option Date;
  bb_alertThresholds : option AlertThresholds;
  bb_notes : option string
}.

Definition validateBudgetBody (body : BudgetBody) : list string :=
  check (isMongoId (bb_category body)) "Valid category ID is required"
  ++ check (isFloatMin (bb_amount body)) "Budget amount must be greater than 0"
  ++ check (isIn ["weekly"; "monthly"; "yearly"] (bb_period body))
       "Period must be weekly, monthly, or yearly"
  ++ check (match bb_startDate body with Some _ => true | None => false end)
       "Start date must be valid"
  ++ check (match bb_endDate body with Some _ => true | None => false end)
       "End date must be valid".

(** [Category.findOne({ _id, user, type, isActive: true })] *)
Definition findCategory (categories : list Category)
    (id user type : string) : option Category :=
  find (fun c => String.eqb (cat_id c) id
                 && String.eqb (cat_user c) user
                 && String.eqb (cat_type c) type
                 && cat_isActive c)
       categories.

(** The query of the overlap check: same user, category and period, active,
    and one clause of the [$or] list holds. *)
Definition overlapQuery (qUser qCategory qPeriod : string)
    (newStart newEnd : Date) (b : Budget) : bool :=
  String.eqb (b_user b) qUser
  && String.eqb (b_category b) qCategory
  && String.eqb (period b) qPeriod
  && isActive b
  && existsb (fun clause : Budget -> bool => clause b)
       [fun b => (startDate b <=? newEnd) && (newStart <=? endDate b)].

(** Validation of a budget document by [budgetSchema] on save. *)
Definition budgetSchemaValid (b : Budget) : bool :=
  Qle_bool (1 # 100) (amount b)
  && isIn ["weekly"; "monthly"; "yearly"] (period b)
  && Qle_bool 0 (spent b)
  && Qle_bool 0 (warning (alertThresholds b))
  && Qle_bool (warning (alertThresholds b)) 100
  && Qle_bool 0 (critical (alertThresholds b))
  && Qle_bool (critical (alertThresholds b)) 100
  && (String.length (notes b) <=? 300)%nat.

(** [new Budget({ ... })] from the fields of a validated body; [newId] is
    the id the database gives the new document. *)
Definition newBudget (user newId : string) (body : BudgetBody)
    (amount : Q) (startDate endDate : Date) : Budget :=
  {| b_id := newId;
     b_user := user;
     b_category := bb_category body;
     amount := amount;
     period := bb_period body;
     startDate := startDate;
     endDate := endDate;
     spent := 0;
     alertThresholds :=
       match bb_alertThresholds body with
       | Some thresholds => thresholds
       | None => defaultThresholds
       end;
     isActive := true;
     notes :=
       match bb_notes body with
       | Some n => n
       | None => ""
       end |}.

(** The handler.  The result is the response and the budgets collection
    afterwards. *)
Definition postBudget (budgets : list Budget) (categories : list Category)
    (user newId : string) (body : BudgetBody)
  : Response Budget * list Budget :=
  match validateBudgetBody body with
  | (_ :: _) as errors => (ValidationFailed errors, budgets)
  | [] =>
    match bb_amount body, bb_startDate body, bb_endDate body with
    | Some amount, Some startDate, Some endDate =>
      match findCategory categories (bb_category body) user "expense" with
      | None => (BadRequest "Invalid expense category", budgets)
      | Some categoryDoc =>
        match find (overlapQuery user (bb_category body) (bb_period body)
                      startDate endDate) budgets with
        | Some existingBudget =>
            (BadRequest "Budget already exists for this category and period",
             budgets)
        | None =>
            let budget := newBudget user newId body amount startDate endDate in
            if budgetSchemaValid budget
            then (Created budget, (budgets ++ [budget])%list)
            else (ServerError, budgets)
        end
      end
    | _, _, _ =>
        (* not reached: a body that passes validation has the three fields *)
        (ServerError, budgets)
    end
  end.

(** ** POST /api/transactions and PUT /api/transactions/:id

    The optional fields tags, paymentMethod, notes, location and receipt
    take no part in the category check and are left out of the documents. *)

(** A body field that may be missing, well formed, or present but not of
    the expected form. *)
Inductive Field (A : Type) : Type :=
| Absent
| Present (value : A)
| Malformed.

Arguments Absent {A}.
Arguments Present {A} value.
Arguments Malformed {A}.

Definition isSpace (c : ascii) : bool :=
  let n := nat_of_ascii c in
  ((9 <=? n) && (n <=? 13) || (n =? 32))%nat.

Fixpoint dropSpaces (l : list ascii) : list ascii :=
  match l with
  | c :: rest => if isSpace c then dropSpaces rest else l
  | [] => []
  end.

(** The [trim()] sanitizer. *)
Definition trim (s : string) : string :=
  string_of_list_ascii
    (rev (dropSpaces (rev (dropSpaces (list_ascii_of_string s))))).

(** [isLength({ min: 1, max: 200 })] *)
Definition isLength1to200 (s : string) : bool :=
  ((1 <=? String.length s) && (String.length s <=? 200))%nat.

Record TransactionBody : Type := mkTransactionBody {
  tb_type : string;
  tb_amount : option Q;
  tb_description : string;
  tb_category : string;
  tb_date : Field Date
}.

Definition validateTransactionBody (body : TransactionBody) : list string :=
  check (isIn ["income"; "expense"] (tb_type body))
    "Type must be income or expense"
  ++ check (isFloatMin (tb_amount body)) "Amount must be greater than 0"
  ++ check (isLength1to200 (trim (tb_description body)))
       "Description must be between 1 and 200 characters"
  ++ check (isMongoId (tb_category body)) "Valid category ID is required"
  ++ check (match tb_date body with Malformed => false | _ => true end)
       "Date must be valid".

(** Validation and casting of a transaction document by
    [transactionSchema] on save. *)
Definition transactionSchemaValid (t : Transaction) : bool :=
  isMongoId (tx_user t)
  && isIn ["income"; "expense"] (tx_type t)
  && Qle_bool (1 # 100) (tx_amount t)
  && isLength1to200 (trim (tx_description t))
  && isMongoId (tx_category t).

(** The create handler; [now] is the clock, [newId] the id of the new
    document. *)
Definition postTransaction (transactions : list Transaction)
    (categories : list Category) (user newId : string) (now : Date)
    (body : TransactionBody) : Response Transaction * list Transaction :=
  match validateTransactionBody body with
  | (_ :: _) as errors => (ValidationFailed errors, transactions)
  | [] =>
    match tb_amount body with
    | Some amount =>
      match findCategory categories (tb_category body) user (tb_type body) with
      | None =>
          (BadRequest "Invalid category for this transaction type",
           transactions)
      | Some categoryDoc =>
          let transaction :=
            {| tx_id := newId;
               tx_user := user;
               tx_type := tb_type body;
               tx_amount := amount;
               tx_description := trim (tb_description body);
               tx_category := tb_category body;
               tx_date :=
                 match tb_date body with
                 | Present date => date
                 | _ => now
                 end |} in
          if transactionSchemaValid transaction
          then (Created transaction, (transactions ++ [transaction])%list)
          else (ServerError, transactions)
      end
    | None =>
        (* not reached: a body that passes validation has an amount *)
        (ServerError, transactions)
    end
  end.

(** The body of an update: every key is optional, and the handler copies
    whichever keys are present, [user] included.  The model covers bodies
    made of these six keys; what the assignment of any other key does,
    [_id] among them, is not modelled. *)
Record TransactionUpdates : Type := mkTransactionUpdates {
  u_type : option string;
  u_amount : Field Q;
  u_description : option string;
  u_category : option string;
  u_date : Field Date;
  u_user : option string
}.

Definition validateTransactionUpdates (updates : TransactionUpdates)
  : list string :=
  check (match u_type updates with
         | Some type => isIn ["income"; "expense"] type
         | None => true
         end)
    "Type must be income or expense"
  ++ check (match u_amount updates with
            | Absent => true
            | Present q => Qle_bool (1 # 100) q
            | Malformed => false
            end)
       "Amount must be greater than 0"
  ++ check (match u_description updates with
            | Some d => isLength1to200 (trim d)
            | None => true
            end)
       "Description must be between 1 and 200 characters".

(** A non-empty string is truthy. *)
Definition truthy (s : string) : bool := negb (String.eqb s "").

(** [Object.keys(updates).forEach(key => transaction[key] = updates[key])].
    [None] when a value cannot be cast to the type of its path, which makes
    the save fail. *)
Definition assignUpdates (transaction : Transaction)
    (updates : TransactionUpdates) : option Transaction :=
  match u_amount updates, u_date updates with
  | Malformed, _ | _, Malformed => None
  | amount, date =>
      Some
        {| tx_id := tx_id transaction;
           tx_user :=
             match u_user updates with
             | Some u => u
             | None => tx_user transaction
             end;
           tx_type :=
             match u_type updates with
             | Some type => type
             | None => tx_type transaction
             end;
           tx_amount :=
             match amount with
             | Present q => q
             | _ => tx_amount transaction
             end;
           tx_description :=
             match u_description updates with
             | Some d => trim d
             | None => tx_description transaction
             end;
           tx_category :=
             match u_category updates with
             | Some c => c
             | None => tx_category transaction
             end;
           tx_date :=
             match date with
             | Present d => d
             | _ => tx_date transaction
             end |}
  end.

(** The category check of the update handler, made only when the body
    names a category: [None] when the handler goes on, otherwise the
    response it returns at once. *)
Definition verifyUpdatedCategory (categories : list Category)
    (user : string) (transaction : Transaction)
    (updates : TransactionUpdates) : option (Response Transaction) :=
  match u_category updates with
  | Some category =>
      if truthy category then
        if isMongoId category then
          let type :=
            match u_type updates with
            | Some type => if truthy type then type else tx_type transaction
            | None => tx_type transaction
            end in
          match findCategory categories category user type with
          | Some categoryDoc => None
          | None =>
              Some (BadRequest "Invalid category for this transaction type")
          end
        else Some ServerError
      else None
  | None => None
  end.

(** The update handler.  For a body of the modelled keys the document
    keeps its id, and the save writes it back in the place of the stored
    one. *)
Definition putTransaction (transactions : list Transaction)
    (categories : list Category) (user id : string)
    (updates : TransactionUpdates)
  : Response Transaction * list Transaction :=
  match validateTransactionUpdates updates with
  | (_ :: _) as errors => (ValidationFailed errors, transactions)
  | [] =>
    if isMongoId id then
      match find (fun t => String.eqb (tx_id t) id
                           && String.eqb (tx_user t) user)
                 transactions with
      | None => (NotFound "Transaction not found", transactions)
      | Some transaction =>
        match verifyUpdatedCategory categories user transaction updates with
        | Some response => (response, transactions)
        | None =>
          match assignUpdates transaction updates with
          | Some transaction' =>
              if transactionSchemaValid transaction'
              then (Ok transaction',
                    map (fun t => if String.eqb (tx_id t) id
                                  then transaction' else t)
                        transactions)
              else (ServerError, transactions)
          | None => (ServerError, transactions)
          end
        end
      end
    else
      (* the id cannot be cast to an ObjectId: the query throws *)
      (ServerError, transactions)
  end.

(** The invariant of the data model: the category a transaction refers to
    exists, belongs to the transaction's user and has the transaction's
    type. *)
Definition categoryMatches (categories : list Category) (t : Transaction)
  : bool :=
  existsb (fun c => String.eqb (cat_id c) (tx_category t)
                    && String.eqb (cat_user c) (tx_user t)
                    && String.eqb (cat_type c) (tx_type t))
          categories.

(** ** PUT /api/budgets/:id

    The handler addresses the fields of the budget by name, so here a
    document is a finite map from the names of its paths to their values,
    and the body is the list of its own keys with their values, in the
    order of [Object.keys].  The budget is a Mongoose document, so an
    assignment [budget[key] = value] goes through the schema: what it does
    depends on what [key] names. *)

#[warnings="-register-all"]
Inductive jsval : Type :=
| JUndefined
| JNull
| JBool (b : bool)
| JNum (q : Q)
| JStr (s : string)
| JObj (fields : list (string * jsval)).

Definition isUndefined (v : jsval) : bool :=
  match v with JUndefined => true | _ => false end.

(** [doc[key] === value] for a string [value]. *)
Definition hasStr (doc : gmap string jsval) (key value : string) : bool :=
  match doc !! key with
  | Some (JStr s) => String.eqb s value
  | _ => false
  end.

(** [body[key]] *)
Definition property (body : list (string * jsval)) (key : string)
  : option jsval :=
  match find (fun kv => String.eqb (fst kv) key) body with
  | Some kv => Some (snd kv)
  | None => None
  end.

(** The paths [budgetSchema] declares. *)
Definition budgetPaths : list string :=
  ["user"; "category"; "amount"; "period"; "startDate"; "endDate"; "spent";
   "alertThresholds"; "notifications"; "isActive"; "notes"].

(** The virtuals of [budgetSchema]; each has a getter and no setter. *)
Definition budgetVirtuals : list string :=
  ["remaining"; "percentageUsed"; "status"].

(** What the library adds to every schema, and to this one for
    [timestamps: true]: the paths [_id] and [__v], the two timestamps and
    the virtual [id]. *)
Definition libraryPaths : list string :=
  ["_id"; "__v"; "createdAt"; "updatedAt"; "id"].

(** A document between [findOne] and [save]: its values, whether a path
    has been marked as modified, and whether an assignment has left a
    cast error behind. *)
Record Draft : Type := mkDraft {
  d_fields : gmap string jsval;
  d_modified : bool;
  d_castError : bool
}.

(** The budget document a [Budget] record stands for. *)
Definition docOfBudget (b : Budget) : gmap string jsval :=
  <["_id" := JStr (b_id b)]>
  (<["user" := JStr (b_user b)]>
  (<["category" := JStr (b_category b)]>
  (<["amount" := JNum (amount b)]>
  (<["period" := JStr (period b)]>
  (<["spent" := JNum (spent b)]>
  (<["isActive" := JBool (isActive b)]>
  (<["notes" := JStr (notes b)]> ∅))))))).

Fixpoint replaceFirst {A : Type} (p : A -> bool) (new : A) (l : list A)
  : list A :=
  match l with
  | [] => []
  | x :: rest => if p x then new :: rest else x :: replaceFirst p new rest
  end.

Section PutBudget.
(** What belongs to libraries outside this repository:
    [isFloat({ min: 0.01 })] on a submitted value; the value a path
    stores for an assigned one, if it can be cast to the type of the
    path; the comparison that decides whether an assignment changes a
    path; the validators the schema runs on save; and the names of the
    members of a document object other than its paths and virtuals (its
    methods, such as [save] and [populate], and its internals). *)
Variable amountValid : jsval -> bool.
Variable cast : string -> jsval -> option jsval.
Variable unchanged : jsval -> jsval -> bool.
Variable schemaValid : gmap string jsval -> bool.
Variable documentMember : string -> bool.

(** [budget[key] = value].  A path of the schema stores the cast value
    and is marked as modified when that changes it, or records a cast
    error.  A virtual has no setter, and a name the schema does not know
    becomes a property of the object that is never saved: the document's
    values stay as they are.  What an assignment to a path the library
    added or to a member of the document object does is the library's
    own affair and is not modelled: the result is [None]. *)
Definition assign (draft : Draft) (key : string) (value : jsval)
  : option Draft :=
  if existsb (String.eqb key) budgetPaths then
    match cast key value with
    | Some stored =>
        if match d_fields draft !! key with
           | Some old => unchanged old stored
           | None => false
           end
        then Some draft
        else Some {| d_fields := <[key := stored]> (d_fields draft);
                     d_modified := true;
                     d_castError := d_castError draft |}
    | None =>
        Some {| d_fields := d_fields draft;
                d_modified := d_modified draft;
                d_castError := true |}
    end
  else if existsb (String.eqb key) budgetVirtuals then Some draft
  else if existsb (String.eqb key) libraryPaths || documentMember key
  then None
  else Some draft.

(** The callback of the update loop. *)
Definition updateField (updates : list (string * jsval))
    (draft : option Draft) (key : string) : option Draft :=
  match draft with
  | Some d =>
      match property updates key with
      | Some value =>
          if negb (isUndefined value)
             && negb (String.eqb key "category")
             && negb (String.eqb key "period")
          then assign d key value
          else Some d
      | None => Some d
      end
  | None => None
  end.

(** [Object.keys(updates).forEach(...)] *)
Definition applyUpdates (budget : gmap string jsval)
    (updates : list (string * jsval)) : option Draft :=
  fold_left (updateField updates) (map fst updates)
    (Some {| d_fields := budget;
             d_modified := false;
             d_castError := false |}).

(** The filter of [Budget.findOne({ _id, user })]. *)
Definition ownedBy (user id : string) (doc : gmap string jsval) : bool :=
  hasStr doc "_id" id && hasStr doc "user" user.

(** The handler; [now] is the clock.  [budget.save()] throws on a cast
    error or a failed validator; otherwise it writes the modified paths,
    with [updatedAt] set to the time of the save, to the document it was
    read from, and writes nothing when no path is modified.  The answer
    carries the document; its populated category is left out. *)
Definition putBudget (budgets : list (gmap string jsval))
    (user id : string) (now : jsval) (body : list (string * jsval))
  : option (Response (gmap string jsval) * list (gmap string jsval)) :=
  let amountOk :=
    match property body "amount" with
    | Some value => isUndefined value || amountValid value
    | None => true
    end in
  if negb amountOk
  then Some (ValidationFailed ["Budget amount must be greater than 0"],
             budgets)
  else if isMongoId id then
    match find (ownedBy user id) budgets with
    | None => Some (NotFound "Budget not found", budgets)
    | Some budget =>
        match applyUpdates budget body with
        | Some draft =>
            if d_castError draft || negb (schemaValid (d_fields draft))
            then Some (ServerError, budgets)
            else if d_modified draft then
              let budget' := <["updatedAt" := now]> (d_fields draft) in
              Some (Ok budget',
                    replaceFirst (ownedBy user id) budget' budgets)
            else Some (Ok (d_fields draft), budgets)
        | None => None
        end
    end
  else
    (* the id cannot be cast to an ObjectId: the query throws *)
    Some (ServerError, budgets).
End PutBudget.

(** ** Specification vocabulary *)

(** The sum of a list of amounts. *)
Definition sumQ (l : list Q) : Q := fold_right Qplus 0%Q l.


(** The overlap query in the words of the contract: an active budget of
    the same user, category and period whose interval meets the new one,
    bounds included. *)
Definition overlaps (user category per : string) (newStart newEnd : Date)
    (existing : Budget) : Prop :=
  b_user existing = user /\ b_category existing = category
  /\ period existing = per /\ isActive existing = true
  /\ startDate existing <= newEnd /\ endDate existing >= newStart.

(** The transactions of a type that the trend query selects and whose
    month is [m]. *)
Definition selectedInMonth (transactions : list Transaction)
    (user : string) (year m : Z) (type : string) : list Transaction :=
  List.filter (fun t => (monthOf (tx_date t) =? m)
                        && String.eqb (tx_type t) type)
              (List.filter (trendMatch user year) transactions).

(** ** Sample data *)

Definition alice : string := "65f000000000000000000a01".

(** An expense of 100 against a Dashboard budget of 100, and one of 150. *)
Definition groceries (amount : Q) : Dashboard.Transaction :=
  {| Dashboard.t_id := "t1";
     Dashboard.t_type := "expense";
     Dashboard.t_amount := amount;
     Dashboard.t_categoryId := "food";
     Dashboard.t_date := instant 2024 3 1 0 0 |}.

Definition foodBudget : Dashboard.Budget :=
  {| Dashboard.fb_id := "b1";
     Dashboard.fb_categoryId := "food";
     Dashboard.fb_amount := 100 |}.

(** A budget of the model spent to exactly 100% whose critical threshold
    is 100 as well: it is 'exceeded'. *)
Definition fullBudget : Budget :=
  {| b_id := "65f000000000000000000b01";
     b_user := "65f000000000000000000a01";
     b_category := "65f000000000000000000c01";
     amount := 200;
     period := "monthly";
     startDate := instant 2024 3 1 0 0;
     endDate := instant 2024 3 31 0 0;
     spent := 200;
     alertThresholds := {| warning := 80; critical := 100 |};
     isActive := true;
     notes := "" |}.

(** A budget of 120 with the default thresholds and 150 spent. *)
Definition overspentBudget : Budget :=
  {| b_id := "65f000000000000000000b06";
     b_user := "65f000000000000000000a01";
     b_category := "65f000000000000000000c01";
     amount := 120;
     period := "monthly";
     startDate := instant 2024 3 1 0 0;
     endDate := instant 2024 3 31 0 0;
     spent := 150;
     alertThresholds := defaultThresholds;
     isActive := true;
     notes := "" |}.

(** A budget with amount 0 and the default thresholds. *)
Definition zeroBudget : Budget :=
  {| b_id := "65f000000000000000000b02";
     b_user := "65f000000000000000000a01";
     b_category := "65f000000000000000000c01";
     amount := 0;
     period := "monthly";
     startDate := instant 2024 3 1 0 0;
     endDate := instant 2024 3 31 0 0;
     spent := 40;
     alertThresholds := defaultThresholds;
     isActive := true;
     notes := "" |}.

(** An expense of 25 by [alice], dated as given. *)
Definition expenseAt (date : Date) : Transaction :=
  {| tx_id := "65f000000000000000000d01";
     tx_user := alice;
     tx_type := "expense";
     tx_amount := 25;
     tx_description := "lunch";
     tx_category := "65f000000000000000000c01";
     tx_date := date |}.

(** The breakdown over a resolved and an unresolved reference: [lunch]
    refers to a category that has no document, [bus] to a deactivated
    one. *)
Definition lunch : Transaction := expenseAt (instant 2024 3 15 9 30).

Definition bus : Transaction :=
  {| tx_id := "65f000000000000000000d02";
     tx_user := alice;
     tx_type := "expense";
     tx_amount := 40;
     tx_description := "bus";
     tx_category := "65f000000000000000000c02";
     tx_date := instant 2024 3 16 8 0 |}.

Definition transport : Category :=
  {| cat_id := "65f000000000000000000c02";
     cat_user := alice;
     cat_name := "Transport";
     cat_type := "expense";
     cat_color := "#ef4444";
     cat_isActive := false |}.

Definition food : Category :=
  {| cat_id := "65f000000000000000000c01";
     cat_user := alice;
     cat_name := "Food";
     cat_type := "expense";
     cat_color := "#10b981";
     cat_isActive := true |}.

(** The same two expenses as the Dashboard holds them. *)
Definition clientLunch : Dashboard.Transaction :=
  {| Dashboard.t_id := "1";
     Dashboard.t_type := "expense";
     Dashboard.t_amount := 25;
     Dashboard.t_categoryId := "7";
     Dashboard.t_date := instant 2024 3 15 9 30 |}.

Definition clientBus : Dashboard.Transaction :=
  {| Dashboard.t_id := "2";
     Dashboard.t_type := "expense";
     Dashboard.t_amount := 40;
     Dashboard.t_categoryId := "8";
     Dashboard.t_date := instant 2024 3 16 8 0 |}.

Definition clientTransport : Dashboard.Category :=
  {| Dashboard.c_id := "8";
     Dashboard.c_name := "Transport";
     Dashboard.c_color := "#ef4444";
     Dashboard.c_type := "expense" |}.

Definition monthlyFood : BudgetBody :=
  {| bb_category := "65f000000000000000000c01";
     bb_amount := Some 300%Q;
     bb_period := "monthly";
     bb_startDate := Some (instant 2024 3 1 0 0);
     bb_endDate := Some (instant 2024 3 31 0 0);
     bb_alertThresholds := None;
     bb_notes := None |}.

Definition marchFood : Budget :=
  newBudget alice "65f000000000000000000b04" monthlyFood 300
    (instant 2024 3 1 0 0) (instant 2024 3 31 0 0).

(** Two expenses of 100 and 50 and an income of 500 in March 2024. *)
Definition marchTransactions : list Transaction :=
  [ {| tx_id := "65f000000000000000000d11";
       tx_user := alice;
       tx_type := "expense";
       tx_amount := 100;
       tx_description := "groceries";
       tx_category := "65f000000000000000000c01";
       tx_date := instant 2024 3 1 0 0 |};
    {| tx_id := "65f000000000000000000d12";
       tx_user := alice;
       tx_type := "expense";
       tx_amount := 50;
       tx_description := "market";
       tx_category := "65f000000000000000000c01";
       tx_date := instant 2024 3 15 0 0 |};
    {| tx_id := "65f000000000000000000d13";
       tx_user := alice;
       tx_type := "income";
       tx_amount := 500;
       tx_description := "salary";
       tx_category := "65f000000000000000000c03";
       tx_date := instant 2024 3 10 0 0 |} ].

(** An expense of [alice] in her expense category Food, and the body
    [{ type: 'income' }]. *)
Definition dinner : Transaction :=
  {| tx_id := "65f000000000000000000d03";
     tx_user := alice;
     tx_type := "expense";
     tx_amount := 60;
     tx_description := "dinner";
     tx_category := "65f000000000000000000c01";
     tx_date := instant 2024 3 20 19 0 |}.

Definition onlyType : TransactionUpdates :=
  {| u_type := Some "income";
     u_amount := Absent;
     u_description := None;
     u_category := None;
     u_date := Absent;
     u_user := None |}.

(** A request that tries to move [marchFood] to another category and
    period and raises its amount. *)
Definition moveAndRaise : list (string * jsval) :=
  [("category", JStr "65f000000000000000000c02");
   ("period", JStr "yearly");
   ("amount", JNum 450)].

(** [marchFood] as stored, with its timestamps. *)
Definition storedMarchFood : gmap string jsval :=
  <["createdAt" := JNum (inject_Z (instant 2024 3 1 8 0))]>
  (<["updatedAt" := JNum (inject_Z (instant 2024 3 1 8 0))]>
  (docOfBudget marchFood)).

(** An instance of what the libraries do, on scalar values: a path takes
    a value of its own kind as it is and no other, two scalars are the
    same when they are equal, and [save], [populate] and [validate] are
    among the members of a document. *)
Definition castScalar (key : string) (value : jsval) : option jsval :=
  match value with
  | JNum _ =>
      if existsb (String.eqb key) ["amount"; "spent"; "startDate"; "endDate"]
      then Some value else None
  | JStr _ =>
      if existsb (String.eqb key) ["user"; "category"; "period"; "notes"]
      then Some value else None
  | JBool _ => if String.eqb key "isActive" then Some value else None
  | JObj _ =>
      if existsb (String.eqb key) ["alertThresholds"; "notifications"]
      then Some value else None
  | _ => None
  end.

Definition sameScalar (a b : jsval) : bool :=
  match a, b with
  | JNum x, JNum y => Qeq_bool x y
  | JStr x, JStr y => String.eqb x y
  | JBool x, JBool y => Bool.eqb x y
  | JNull, JNull => true
  | _, _ => false
  end.

Definition knownMembers (key : string) : bool :=
  existsb (String.eqb key) ["save"; "populate"; "validate"].

(** ** GET /api/transactions

    A stored transaction carries, besides the fields of [Transaction], the
    notes the search looks into and the creation time the sort falls back
    on. *)

Record StoredTransaction : Type := mkStoredTransaction {
  sd_doc : Transaction;
  sd_notes : string;
  sd_createdAt : Date
}.

(** What [populate('category', 'name color type')] puts in place of the
    category id. *)
Record CategoryRef : Type := mkCategoryRef {
  cr_id : string;
  cr_name : string;
  cr_color : string;
  cr_type : string
}.

Definition populate (categories : list Category) (t : Transaction)
  : option CategoryRef :=
  match find (fun c => String.eqb (cat_id c) (tx_category t)) categories with
  | Some c =>
      Some {| cr_id := cat_id c;
              cr_name := cat_name c;
              cr_color := cat_color c;
              cr_type := cat_type c |}
  | None => None
  end.

(** The query string.  [page] and [limit] are [Malformed] when they are
    not integers, a date when it is not an ISO 8601 date. *)
Record ListQuery : Type := mkListQuery {
  q_page : Field Z;
  q_limit : Field Z;
  q_type : option string;
  q_category : option string;
  q_startDate : Field Date;
  q_endDate : Field Date;
  q_search : option string
}.

Definition validateListQuery (q : ListQuery) : list string :=
  check (match q_page q with
         | Absent => true
         | Present n => 1 <=? n
         | Malformed => false
         end)
    "Page must be a positive integer"
  ++ check (match q_limit q with
            | Absent => true
            | Present n => (1 <=? n) && (n <=? 100)
            | Malformed => false
            end)
       "Limit must be between 1 and 100"
  ++ check (match q_type q with
            | Some type => isIn ["income"; "expense"] type
            | None => true
            end)
       "Type must be income or expense"
  ++ check (match q_startDate q with Malformed => false | _ => true end)
       "Start date must be valid"
  ++ check (match q_endDate q with Malformed => false | _ => true end)
       "End date must be valid".

Record Pagination : Type := mkPagination {
  pg_current : Z;
  pg_pages : Z;
  pg_total : Z;
  pg_hasNext : bool;
  pg_hasPrev : bool
}.

Record ListResult : Type := mkListResult {
  lr_transactions : list (StoredTransaction * option CategoryRef);
  lr_pagination : Pagination
}.

(** [{ date: -1, createdAt: -1 }]: whether [a] may precede [b]. *)
Definition newestFirst (a b : StoredTransaction) : bool :=
  (tx_date (sd_doc b) <? tx_date (sd_doc a))
  || (tx_date (sd_doc a) =? tx_date (sd_doc b))
     && (sd_createdAt b <=? sd_createdAt a).

Definition fieldValue {A : Type} (f : Field A) : option A :=
  match f with Present a => Some a | _ => None end.

Section ListTransactions.
(** [{ $regex: pattern, $options: 'i' }] is the database's: a pattern
    gives a test on strings, or none when it is not a regular
    expression, in which case the query fails. *)
Variable regexCI : string -> option (string -> bool).

(** The filter object the handler builds; [None] when the query that
    uses it throws. *)
Definition listFilter (user : string) (q : ListQuery)
  : option (StoredTransaction -> bool) :=
  let byType :=
    match q_type q with
    | Some type =>
        if truthy type then fun t => String.eqb (tx_type t) type
        else fun _ => true
    | None => fun _ => true
    end in
  let byCategory :=
    match q_category q with
    | Some category =>
        if truthy category then
          if isMongoId category
          then Some (fun t => String.eqb (tx_category t) category)
          else None
        else Some (fun _ => true)
    | None => Some (fun _ => true)
    end in
  let bySearch :=
    match q_search q with
    | Some search =>
        if truthy search then
          match regexCI search with
          | Some test =>
              Some (fun st => test (tx_description (sd_doc st))
                              || test (sd_notes st))
          | None => None
          end
        else Some (fun _ => true)
    | None => Some (fun _ => true)
    end in
  match byCategory, bySearch with
  | Some inCategory, Some found =>
      Some (fun st =>
              String.eqb (tx_user (sd_doc st)) user
              && byType (sd_doc st)
              && inCategory (sd_doc st)
              && dateInRange (fieldValue (q_startDate q))
                   (fieldValue (q_endDate q)) (tx_date (sd_doc st))
              && found st)
  | _, _ => None
  end.

(** The handler.  [stored] is the collection in the order in which the
    query meets its documents, which is the database's to choose and may
    differ from one query to the next; the sort is stable, so documents
    that tie on date and createdAt come out in that order. *)
Definition getTransactions (stored : list StoredTransaction)
    (categories : list Category) (user : string) (q : ListQuery)
  : Response ListResult :=
  match validateListQuery q with
  | (_ :: _) as errors => ValidationFailed errors
  | [] =>
    let page := match q_page q with Present n => n | _ => 1 end in
    let limit := match q_limit q with Present n => n | _ => 20 end in
    match listFilter user q with
    | None => ServerError
    | Some filter =>
      let skip := (page - 1) * limit in
      let matching := List.filter filter stored in
      let transactions :=
        firstn (Z.to_nat limit)
               (skipn (Z.to_nat skip) (sort newestFirst matching)) in
      let total := Z.of_nat (length matching) in
      Ok {| lr_transactions :=
              map (fun st => (st, populate categories (sd_doc st)))
                  transactions;
            lr_pagination :=
              {| pg_current := page;
                 pg_pages := Qceiling (inject_Z total / inject_Z limit);
                 pg_total := total;
                 pg_hasNext :=
                   skip + Z.of_nat (length transactions) <? total;
                 pg_hasPrev := 1 <? page |} |}
    end
  end.
End ListTransactions.

(** The same query for another page. *)
Definition withPage (q : ListQuery) (page : Z) : ListQuery :=
  {| q_page := Present page;
     q_limit := q_limit q;
     q_type := q_type q;
     q_category := q_category q;
     q_startDate := q_startDate q;
     q_endDate := q_endDate q;
     q_search := q_search q |}.

(** ** DELETE /api/budgets/:id and DELETE /api/transactions/:id *)

(** [findOneAndDelete(filter)]: the collection without its first document
    that passes the filter. *)
Fixpoint removeFirst {A : Type} (p : A -> bool) (l : list A) : list A :=
  match l with
  | [] => []
  | x :: rest => if p x then rest else x :: removeFirst p rest
  end.

(** Casting an id that is not an ObjectId makes the query throw, which the
    handler answers with status 500. *)
Definition deleteBudget (budgets : list Budget) (user id : string)
  : Response string * list Budget :=
  if isMongoId id then
    let filter := fun b => String.eqb (b_id b) id
                           && String.eqb (b_user b) user in
    match find filter budgets with
    | None => (NotFound "Budget not found", budgets)
    | Some budget =>
        (Ok "Budget deleted successfully", removeFirst filter budgets)
    end
  else (ServerError, budgets).

Definition deleteTransaction (transactions : list Transaction)
    (user id : string) : Response string * list Transaction :=
  if isMongoId id then
    let filter := fun t => String.eqb (tx_id t) id
                           && String.eqb (tx_user t) user in
    match find filter transactions with
    | None => (NotFound "Transaction not found", transactions)
    | Some transaction =>
        (Ok "Transaction deleted successfully",
         removeFirst filter transactions)
    end
  else (ServerError, transactions).

(** ** GET /api/categories and DELETE /api/categories/:id *)

(** [{ name: 1 }]: by the code points of the name. *)
Definition byName (a b : Category) : bool :=
  String.leb (cat_name a) (cat_name b).

(** The list of the requester's active categories, of one type when the
    query names one. *)
Definition getCategories (categories : list Category) (user : string)
    (type : option string) : list Category :=
  sort byName
    (List.filter
       (fun c => String.eqb (cat_user c) user
                 && cat_isActive c
                 && match type with
                    | Some type =>
                        if truthy type then String.eqb (cat_type c) type
                        else true
                    | None => true
                    end)
       categories).

(** [category.isActive = false] *)
Definition deactivate (c : Category) : Category :=
  {| cat_id := cat_id c;
     cat_user := cat_user c;
     cat_name := cat_name c;
     cat_type := cat_type c;
     cat_color := cat_color c;
     cat_isActive := false |}.

(** The delete handler: a soft delete when a transaction of the requester
    uses the category, a hard delete otherwise.  The answer carries the
    message and, after a soft delete, the category. *)
Definition deleteCategory (categories : list Category)
    (transactions : list Transaction) (user id : string)
  : Response (string * option Category) * list Category :=
  if isMongoId id then
    match find (fun c => String.eqb (cat_id c) id
                         && String.eqb (cat_user c) user) categories with
    | None => (NotFound "Category not found", categories)
    | Some category =>
        let transactionCount :=
          length (List.filter
                    (fun t => String.eqb (tx_user t) user
                              && String.eqb (tx_category t) (cat_id category))
                    transactions) in
        if (0 <? transactionCount)%nat then
          (Ok ("Category deactivated successfully (has associated transactions)",
               Some (deactivate category)),
           replaceFirst (fun c => String.eqb (cat_id c) (cat_id category))
                        (deactivate category) categories)
        else
          (Ok ("Category deleted successfully", None),
           removeFirst (fun c => String.eqb (cat_id c) (cat_id category))
                       categories)
    end
  else (ServerError, categories).

(** ** Dashboard: recent transactions *)

(** The comparator [(a, b) => new Date(b.date) - new Date(a.date)] of a
    stable sort: whether [a] may precede [b]. *)
Definition laterFirst (a b : Dashboard.Transaction) : bool :=
  (Dashboard.t_date b <=? Dashboard.t_date a)%Z.

(** [recentTransactions]: [[...transactions].sort(...).slice(0, 10)] *)
Definition recentTransactions (transactions : list Dashboard.Transaction)
  : list Dashboard.Transaction :=
  firstn 10 (sort laterFirst transactions).

(** ** Further vocabulary *)

(** What the listing sorts by. *)
Definition sortKey (st : StoredTransaction) : Z * Z :=
  (tx_date (sd_doc st), sd_createdAt st).

(** The names of the properties every object literal inherits from
    [Object.prototype]. *)
Definition objectPrototypeNames : list string :=
  ["constructor"; "__defineGetter__"; "__defineSetter__"; "hasOwnProperty";
   "__lookupGetter__"; "__lookupSetter__"; "isPrototypeOf";
   "propertyIsEnumerable"; "toString"; "valueOf"; "__proto__";
   "toLocaleString"].

(** The expenses of the month that the Dashboard files under a label. *)
Definition expensesLabelled (currentMonth : list Dashboard.Transaction)
    (categories : list Dashboard.Category) (name : string)
  : list Dashboard.Transaction :=
  List.filter
    (fun t => String.eqb (Dashboard.categoryLabel categories t) name)
    (List.filter (fun t => String.eqb (Dashboard.t_type t) "expense")
                 currentMonth).


(** The severity of a status name: good, warning, critical, exceeded. *)
Definition statusRank (s : string) : Z :=
  if String.eqb s "exceeded" then 3
  else if String.eqb s "critical" then 2
  else if String.eqb s "warning" then 1
  else 0.

(** Two budgets the overlap rule does not allow side by side: active, of
    the same user, category and period, with intervals that meet. *)
Definition conflict (a b : Budget) : bool :=
  String.eqb (b_user a) (b_user b)
  && String.eqb (b_category a) (b_category b)
  && String.eqb (period a) (period b)
  && isActive a && isActive b
  && (startDate a <=? endDate b) && (startDate b <=? endDate a).

(** The invariant of the budgets collection: no two of its documents are
    in conflict. *)
Fixpoint noOverlap (budgets : list Budget) : bool :=
  match budgets with
  | [] => true
  | b :: rest =>
      forallb (fun b' => negb (conflict b b')) rest && noOverlap rest
  end.

(** The sum of a list of counts. *)
Definition sumZ (l : list Z) : Z := fold_right Z.add 0%Z l.

(** The count the summary reports for a type. *)
Definition summaryCount (s : Summary) (type : string) : Z :=
  if String.eqb type "income" then st_count (income s)
  else if String.eqb type "expense" then st_count (expense s)
  else 0.

(** The transactions of a user and a type dated inside the bounds, where
    a bound that is not given excludes nothing. *)
Definition summarySelected (transactions : list Transaction) (user : string)
    (startDate endDate : option Date) (type : string) : list Transaction :=
  List.filter
    (fun t =>
       String.eqb (tx_user t) user
       && String.eqb (tx_type t) type
       && match startDate with Some s => (s <=? tx_date t)%Z | None => true end
       && match endDate with Some e => (tx_date t <=? e)%Z | None => true end)
    transactions.

(** A budget of 120 with the default thresholds and 60 spent. *)
Definition halfSpentBudget : Budget :=
  {| b_id := "65f000000000000000000b07";
     b_user := "65f000000000000000000a01";
     b_category := "65f000000000000000000c01";
     amount := 120;
     period := "monthly";
     startDate := instant 2024 3 1 0 0;
     endDate := instant 2024 3 31 0 0;
     spent := 60;
     alertThresholds := defaultThresholds;
     isActive := true;
     notes := "" |}.

(** The transactions the breakdown selects, and those of them that refer
    to one category. *)
Definition breakdownMatched (transactions : list Transaction)
    (user type : string) (startDate endDate : option Date)
  : list Transaction :=
  List.filter (fun t => String.eqb (tx_user t) user
                        && String.eqb (tx_type t) type
                        && dateInRange startDate endDate (tx_date t))
              transactions.

Definition breakdownOfCategory (transactions : list Transaction)
    (user type : string) (startDate endDate : option Date)
    (category : string) : list Transaction :=
  List.filter (fun t => String.eqb category (tx_category t))
              (breakdownMatched transactions user type startDate endDate).

(** The month a day of the 400-year cycle falls in: [civilFromDays] reads
    the month off the day of the era alone. *)
Definition monthOfEraDay (doe : Z) : Z :=
  let yoe := (doe - doe / 1460 + doe / 36524 - doe / 146096) / 365 in
  let doy := doe - (365 * yoe + yoe / 4 - yoe / 100) in
  let mp := (5 * doy + 2) / 153 in
  if mp <? 10 then mp + 3 else mp - 9.

(** Whether the [n] days of the cycle from [doe] on all fall in a month
    from 1 to 12. *)
Fixpoint monthsInRange (n : nat) (doe : Z) : bool :=
  match n with
  | O => true
  | S n' =>
      let m := monthOfEraDay doe in
      (1 <=? m) && (m <=? 12) && monthsInRange n' (doe + 1)
  end.

(** The month numbers of the twelve entries. *)
Definition monthNumbers : list Z := [1; 2; 3; 4; 5; 6; 7; 8; 9; 10; 11; 12].

(** The transactions of a type that the trend query selects. *)
Definition selectedInYear (transactions : list Transaction)
    (user : string) (year : Z) (type : string) : list Transaction :=
  List.filter (fun t => String.eqb (tx_type t) type)
              (List.filter (trendMatch user year) transactions).

(** A monthly food budget for April 2024. *)
Definition aprilFood : BudgetBody :=
  {| bb_category := "65f000000000000000000c01";
     bb_amount := Some 320%Q;
     bb_period := "monthly";
     bb_startDate := Some (instant 2024 4 1 0 0);
     bb_endDate := Some (instant 2024 4 30 0 0);
     bb_alertThresholds := None;
     bb_notes := None |}.

(** A request to record a lunch of 12.50 in the category Food. *)
Definition lunchBody : TransactionBody :=
  {| tb_type := "expense";
     tb_amount := Some (25 # 2)%Q;
     tb_description := "  lunch ";
     tb_category := "65f000000000000000000c01";
     tb_date := Present (instant 2024 3 21 12 30) |}.

(** The three transactions of March 2024 as stored, created in the order
    of the list, and a query for the first page of two. *)
Definition storedMarch : list StoredTransaction :=
  map (fun t => {| sd_doc := t; sd_notes := ""; sd_createdAt := tx_date t |})
      marchTransactions.

Definition pagesOfTwo : ListQuery :=
  {| q_page := Present 1;
     q_limit := Present 2;
     q_type := None;
     q_category := None;
     q_startDate := Absent;
     q_endDate := Absent;
     q_search := None |}.

(** * Properties *)

(** ** Comparisons and arithmetic on numbers *)

Lemma Qltb_lt x y : Qltb x y = true <-> (x < y)%Q.
Proof.
  unfold Qltb. rewrite negb_true_iff. split.
  - intros H. apply Qnot_le_lt. intros Hle.
    apply Qle_bool_iff in Hle. congruence.
  - intros H. destruct (Qle_bool y x) eqn:E; [|reflexivity].
    apply Qle_bool_iff in E. exfalso. exact (Qlt_not_le _ _ H E).
Qed.

Lemma Qltb_ge x y : Qltb x y = false <-> (y <= x)%Q.
Proof.
  unfold Qltb. rewrite negb_false_iff. apply Qle_bool_iff.
Qed.

Lemma Qle_bool_gt x y : Qle_bool x y = false <-> (y < x)%Q.
Proof.
  split.
  - intros H. apply Qnot_le_lt. intros Hle.
    apply Qle_bool_iff in Hle. congruence.
  - intros H. destruct (Qle_bool x y) eqn:E; [|reflexivity].
    apply Qle_bool_iff in E. lra.
Qed.

(** Turns the boolean comparisons among the hypotheses into
    propositions. *)
Ltac qprop :=
  repeat match goal with
  | H : Qle_bool _ _ = true |- _ => apply Qle_bool_iff in H
  | H : Qle_bool _ _ = false |- _ => apply Qle_bool_gt in H
  | H : Qltb _ _ = true |- _ => apply Qltb_lt in H
  | H : Qltb _ _ = false |- _ => apply Qltb_ge in H
  | H : Qeq_bool _ _ = true |- _ => apply Qeq_bool_iff in H
  | H : Qeq_bool _ _ = false |- _ => apply Qeq_bool_neq in H
  end.

Lemma js_div_nonzero a b : ~ (b == 0)%Q -> js_div a b = Num (a / b).
Proof.
  intros Hb. unfold js_div.
  destruct (Qeq_bool b 0) eqn:E; [|reflexivity].
  qprop. contradiction.
Qed.

(** The guarded percentage expression shared by the model and the
    client: the division is reached only with a positive divisor. *)
Lemma guarded_percentage spent amount :
  (if Qltb 0 amount then js_mul (js_div spent amount) 100 else Num 0)
  = Num (if Qltb 0 amount then spent / amount * 100 else 0)%Q.
Proof.
  destruct (Qltb 0 amount) eqn:E; [|reflexivity].
  qprop. rewrite js_div_nonzero; [reflexivity|]. lra.
Qed.

Lemma percentageUsed_Num (b : Budget) :
  percentageUsed b
  = Num (if Qltb 0 (amount b) then spent b / amount b * 100 else 0)%Q.
Proof. apply guarded_percentage. Qed.

Lemma Math_max_Qmax a b : (Math_max a b == Qmax a b)%Q.
Proof.
  unfold Math_max. destruct (Qle_bool a b) eqn:E; qprop.
  - symmetry. apply Q.max_r. exact E.
  - symmetry. apply Q.max_l. lra.
Qed.

(** ** The virtuals of the Budget model *)

Lemma status_by_thresholds (b : Budget) (p : Q) :
  percentageUsed b = Num p ->
  ((100 <= p)%Q -> status b = "exceeded") /\
  ((p < 100)%Q -> (critical (alertThresholds b) <= p)%Q ->
   status b = "critical") /\
  ((p < 100)%Q -> (p < critical (alertThresholds b))%Q ->
   (warning (alertThresholds b) <= p)%Q -> status b = "warning") /\
  ((p < 100)%Q -> (p < critical (alertThresholds b))%Q ->
   (p < warning (alertThresholds b))%Q -> status b = "good").
Proof.
  intros Hp. unfold status. rewrite Hp. simpl.
  destruct (Qle_bool 100 p) eqn:E1;
    destruct (Qle_bool (critical (alertThresholds b)) p) eqn:E2;
    destruct (Qle_bool (warning (alertThresholds b)) p) eqn:E3;
    qprop; repeat split; intros; try reflexivity; lra.
Qed.

Lemma remaining_nonneg (b : Budget) : (0 <= remaining b)%Q.
Proof.
  unfold remaining, Math_max.
  destruct (Qle_bool 0 (amount b - spent b)) eqn:E; qprop; lra.
Qed.

(** ** The budget cards of the Dashboard *)

Lemma dashboard_percentage_Num cm cats fb :
  Dashboard.bc_percentage (Dashboard.budgetStatus cm cats fb)
  = Num (if Qltb 0 (Dashboard.fb_amount fb)
         then Dashboard.bc_spent (Dashboard.budgetStatus cm cats fb)
              / Dashboard.fb_amount fb * 100
         else 0)%Q.
Proof. apply guarded_percentage. Qed.

Lemma dashboard_status_by_fixed_thresholds cm cats fb p :
  Dashboard.bc_percentage (Dashboard.budgetStatus cm cats fb) = Num p ->
  ((100 < p)%Q ->
   Dashboard.bc_status (Dashboard.budgetStatus cm cats fb) = "over") /\
  ((p <= 100)%Q -> (80 < p)%Q ->
   Dashboard.bc_status (Dashboard.budgetStatus cm cats fb) = "warning") /\
  ((p <= 80)%Q ->
   Dashboard.bc_status (Dashboard.budgetStatus cm cats fb) = "good").
Proof.
  unfold Dashboard.budgetStatus.
  cbn [Dashboard.bc_percentage Dashboard.bc_status].
  intros Hp. rewrite Hp. simpl.
  destruct (Qltb 100 p) eqn:E1; destruct (Qltb 80 p) eqn:E2;
    qprop; repeat split; intros; try reflexivity; lra.
Qed.

(** C1, counterexample: on the Dashboard a budget spent to exactly 100% is
    classified 'warning'; it is neither 'exceeded' nor 'over'. *)
Lemma dashboard_status_at_exactly_100 :
  exists p,
    Dashboard.bc_percentage
      (Dashboard.budgetStatus [groceries 100] [] foodBudget) = Num p
    /\ (p == 100)%Q
    /\ Dashboard.bc_status
         (Dashboard.budgetStatus [groceries 100] [] foodBudget) = "warning"
    /\ Dashboard.bc_status
         (Dashboard.budgetStatus [groceries 100] [] foodBudget) <> "exceeded"
    /\ Dashboard.bc_status
         (Dashboard.budgetStatus [groceries 100] [] foodBudget) <> "over".
Proof.
  eexists. split; [vm_compute; reflexivity|].
  split; [reflexivity|].
  split; [vm_compute; reflexivity|].
  split; vm_compute; discriminate.
Qed.

(** C1, as amended: the status virtual of the Budget model classifies by
    threshold order, highest threshold first: 'exceeded' from 100%,
    else 'critical' from the budget's critical threshold, else 'warning'
    from its warning threshold, else 'good'.  The Dashboard has no
    per-budget thresholds and compares strictly: 'over' above 100%,
    else 'warning' above 80%, else 'good'. *)
Theorem budget_status_classification :
  (forall b : Budget, exists p,
     percentageUsed b = Num p /\
     ((100 <= p)%Q -> status b = "exceeded") /\
     ((p < 100)%Q -> (critical (alertThresholds b) <= p)%Q ->
      status b = "critical") /\
     ((p < 100)%Q -> (p < critical (alertThresholds b))%Q ->
      (warning (alertThresholds b) <= p)%Q -> status b = "warning") /\
     ((p < 100)%Q -> (p < critical (alertThresholds b))%Q ->
      (p < warning (alertThresholds b))%Q -> status b = "good"))
  /\
  (forall cm cats fb, exists p,
     Dashboard.bc_percentage (Dashboard.budgetStatus cm cats fb) = Num p /\
     ((100 < p)%Q ->
      Dashboard.bc_status (Dashboard.budgetStatus cm cats fb) = "over") /\
     ((p <= 100)%Q -> (80 < p)%Q ->
      Dashboard.bc_status (Dashboard.budgetStatus cm cats fb) = "warning") /\
     ((p <= 80)%Q ->
      Dashboard.bc_status (Dashboard.budgetStatus cm cats fb) = "good")).
Proof.
  split.
  - intros b. eexists. split; [apply percentageUsed_Num|].
    apply status_by_thresholds, percentageUsed_Num.
  - intros cm cats fb. eexists. split; [apply dashboard_percentage_Num|].
    apply dashboard_status_by_fixed_thresholds, dashboard_percentage_Num.
Qed.

Example status_exactly_100_critical_100 : status fullBudget = "exceeded".
Proof. vm_compute. reflexivity. Qed.

(** 150 spent of 120: nothing remains, 125% is used, the status is
    'exceeded'. *)
Example overspent_budget_virtuals :
  (remaining overspentBudget == 0)%Q
  /\ (exists p, percentageUsed overspentBudget = Num p /\ (p == 125)%Q)
  /\ status overspentBudget = "exceeded".
Proof.
  split; [reflexivity|]. split; [|vm_compute; reflexivity].
  eexists. split; [vm_compute; reflexivity | reflexivity].
Qed.

(** C2, counterexample: with 150 spent against a Dashboard budget of 100
    the remaining value is -50. *)
Lemma dashboard_remaining_negative :
  (Dashboard.bc_remaining
     (Dashboard.budgetStatus [groceries 150] [] foodBudget) == -50)%Q
  /\ ~ (0 <= Dashboard.bc_remaining
              (Dashboard.budgetStatus [groceries 150] [] foodBudget))%Q
  /\ ~ (Dashboard.bc_remaining
          (Dashboard.budgetStatus [groceries 150] [] foodBudget)
        == Qmax 0 (Dashboard.fb_amount foodBudget
                   - Dashboard.bc_spent
                       (Dashboard.budgetStatus [groceries 150] [] foodBudget)))%Q.
Proof.
  split; [reflexivity|]. split.
  - vm_compute. intros H. apply H. reflexivity.
  - intros H. rewrite Q.max_l in H; [discriminate H|].
    vm_compute. discriminate.
Qed.

(** C2, as amended: the remaining virtual of the Budget model equals
    max(0, amount - spent) and is never negative; the Dashboard reports
    the signed difference amount - spent, which is negative exactly when
    the spending exceeds the amount. *)
Theorem budget_remaining :
  (forall b : Budget,
     (remaining b == Qmax 0 (amount b - spent b))%Q
     /\ (0 <= remaining b)%Q)
  /\
  (forall cm cats fb,
     Dashboard.bc_remaining (Dashboard.budgetStatus cm cats fb)
     = (Dashboard.fb_amount fb
        - Dashboard.bc_spent (Dashboard.budgetStatus cm cats fb))%Q
     /\ ((Dashboard.bc_remaining (Dashboard.budgetStatus cm cats fb) < 0)%Q
         <-> (Dashboard.fb_amount fb
              < Dashboard.bc_spent (Dashboard.budgetStatus cm cats fb))%Q)).
Proof.
  split.
  - intros b. split; [apply Math_max_Qmax | apply remaining_nonneg].
  - intros cm cats fb. split; [reflexivity|].
    unfold Dashboard.budgetStatus.
    cbn [Dashboard.bc_remaining Dashboard.bc_spent].
    split; intros H; lra.
Qed.

(** C3: percentageUsed is spent / amount * 100 for a positive amount and 0
    for a zero amount; it is always a finite number, the division being
    reached only with a positive divisor; a budget with amount 0 and the
    default thresholds has status 'good'.  The Dashboard computes the same
    percentage and also reports 'good' for a zero amount. *)
Theorem percentage_guarded :
  (forall b : Budget,
     ((0 < amount b)%Q ->
      percentageUsed b = Num (spent b / amount b * 100)%Q) /\
     ((amount b == 0)%Q -> percentageUsed b = Num 0) /\
     is_finite (percentageUsed b) = true /\
     ((amount b == 0)%Q -> alertThresholds b = defaultThresholds ->
      status b = "good"))
  /\
  (forall cm cats fb,
     ((0 < Dashboard.fb_amount fb)%Q ->
      Dashboard.bc_percentage (Dashboard.budgetStatus cm cats fb)
      = Num (Dashboard.bc_spent (Dashboard.budgetStatus cm cats fb)
             / Dashboard.fb_amount fb * 100)%Q) /\
     ((Dashboard.fb_amount fb == 0)%Q ->
      Dashboard.bc_percentage (Dashboard.budgetStatus cm cats fb) = Num 0
      /\ Dashboard.bc_status (Dashboard.budgetStatus cm cats fb) = "good")).
Proof.
  split.
  - intros b. rewrite percentageUsed_Num.
    destruct (Qltb 0 (amount b)) eqn:E; qprop.
    + repeat split; try reflexivity; intros; lra.
    + repeat split; try reflexivity; try (intros; lra).
      intros _ Hthr. unfold status. rewrite percentageUsed_Num.
      apply Qltb_ge in E. rewrite E, Hthr. reflexivity.
  - intros cm cats fb. split.
    + intros Hpos. rewrite dashboard_percentage_Num.
      apply Qltb_lt in Hpos. rewrite Hpos. reflexivity.
    + intros Hz. unfold Dashboard.budgetStatus.
      cbn [Dashboard.bc_percentage Dashboard.bc_status].
      assert (E : Qltb 0 (Dashboard.fb_amount fb) = false)
        by (apply Qltb_ge; lra).
      rewrite E. split; reflexivity.
Qed.

Lemma percentage_guarded_witness :
  percentageUsed zeroBudget = Num 0 /\ status zeroBudget = "good".
Proof.
  destruct percentage_guarded as [Hmodel _].
  destruct (Hmodel zeroBudget) as (_ & Hzero & _ & Hgood).
  split; [apply Hzero; reflexivity | apply Hgood; reflexivity].
Defined.

(** ** Pipeline stages *)

Section GroupFacts.
Context {D K A : Type}.
Variable key : D -> K.
Variable keq : K -> K -> bool.
Variable init : D -> A.
Variable step : A -> D -> A.

(** Every group key is the key of some input document. *)
Lemma upsert_keys d groups k :
  In k (map fst (upsert key keq init step d groups)) ->
  k = key d \/ In k (map fst groups).
Proof.
  induction groups as [|[k0 a0] rest IH]; simpl.
  - intros [H|[]]. left. symmetry. exact H.
  - destruct (keq k0 (key d)); simpl.
    + intros H. right. exact H.
    + intros [H|H]; [right; left; exact H|].
      destruct (IH H) as [H'|H']; [left|right; right]; exact H'.
Qed.

Lemma group_keys_from docs groups k :
  In k (map fst (fold_left (fun g d => upsert key keq init step d g)
                           docs groups)) ->
  In k (map fst groups) \/ exists d, In d docs /\ key d = k.
Proof.
  revert groups. induction docs as [|d docs IH]; simpl; intros groups H.
  - left. exact H.
  - destruct (IH _ H) as [H'|(d' & Hin & Hk)].
    + destruct (upsert_keys _ _ _ H') as [Hk|Hg].
      * right. exists d. split; [left; reflexivity | symmetry; exact Hk].
      * left. exact Hg.
    + right. exists d'. split; [right; exact Hin | exact Hk].
Qed.

Lemma group_keys docs k :
  In k (map fst (group key keq init step docs)) ->
  exists d, In d docs /\ key d = k.
Proof.
  intros H. destruct (group_keys_from _ _ _ H) as [[]|H']. exact H'.
Qed.
End GroupFacts.

Section SortFacts.
Context {A : Type}.
Variable before : A -> A -> bool.

Lemma insert_sorted_perm x l :
  Permutation (insert_sorted before x l) (x :: l).
Proof.
  induction l as [|y rest IH]; simpl.
  - reflexivity.
  - destruct (before y x).
    + rewrite IH. apply perm_swap.
    + reflexivity.
Qed.

Lemma sort_from_perm l acc :
  Permutation (fold_left (fun acc x => insert_sorted before x acc) l acc)
              (l ++ acc)%list.
Proof.
  revert acc. induction l as [|x l IH]; simpl; intros acc.
  - reflexivity.
  - rewrite IH, insert_sorted_perm. symmetry. apply Permutation_middle.
Qed.

Lemma sort_perm l : Permutation (sort before l) l.
Proof.
  unfold sort. rewrite sort_from_perm, app_nil_r. reflexivity.
Qed.
End SortFacts.


Lemma mapi_from_nth {A B : Type} (f : A -> nat -> B) i l n x :
  nth_error l n = Some x ->
  nth_error (mapi_from f i l) n = Some (f x (i + n)%nat).
Proof.
  revert i n. induction l as [|y l IH]; intros i [|n]; simpl; try discriminate.
  - intros [= ->]. rewrite Nat.add_0_r. reflexivity.
  - intros H. rewrite (IH (S i) n H). f_equal. f_equal. lia.
Qed.

(** ** Totals of grouped documents *)

Lemma sumQ_app l1 l2 : (sumQ (l1 ++ l2) == sumQ l1 + sumQ l2)%Q.
Proof.
  induction l1 as [|x l1 IH]; simpl.
  - lra.
  - rewrite IH. lra.
Qed.

Lemma sumQ_perm l1 l2 : Permutation l1 l2 -> (sumQ l1 == sumQ l2)%Q.
Proof.
  induction 1 as [|x l l' _ IH|x y l|l l' l'' _ IH1 _ IH2]; simpl.
  - reflexivity.
  - rewrite IH. reflexivity.
  - lra.
  - rewrite IH1. exact IH2.
Qed.

Lemma NoDup_snoc {A : Type} (l : list A) (x : A) :
  List.NoDup l -> ~ In x l -> List.NoDup (l ++ [x])%list.
Proof.
  induction l as [|y l IH]; simpl; intros Hl Hx.
  - constructor; [intros []|constructor].
  - inversion Hl as [|? ? Hy Hl']; subst. constructor.
    + rewrite in_app_iff. intros [H|[H|[]]]; [exact (Hy H)|].
      apply Hx. left. symmetry. exact H.
    + apply IH; [exact Hl'|]. intros H. apply Hx. right. exact H.
Qed.

Section GroupTotals.
Context {D K A : Type}.
Variable key : D -> K.
Variable keq : K -> K -> bool.
Variable init : D -> A.
Variable step : A -> D -> A.

(** [m] reads the running total of an accumulator to which each
    document contributes [w]. *)
Variable m : A -> Q.
Variable w : D -> Q.
Hypothesis m_init : forall d, (m (init d) == w d)%Q.
Hypothesis m_step : forall a d, (m (step a d) == m a + w d)%Q.

Let totals (groups : list (K * A)) : Q :=
  sumQ (map (fun g => m (snd g)) groups).

Lemma upsert_totals d groups :
  (totals (upsert key keq init step d groups) == totals groups + w d)%Q.
Proof.
  unfold totals. induction groups as [|[k a] rest IH]; simpl.
  - rewrite m_init. lra.
  - destruct (keq k (key d)); simpl.
    + rewrite m_step. lra.
    + rewrite IH. lra.
Qed.

Lemma group_totals_from docs groups :
  (totals (fold_left (fun g d => upsert key keq init step d g) docs groups)
   == totals groups + sumQ (map w docs))%Q.
Proof.
  revert groups. induction docs as [|d docs IH]; simpl; intros groups.
  - lra.
  - rewrite IH, upsert_totals. lra.
Qed.

(** The group totals add up to the total over all input documents. *)
Lemma group_totals docs :
  (sumQ (map (fun g => m (snd g)) (group key keq init step docs))
   == sumQ (map w docs))%Q.
Proof.
  pose proof (group_totals_from docs []) as H.
  unfold totals, group in *. simpl in H. rewrite H. lra.
Qed.

Hypothesis keq_eq : forall a b, keq a b = true <-> a = b.

Lemma keq_sym a b : keq a b = keq b a.
Proof.
  destruct (keq a b) eqn:E1, (keq b a) eqn:E2; try reflexivity.
  - apply keq_eq in E1. subst. rewrite (proj2 (keq_eq b b) eq_refl) in E2.
    discriminate.
  - apply keq_eq in E2. subst. rewrite (proj2 (keq_eq a a) eq_refl) in E1.
    discriminate.
Qed.

(** The total of the group with key [k], 0 when there is none. *)
Let totalOf (k : K) (groups : list (K * A)) : Q :=
  match find (fun g => keq (fst g) k) groups with
  | Some g => m (snd g)
  | None => 0
  end.

Lemma upsert_totalOf d groups k :
  (totalOf k (upsert key keq init step d groups)
   == totalOf k groups + (if keq k (key d) then w d else 0))%Q.
Proof.
  unfold totalOf. induction groups as [|[k0 a0] rest IH]; simpl.
  - rewrite (keq_sym (key d) k). destruct (keq k (key d)); simpl.
    + rewrite m_init. lra.
    + lra.
  - destruct (keq k0 (key d)) eqn:E0; simpl.
    + apply keq_eq in E0. subst k0.
      rewrite (keq_sym (key d) k). destruct (keq k (key d)); simpl.
      * rewrite m_step. lra.
      * lra.
    + destruct (keq k0 k) eqn:E1; simpl.
      * apply keq_eq in E1. subst k0. rewrite E0. lra.
      * exact IH.
Qed.

Lemma group_totalOf_from docs groups k :
  (totalOf k (fold_left (fun g d => upsert key keq init step d g) docs groups)
   == totalOf k groups
      + sumQ (map w (List.filter (fun d => keq k (key d)) docs)))%Q.
Proof.
  revert groups. induction docs as [|d docs IH]; simpl; intros groups.
  - lra.
  - rewrite IH, upsert_totalOf. destruct (keq k (key d)); simpl; lra.
Qed.

(** The total of one group is the total over the documents with its
    key. *)
Lemma group_totalOf docs k :
  (match find (fun g => keq (fst g) k) (group key keq init step docs) with
   | Some g => m (snd g)
   | None => 0
   end
   == sumQ (map w (List.filter (fun d => keq k (key d)) docs)))%Q.
Proof.
  pose proof (group_totalOf_from docs [] k) as H.
  unfold totalOf, group in *. simpl in H. rewrite H. lra.
Qed.

Lemma upsert_key_list d groups :
  map fst (upsert key keq init step d groups)
  = if existsb (fun k => keq k (key d)) (map fst groups)
    then map fst groups
    else (map fst groups ++ [key d])%list.
Proof.
  induction groups as [|[k a] rest IH]; simpl; [reflexivity|].
  destruct (keq k (key d)); simpl; [reflexivity|].
  rewrite IH. destruct (existsb _ _); reflexivity.
Qed.

Lemma upsert_NoDup d groups :
  List.NoDup (map fst groups) ->
  List.NoDup (map fst (upsert key keq init step d groups)).
Proof.
  intros H. rewrite upsert_key_list.
  destruct (existsb _ _) eqn:E; [exact H|].
  apply NoDup_snoc; [exact H|].
  intros Hk.
  assert (existsb (fun k => keq k (key d)) (map fst groups) = true).
  { apply existsb_exists. exists (key d). split; [exact Hk|].
    apply keq_eq. reflexivity. }
  congruence.
Qed.

(** The keys of the groups are pairwise distinct. *)
Lemma group_NoDup docs :
  List.NoDup (map fst (group key keq init step docs)).
Proof.
  unfold group.
  assert (G : forall groups, List.NoDup (map fst groups) ->
            List.NoDup (map fst (fold_left
              (fun g d => upsert key keq init step d g) docs groups))).
  { induction docs as [|d docs IH]; simpl; intros groups H; [exact H|].
    apply IH, upsert_NoDup, H. }
  apply G. constructor.
Qed.
End GroupTotals.

(** ** Summary and category breakdown *)

Lemma setStat_fold_income groups : forall inc exp,
  List.NoDup (map fst groups) ->
  fst (fold_left setStat groups (inc, exp))
  = match find (fun g => String.eqb (fst g) "income") groups with
    | Some g => sc_stat (snd g)
    | None => inc
    end.
Proof.
  induction groups as [|[k a] rest IH]; intros inc exp Hnd; [reflexivity|].
  inversion Hnd as [|? ? Hk Hrest]; subst.
  cbn [fold_left find fst snd setStat].
  destruct (String.eqb k "income") eqn:E.
  - rewrite IH by exact Hrest.
    apply String.eqb_eq in E. subst k.
    destruct (find _ rest) as [g|] eqn:F; [|reflexivity].
    apply find_some in F. destruct F as [Hin Hg].
    apply String.eqb_eq in Hg. exfalso. apply Hk.
    rewrite <- Hg. apply in_map. exact Hin.
  - destruct (String.eqb k "expense"); apply IH; exact Hrest.
Qed.

Lemma setStat_fold_expense groups : forall inc exp,
  List.NoDup (map fst groups) ->
  snd (fold_left setStat groups (inc, exp))
  = match find (fun g => String.eqb (fst g) "expense") groups with
    | Some g => sc_stat (snd g)
    | None => exp
    end.
Proof.
  induction groups as [|[k a] rest IH]; intros inc exp Hnd; [reflexivity|].
  inversion Hnd as [|? ? Hk Hrest]; subst.
  cbn [fold_left find fst snd setStat].
  destruct (String.eqb k "income") eqn:E.
  - apply String.eqb_eq in E. subst k. simpl. apply IH. exact Hrest.
  - destruct (String.eqb k "expense") eqn:E'.
    + rewrite IH by exact Hrest.
      apply String.eqb_eq in E'. subst k.
      destruct (find _ rest) as [g|] eqn:F; [|reflexivity].
      apply find_some in F. destruct F as [Hin Hg].
      apply String.eqb_eq in Hg. exfalso. apply Hk.
      rewrite <- Hg. apply in_map. exact Hin.
    + apply IH. exact Hrest.
Qed.

(** The summary's total for a type is the sum of the amounts of the
    selected transactions of that type. *)
Lemma summary_total transactions user startDate endDate type :
  type = "income" \/ type = "expense" ->
  (summaryTotal (summary transactions user startDate endDate) type
   == sumQ (map tx_amount
              (List.filter (fun t => String.eqb type (tx_type t))
                 (summaryMatched transactions user startDate endDate))))%Q.
Proof.
  intros Htype. unfold summary.
  set (matched := summaryMatched transactions user startDate endDate).
  set (groups := group tx_type String.eqb sc_init sc_step matched).
  assert (Hnd : List.NoDup (map fst groups))
    by (apply group_NoDup, String.eqb_eq).
  pose proof (setStat_fold_income groups zeroStat zeroStat Hnd) as Hinc.
  pose proof (setStat_fold_expense groups zeroStat zeroStat Hnd) as Hexp.
  destruct (fold_left setStat groups (zeroStat, zeroStat)) as [inc exp].
  simpl in Hinc, Hexp.
  assert (Htot : forall k,
    (match find (fun g => String.eqb (fst g) k) groups with
     | Some g => sc_total (snd g) | None => 0 end
     == sumQ (map tx_amount
                (List.filter (fun t => String.eqb k (tx_type t)) matched)))%Q).
  { intros k. apply (group_totalOf tx_type String.eqb sc_init sc_step
                       sc_total tx_amount).
    - intros d. simpl. lra.
    - intros a d. reflexivity.
    - apply String.eqb_eq. }
  destruct Htype as [-> | ->]; unfold summaryTotal; simpl.
  - rewrite Hinc, <- (Htot "income"). clear Hinc Hexp.
    destruct (find _ groups); reflexivity.
  - rewrite Hexp, <- (Htot "expense"). clear Hinc Hexp.
    destruct (find _ groups); reflexivity.
Qed.

Example march_summary :
  (st_total (income (summary marchTransactions alice None None)) == 500)%Q
  /\ (st_total (expense (summary marchTransactions alice None None)) == 150)%Q
  /\ (balance (summary marchTransactions alice None None) == 350)%Q
  /\ totalTransactions (summary marchTransactions alice None None) = 3.
Proof. repeat split. Qed.

Example empty_summary :
  summary [] alice None None
  = {| income := zeroStat; expense := zeroStat;
       balance := 0; totalTransactions := 0 |}.
Proof. reflexivity. Qed.

(** The breakdown's group totals add up to the amounts of the documents
    that come out of [$lookup] and [$unwind]. *)
Lemma breakdown_total transactions categories user type startDate endDate :
  (sumQ (map br_total
           (categoryBreakdown transactions categories user type
              startDate endDate))
   == sumQ (map (fun d : Transaction * Category => tx_amount (fst d))
              (flat_map (lookupUnwind categories)
                 (List.filter
                    (fun t => String.eqb (tx_user t) user
                              && String.eqb (tx_type t) type
                              && dateInRange startDate endDate (tx_date t))
                    transactions))))%Q.
Proof.
  unfold categoryBreakdown.
  rewrite (sumQ_perm _ _ (Permutation_map br_total (sort_perm totalDesc _))).
  rewrite map_map. cbn [ba_row br_total].
  apply (group_totals _ String.eqb ba_init ba_step ba_total
           (fun d : Transaction * Category => tx_amount (fst d))).
  - intros d. simpl. lra.
  - intros a d. reflexivity.
Qed.

Lemma breakdown_filter_split transactions user type startDate endDate :
  List.filter (fun t => String.eqb (tx_user t) user
                        && String.eqb (tx_type t) type
                        && dateInRange startDate endDate (tx_date t))
              transactions
  = List.filter (fun t => String.eqb type (tx_type t))
      (summaryMatched transactions user startDate endDate).
Proof.
  unfold summaryMatched.
  induction transactions as [|t rest IH]; simpl; [reflexivity|].
  rewrite (String.eqb_sym (tx_type t) type).
  destruct (String.eqb (tx_user t) user); simpl; [|exact IH].
  destruct (String.eqb type (tx_type t)) eqn:E; simpl.
  - destruct (dateInRange startDate endDate (tx_date t)); simpl.
    + rewrite E, IH. reflexivity.
    + exact IH.
  - destruct (dateInRange startDate endDate (tx_date t)); simpl.
    + rewrite E. exact IH.
    + exact IH.
Qed.

(** When every selected transaction's reference resolves to exactly one
    category document, [$unwind] keeps one document per transaction. *)
Lemma unwind_resolved categories (matched : list Transaction) :
  (forall t, In t matched ->
     exists c, List.filter (fun c => String.eqb (cat_id c) (tx_category t))
                           categories = [c]) ->
  map (fun d : Transaction * Category => tx_amount (fst d))
      (flat_map (lookupUnwind categories) matched)
  = map tx_amount matched.
Proof.
  induction matched as [|t rest IH]; intros H; simpl; [reflexivity|].
  rewrite map_app, IH by (intros t' Ht'; apply H; right; exact Ht').
  destruct (H t (or_introl eq_refl)) as [c Hc].
  unfold lookupUnwind. rewrite Hc. reflexivity.
Qed.

(** Over transactions whose category references all resolve, the group
    totals of the breakdown add up to the summary's total for the type. *)
Lemma breakdown_matches_summary_when_resolved
    transactions categories user type startDate endDate :
  type = "income" \/ type = "expense" ->
  (forall t, In t transactions -> tx_type t = type ->
     exists c, List.filter (fun c => String.eqb (cat_id c) (tx_category t))
                           categories = [c]) ->
  (sumQ (map br_total
           (categoryBreakdown transactions categories user type
              startDate endDate))
   == summaryTotal (summary transactions user startDate endDate) type)%Q.
Proof.
  intros Htype Hres.
  rewrite breakdown_total, (summary_total _ _ _ _ _ Htype).
  rewrite unwind_resolved.
  - rewrite breakdown_filter_split. reflexivity.
  - intros t Ht. apply filter_In in Ht. destruct Ht as [Ht Hc].
    apply Hres; [exact Ht|].
    apply andb_prop in Hc. destruct Hc as [Hc _].
    apply andb_prop in Hc. destruct Hc as [_ Hc].
    apply String.eqb_eq in Hc. exact Hc.
Qed.

Section GroupCover.
Context {D K A : Type}.
Variable key : D -> K.
Variable keq : K -> K -> bool.
Variable init : D -> A.
Variable step : A -> D -> A.
Hypothesis keq_eq : forall a b, keq a b = true <-> a = b.

Lemma upsert_covers d groups :
  In (key d) (map fst (upsert key keq init step d groups))
  /\ forall k, In k (map fst groups) ->
               In k (map fst (upsert key keq init step d groups)).
Proof.
  rewrite upsert_key_list.
  destruct (existsb _ _) eqn:E.
  - split; [|intros k H; exact H].
    apply existsb_exists in E. destruct E as (k & Hk & Hkd).
    apply keq_eq in Hkd. subst k. exact Hk.
  - split; [|intros k H]; apply in_app_iff;
      [right; left; reflexivity | left; exact H].
Qed.

(** Every input document has its group. *)
Lemma group_covers docs d :
  In d docs -> In (key d) (map fst (group key keq init step docs)).
Proof.
  unfold group.
  assert (Keep : forall docs groups k, In k (map fst groups) ->
            In k (map fst (fold_left
              (fun g d => upsert key keq init step d g) docs groups))).
  { induction docs0 as [|d0 docs0 IH]; simpl; intros groups k H; [exact H|].
    apply IH, upsert_covers, H. }
  generalize (@nil (K * A)).
  induction docs as [|d0 docs IH]; simpl;
    [intros groups [] | intros groups [Hd|Hd]].
  - subst d0.
    apply (Keep docs (upsert key keq init step d groups)).
    exact (proj1 (upsert_covers d groups)).
  - apply IH, Hd.
Qed.

(** A property of (key, accumulator) pairs that holds when a group is
    opened and is kept by every step holds of all groups. *)
Lemma group_invariant (P : K -> A -> Prop) docs :
  (forall d, In d docs -> P (key d) (init d)) ->
  (forall k a d, P k a -> P k (step a d)) ->
  forall k a, In (k, a) (group key keq init step docs) -> P k a.
Proof.
  intros Hinit Hstep. unfold group.
  assert (G : forall docs groups,
            (forall d, In d docs -> P (key d) (init d)) ->
            (forall k a, In (k, a) groups -> P k a) ->
            forall k a,
              In (k, a) (fold_left
                (fun g d => upsert key keq init step d g) docs groups) ->
              P k a).
  { clear docs Hinit.
    induction docs as [|d docs IH]; simpl; intros groups Hi Hg k a H.
    - apply Hg, H.
    - apply (IH (upsert key keq init step d groups)); [| |exact H].
      + intros d' Hd'. apply Hi. right. exact Hd'.
      + clear H k a. intros k a.
        induction groups as [|[k0 a0] rest IHr]; simpl.
        * intros [[= <- <-]|[]]. apply Hi. left. reflexivity.
        * destruct (keq k0 (key d)); simpl.
          -- intros [[= <- <-]|H].
             ++ apply Hstep, Hg. left. reflexivity.
             ++ apply Hg. right. exact H.
          -- intros [[= <- <-]|H].
             ++ apply Hg. left. reflexivity.
             ++ apply IHr; [|exact H].
                intros k' a' H'. apply Hg. right. exact H'. }
  apply G; [exact Hinit | intros k a []].
Qed.
End GroupCover.

(** Every row of the breakdown carries the id, name and colour of a
    category document; whether that category is active plays no part. *)
Lemma breakdown_rows_resolved
    transactions categories user type startDate endDate row :
  In row (categoryBreakdown transactions categories user type
            startDate endDate) ->
  exists c, In c categories /\ cat_id c = br_id row
            /\ br_name row = cat_name c /\ br_color row = cat_color c.
Proof.
  unfold categoryBreakdown. intros H.
  apply (Permutation_in _ (sort_perm _ _)) in H.
  apply in_map_iff in H. destruct H as ([k a] & <- & Hin).
  revert k a Hin.
  apply (group_invariant _ String.eqb ba_init ba_step
           (fun k a => exists c, In c categories /\ cat_id c = k
                                 /\ ba_name a = cat_name c
                                 /\ ba_color a = cat_color c)).
  - intros [t c] Hd. apply in_flat_map in Hd. destruct Hd as (t' & _ & Hd).
    unfold lookupUnwind in Hd. apply in_map_iff in Hd.
    destruct Hd as (c' & [= <- <-] & Hc). apply filter_In in Hc.
    destruct Hc as [Hc Hid]. apply String.eqb_eq in Hid.
    exists c'. simpl. repeat split; [exact Hc | exact Hid].
  - intros k a d (c & Hc & Hid & Hn & Hcol). exists c. simpl.
    repeat split; assumption.
Qed.

(** A selected transaction whose reference resolves has its row. *)
Lemma breakdown_includes_resolved
    transactions categories user type startDate endDate t c :
  In t transactions ->
  tx_user t = user -> tx_type t = type ->
  dateInRange startDate endDate (tx_date t) = true ->
  In c categories -> cat_id c = tx_category t ->
  exists row,
    In row (categoryBreakdown transactions categories user type
              startDate endDate)
    /\ br_id row = tx_category t.
Proof.
  intros Ht Hu Hty Hd Hc Hid. unfold categoryBreakdown.
  set (unwound := flat_map _ _).
  assert (Hin : In (t, c) unwound).
  { apply in_flat_map. exists t. split.
    - apply filter_In. split; [exact Ht|].
      rewrite Hd, (proj2 (String.eqb_eq _ _) Hu),
        (proj2 (String.eqb_eq _ _) Hty). reflexivity.
    - unfold lookupUnwind. apply in_map, filter_In. split; [exact Hc|].
      apply String.eqb_eq. exact Hid. }
  apply (group_covers (fun d : Transaction * Category => tx_category (fst d))
           String.eqb ba_init ba_step String.eqb_eq) in Hin.
  apply in_map_iff in Hin. destruct Hin as (g & Hk & Hg).
  exists (ba_row g). split.
  - apply (Permutation_in _ (Permutation_sym (sort_perm _ _))).
    apply in_map. exact Hg.
  - exact Hk.
Qed.

(** A transaction whose reference matches no category document has no row
    in the breakdown. *)
Lemma breakdown_omits_unresolved
    transactions categories user type startDate endDate t :
  (forall c, In c categories -> cat_id c <> tx_category t) ->
  ~ exists row,
      In row (categoryBreakdown transactions categories user type
                startDate endDate)
      /\ br_id row = tx_category t.
Proof.
  intros Hnone (row & Hrow & Hid).
  destruct (breakdown_rows_resolved _ _ _ _ _ _ _ Hrow) as (c & Hc & Hcid & _).
  apply (Hnone c Hc). congruence.
Qed.

(** ** Category data of the Dashboard *)

Lemma addExpense_keeps categories acc t k :
  is_Some (acc !! k) -> is_Some (Dashboard.addExpense categories acc t !! k).
Proof.
  intros H. unfold Dashboard.addExpense.
  apply lookup_insert_is_Some'. right. exact H.
Qed.

Lemma addExpense_files categories acc t :
  is_Some (Dashboard.addExpense categories acc t
             !! Dashboard.categoryLabel categories t).
Proof.
  unfold Dashboard.addExpense. rewrite lookup_insert_eq. eauto.
Qed.

(** Every expense of the month is filed under its category's name, or
    under 'Uncategorized' when its category is not found. *)
Lemma dashboard_expense_filed currentMonth categories t :
  In t currentMonth -> Dashboard.t_type t = "expense" ->
  exists slice,
    In slice (Dashboard.categoryData currentMonth categories)
    /\ Dashboard.s_name slice = Dashboard.categoryLabel categories t.
Proof.
  intros Ht Hty.
  assert (Hsome : is_Some (Dashboard.expensesByCategory currentMonth categories
                             !! Dashboard.categoryLabel categories t)).
  { unfold Dashboard.expensesByCategory.
    assert (Hin : In t (List.filter
              (fun t => String.eqb (Dashboard.t_type t) "expense")
              currentMonth)).
    { apply filter_In. split; [exact Ht|]. apply String.eqb_eq. exact Hty. }
    revert Hin. generalize (∅ : gmap string Q).
    induction (List.filter _ currentMonth) as [|t0 l IH]; simpl;
      [intros acc [] | intros acc [Hd|Hd]].
    - subst t0.
      assert (Keep : forall l acc k, is_Some (acc !! k) ->
                is_Some (fold_left (Dashboard.addExpense categories) l acc !! k)).
      { clear. induction l as [|t1 l IH]; simpl; intros acc k H; [exact H|].
        apply IH, addExpense_keeps, H. }
      apply Keep, addExpense_files.
    - apply IH, Hd. }
  destruct Hsome as [value Hvalue].
  apply elem_of_map_to_list in Hvalue. apply list_elem_of_In in Hvalue.
  unfold Dashboard.categoryData.
  eexists. split.
  - apply in_map_iff. exists (Dashboard.categoryLabel categories t, value).
    split; [reflexivity | exact Hvalue].
  - reflexivity.
Qed.

Lemma sumAmounts_from l : forall a,
  (fold_left (fun sum t => sum + Dashboard.t_amount t) l a
   == a + sumQ (map Dashboard.t_amount l))%Q.
Proof.
  induction l as [|t l IH]; simpl; intros a.
  - lra.
  - rewrite IH. lra.
Qed.

Lemma addExpense_total categories (acc : gmap string Q) t :
  (sumQ (map snd (map_to_list (Dashboard.addExpense categories acc t)))
   == sumQ (map snd (map_to_list acc)) + Dashboard.t_amount t)%Q.
Proof.
  unfold Dashboard.addExpense.
  set (k := Dashboard.categoryLabel categories t).
  destruct (acc !! k) as [v|] eqn:E; simpl.
  - rewrite <- (insert_delete_eq acc k).
    rewrite (sumQ_perm _ _ (Permutation_map snd
               (map_to_list_insert (delete k acc) k _ (lookup_delete_eq acc k)))).
    rewrite <- (insert_delete_id acc k v E) at 2.
    rewrite (sumQ_perm _ _ (Permutation_map snd
               (map_to_list_insert (delete k acc) k v (lookup_delete_eq acc k)))).
    simpl. lra.
  - rewrite (sumQ_perm _ _ (Permutation_map snd
               (map_to_list_insert acc k _ E))).
    simpl. lra.
Qed.

(** On the Dashboard nothing is left out: the values of the pie slices add
    up to the month's total expenses. *)
Lemma dashboard_slices_total currentMonth categories :
  (sumQ (map Dashboard.s_value
           (Dashboard.categoryData currentMonth categories))
   == Dashboard.totalExpenses (Dashboard.stats currentMonth))%Q.
Proof.
  unfold Dashboard.categoryData, Dashboard.stats, Dashboard.sumAmounts,
    Dashboard.expensesByCategory.
  cbn [Dashboard.totalExpenses].
  rewrite map_map, sumAmounts_from.
  set (expenses := List.filter _ currentMonth).
  transitivity (sumQ (map snd (map_to_list
                  (fold_left (Dashboard.addExpense categories) expenses ∅)))).
  { apply eq_subrelation; [typeclasses eauto|].
    f_equal. apply map_ext. intros [name value]. reflexivity. }
  assert (G : forall l (acc : gmap string Q),
    (sumQ (map snd (map_to_list
             (fold_left (Dashboard.addExpense categories) l acc)))
     == sumQ (map snd (map_to_list acc))
        + sumQ (map Dashboard.t_amount l))%Q).
  { induction l as [|t l IH]; simpl; intros acc.
    - lra.
    - rewrite IH, addExpense_total. lra. }
  rewrite G, map_to_list_empty. simpl. lra.
Qed.

(** C4: with one transaction whose category reference does not resolve,
    the group totals of the breakdown add up to 40 while the summary
    reports 65 for the same type over the same transactions. *)
Theorem breakdown_total_below_summary :
  (sumQ (map br_total
           (categoryBreakdown [lunch; bus] [transport] alice "expense"
              None None)) == 40)%Q
  /\ (summaryTotal (summary [lunch; bus] alice None None) "expense" == 65)%Q
  /\ ~ (sumQ (map br_total
                (categoryBreakdown [lunch; bus] [transport] alice "expense"
                   None None))
        == summaryTotal (summary [lunch; bus] alice None None) "expense")%Q.
Proof.
  split; [reflexivity|]. split; [reflexivity|]. vm_compute. discriminate.
Qed.

(** C5: the server-side breakdown keeps the transaction of the deactivated
    category, under that category's name and colour, and has no row at
    all for the transaction whose reference does not resolve; the
    Dashboard files the latter under 'Uncategorized'. *)
Theorem unresolved_reference_dropped :
  categoryBreakdown [lunch; bus] [transport] alice "expense" None None
  = [{| br_id := "65f000000000000000000c02";
        br_name := "Transport";
        br_color := "#ef4444";
        br_total := 40;
        br_count := 1;
        br_avgAmount := 40 |}]
  /\ In {| Dashboard.s_name := "Uncategorized";
           Dashboard.s_value := 25;
           Dashboard.s_color := "#64748b" |}
        (Dashboard.categoryData [clientLunch; clientBus] [clientTransport]).
Proof.
  split; [vm_compute; reflexivity|].
  vm_compute. tauto.
Qed.

(** ** Monthly trends *)





Lemma monthTypeEq_eq (a b : Z * string) : monthTypeEq a b = true <-> a = b.
Proof.
  destruct a as [m1 t1], b as [m2 t2]. unfold monthTypeEq. simpl.
  rewrite andb_true_iff, Z.eqb_eq, String.eqb_eq.
  split; [intros [-> ->]; reflexivity | intros [= -> ->]; split; reflexivity].
Qed.

Section FindUnique.
Context {A K : Type}.
Variable key : A -> K.
Variable keq : K -> K -> bool.
Hypothesis keq_eq : forall a b, keq a b = true <-> a = b.

Lemma NoDup_key_inj l x y :
  List.NoDup (map key l) -> In x l -> In y l -> key x = key y -> x = y.
Proof.
  induction l as [|z l IH]; simpl; intros Hnd Hx Hy Hk; [contradiction|].
  inversion Hnd as [|? ? Hz Hl]; subst.
  destruct Hx as [->|Hx], Hy as [->|Hy].
  - reflexivity.
  - exfalso. apply Hz. rewrite Hk. apply in_map. exact Hy.
  - exfalso. apply Hz. rewrite <- Hk. apply in_map. exact Hx.
  - apply IH; assumption.
Qed.

(** With pairwise distinct keys, looking a key up does not depend on the
    order of the list. *)
Lemma find_key_perm l l' k :
  List.NoDup (map key l) -> Permutation l l' ->
  find (fun x => keq (key x) k) l = find (fun x => keq (key x) k) l'.
Proof.
  intros Hnd Hperm.
  destruct (find _ l) as [x|] eqn:F; destruct (find _ l') as [y|] eqn:F';
    try reflexivity.
  - apply find_some in F, F'. destruct F as [Hx Hkx], F' as [Hy Hky].
    apply keq_eq in Hkx, Hky. f_equal.
    apply (NoDup_key_inj l); [exact Hnd | exact Hx | | congruence].
    apply (Permutation_in _ (Permutation_sym Hperm)). exact Hy.
  - apply find_some in F. destruct F as [Hx Hkx].
    apply (Permutation_in _ Hperm) in Hx.
    pose proof (find_none _ _ F' _ Hx) as Hn. simpl in Hn. congruence.
  - apply find_some in F'. destruct F' as [Hy Hky].
    apply (Permutation_in _ (Permutation_sym Hperm)) in Hy.
    pose proof (find_none _ _ F _ Hy) as Hn. simpl in Hn. congruence.
Qed.
End FindUnique.

(** Among (month, type) groups with distinct keys, the conditional sum
    the second [$group] takes over the groups of a month is the total of
    that month's group of the type. *)
Lemma month_groups_total (groups : list ((Z * string) * SumCount)) m type :
  List.NoDup (map fst groups) ->
  (sumQ (map (fun g : (Z * string) * SumCount =>
                condQ (snd (fst g)) type (sc_total (snd g)))
             (List.filter (fun g : (Z * string) * SumCount =>
                             m =? fst (fst g)) groups))
   == match find (fun g : (Z * string) * SumCount =>
                    monthTypeEq (fst g) (m, type)) groups with
      | Some g => sc_total (snd g)
      | None => 0
      end)%Q.
Proof.
  induction groups as [|[[m0 t0] a] rest IH]; intros Hnd; simpl.
  - reflexivity.
  - inversion Hnd as [|? ? Hk Hrest]; subst. specialize (IH Hrest).
    unfold monthTypeEq at 1. simpl. rewrite (Z.eqb_sym m0 m).
    destruct (m =? m0) eqn:E; simpl; [|exact IH].
    unfold condQ at 1. destruct (String.eqb t0 type) eqn:T; simpl.
    + rewrite IH. apply Z.eqb_eq in E. apply String.eqb_eq in T. subst.
      destruct (find _ rest) as [g|] eqn:F; [|lra].
      apply find_some in F. destruct F as [Hin Hg].
      apply monthTypeEq_eq in Hg. exfalso. apply Hk. simpl.
      rewrite <- Hg. apply in_map. exact Hin.
    + rewrite IH. lra.
Qed.

(** What the aggregation holds for month [m]: the totals of the selected
    income and expense transactions of that month. *)
Lemma trends_month_totals transactions user year m :
  let monthData := find (fun g => fst g =? m) (trends transactions user year) in
  (match monthData with Some d => ma_income (snd d) | None => 0 end
   == sumQ (map tx_amount
              (selectedInMonth transactions user year m "income")))%Q
  /\ (match monthData with Some d => ma_expense (snd d) | None => 0 end
      == sumQ (map tx_amount
                 (selectedInMonth transactions user year m "expense")))%Q.
Proof.
  unfold trends, selectedInMonth.
  set (matched := List.filter (trendMatch user year) transactions).
  set (g1 := group _ monthTypeEq sc_init sc_step matched).
  set (g2 := group _ Z.eqb ma_init ma_step g1).
  assert (Hnd1 : List.NoDup (map fst g1))
    by apply group_NoDup, monthTypeEq_eq.
  assert (Hnd2 : List.NoDup (map fst g2)) by apply group_NoDup, Z.eqb_eq.
  cbv zeta.
  rewrite <- (find_key_perm fst Z.eqb Z.eqb_eq _ _ m Hnd2
                (Permutation_sym (sort_perm _ g2))).
  assert (Hsel : forall type,
    (match find (fun g : (Z * string) * SumCount =>
                   monthTypeEq (fst g) (m, type)) g1 with
     | Some g => sc_total (snd g)
     | None => 0
     end
     == sumQ (map tx_amount
                (List.filter (fun t => (monthOf (tx_date t) =? m)
                                       && String.eqb (tx_type t) type)
                             matched)))%Q).
  { intros type. unfold g1. etransitivity.
    - apply (group_totalOf (fun t => (monthOf (tx_date t), tx_type t))
               monthTypeEq sc_init sc_step sc_total tx_amount).
      + intros d. simpl. lra.
      + intros a d. reflexivity.
      + apply monthTypeEq_eq.
    - apply eq_subrelation; [typeclasses eauto|]. f_equal. f_equal.
      apply filter_ext. intros t. unfold monthTypeEq. simpl.
      rewrite (Z.eqb_sym m), (String.eqb_sym type). reflexivity. }
  split.
  - rewrite <- (Hsel "income"), <- (month_groups_total g1 m "income" Hnd1).
    apply (group_totalOf (fun g : (Z * string) * SumCount => fst (fst g))
             Z.eqb ma_init ma_step ma_income
             (fun g => condQ (snd (fst g)) "income" (sc_total (snd g)))).
    + intros d. simpl. lra.
    + intros a d. reflexivity.
    + apply Z.eqb_eq.
  - rewrite <- (Hsel "expense"), <- (month_groups_total g1 m "expense" Hnd1).
    apply (group_totalOf (fun g : (Z * string) * SumCount => fst (fst g))
             Z.eqb ma_init ma_step ma_expense
             (fun g => condQ (snd (fst g)) "expense" (sc_total (snd g)))).
    + intros d. simpl. lra.
    + intros a d. reflexivity.
    + apply Z.eqb_eq.
Qed.

(** Every entry of the monthly trend reports, as income and as expense,
    the totals of the selected transactions of its month. *)
Lemma monthly_trends_buckets transactions user year i name :
  nth_error monthNames i = Some name ->
  exists entry,
    nth_error (monthlyTrends transactions user year) i = Some entry
    /\ te_month entry = name
    /\ (te_income entry
        == sumQ (map tx_amount
                   (selectedInMonth transactions user year
                      (Z.of_nat i + 1) "income")))%Q
    /\ (te_expense entry
        == sumQ (map tx_amount
                   (selectedInMonth transactions user year
                      (Z.of_nat i + 1) "expense")))%Q.
Proof.
  intros Hname. unfold monthlyTrends.
  rewrite (mapi_from_nth _ _ _ _ _ Hname). simpl.
  eexists. split; [reflexivity|]. split; [reflexivity|].
  apply (trends_month_totals transactions user year (Z.of_nat i + 1)).
Qed.

(** A transaction in the middle of the year is counted in the bucket of
    its month. *)
Example march_expense_counted :
  nth_error (monthlyTrends [expenseAt (instant 2024 3 15 9 30)] alice 2024) 2
  = Some {| te_month := "Mar";
            te_income := 0;
            te_expense := 25;
            te_balance := -25;
            te_incomeCount := 0;
            te_expenseCount := 1 |}.
Proof. vm_compute. reflexivity. Qed.

(** C7: a transaction dated at noon on December 31 of the requested year
    is in that year and in month 12, yet the query stops at the first
    instant of December 31 and the December entry does not count it. *)
Theorem december_31_not_counted :
  let t := expenseAt (instant 2024 12 31 12 0) in
  yearOf (tx_date t) = 2024 /\ monthOf (tx_date t) = 12
  /\ dayOf (tx_date t) = 31
  /\ trendMatch alice 2024 t = false
  /\ nth_error (monthlyTrends [t] alice 2024) 11
     = Some {| te_month := "Dec";
               te_income := 0;
               te_expense := 0;
               te_balance := 0;
               te_incomeCount := 0;
               te_expenseCount := 0 |}.
Proof. vm_compute. repeat split; reflexivity. Qed.

(** The last instant the query still selects is midnight at the start of
    December 31. *)
Example december_31_midnight_counted :
  trendMatch alice 2024 (expenseAt (instant 2024 12 31 0 0)) = true
  /\ trendMatch alice 2024 (expenseAt (instant 2024 12 31 0 0 + 1)) = false.
Proof. vm_compute. split; reflexivity. Qed.

(** ** Budget creation *)

Lemma overlapQuery_overlaps user category per newStart newEnd b :
  overlapQuery user category per newStart newEnd b = true
  <-> overlaps user category per newStart newEnd b.
Proof.
  unfold overlapQuery, overlaps. simpl. rewrite orb_false_r.
  rewrite !andb_true_iff, !String.eqb_eq, !Z.leb_le. intuition lia.
Qed.

(** C8, counterexample: a well-formed request is rejected with status 400
    and nothing is stored although no budget exists at all, because its
    category is not an active expense category of the user. *)
Lemma budget_rejected_without_overlap :
  postBudget [] [] alice "65f000000000000000000b03" monthlyFood
  = (BadRequest "Invalid expense category", [])
  /\ statusCode (fst (postBudget [] [] alice "65f000000000000000000b03"
                        monthlyFood)) = 400
  /\ ~ exists existing,
         In existing []
         /\ overlaps alice (bb_category monthlyFood) (bb_period monthlyFood)
              (instant 2024 3 1 0 0) (instant 2024 3 31 0 0) existing.
Proof.
  split; [vm_compute; reflexivity|]. split; [vm_compute; reflexivity|].
  intros (existing & [] & _).
Qed.

(** C8, as amended: for a request that passes field validation and names
    an active expense category of the user, the creation is rejected with
    status 400 and the collection left as it was if and only if an active
    budget of the same user, category and period overlaps the new interval
    (existing.start <= new.end and existing.end >= new.start); when none
    does, the budget is stored and returned with status 201, provided the
    new document passes the schema's own validation. *)
Theorem budget_creation_overlap_check
    budgets categories user newId body amount start end_ categoryDoc :
  validateBudgetBody body = [] ->
  bb_amount body = Some amount ->
  bb_startDate body = Some start ->
  bb_endDate body = Some end_ ->
  findCategory categories (bb_category body) user "expense"
  = Some categoryDoc ->
  ((exists existing,
      In existing budgets
      /\ overlaps user (bb_category body) (bb_period body) start end_ existing)
   <-> postBudget budgets categories user newId body
       = (BadRequest "Budget already exists for this category and period",
          budgets))
  /\ ((exists existing,
         In existing budgets
         /\ overlaps user (bb_category body) (bb_period body) start end_
              existing)
      <-> (statusCode (fst (postBudget budgets categories user newId body))
           = 400
           /\ snd (postBudget budgets categories user newId body) = budgets))
  /\ (~ (exists existing,
           In existing budgets
           /\ overlaps user (bb_category body) (bb_period body) start end_
                existing) ->
      budgetSchemaValid (newBudget user newId body amount start end_) = true ->
      postBudget budgets categories user newId body
      = (Created (newBudget user newId body amount start end_),
         (budgets ++ [newBudget user newId body amount start end_])%list)).
Proof.
  intros Hval Ha Hs He Hcat. unfold postBudget.
  rewrite Hval, Ha, Hs, He, Hcat.
  destruct (find _ budgets) as [existing|] eqn:F.
  - apply find_some in F. destruct F as [Hin Hq].
    apply overlapQuery_overlaps in Hq.
    assert (Hex : exists existing, In existing budgets
              /\ overlaps user (bb_category body) (bb_period body)
                   start end_ existing) by eauto.
    repeat split; try reflexivity; try (intros _; exact Hex).
    intros Hno. contradiction.
  - assert (Hno : ~ exists existing, In existing budgets
              /\ overlaps user (bb_category body) (bb_period body)
                   start end_ existing).
    { intros (existing & Hin & Hov).
      apply overlapQuery_overlaps in Hov.
      pose proof (find_none _ _ F _ Hin) as Hf. simpl in Hf. congruence. }
    split; [|split].
    + split; [intros H; contradiction|].
      destruct (budgetSchemaValid _); discriminate.
    + split; [intros H; contradiction|].
      destruct (budgetSchemaValid _); simpl; intros [H _]; discriminate.
    + intros _ Hvalid. rewrite Hvalid. reflexivity.
Qed.

(** A second monthly food budget that starts on the day the first one
    ends is rejected; with no budget in the way it is created. *)
Lemma budget_creation_overlap_check_witness :
  postBudget [marchFood] [food] alice "65f000000000000000000b05"
    {| bb_category := "65f000000000000000000c01";
       bb_amount := Some 250%Q;
       bb_period := "monthly";
       bb_startDate := Some (instant 2024 3 31 0 0);
       bb_endDate := Some (instant 2024 4 30 0 0);
       bb_alertThresholds := None;
       bb_notes := None |}
  = (BadRequest "Budget already exists for this category and period",
     [marchFood])
  /\ postBudget [] [food] alice "65f000000000000000000b04" monthlyFood
     = (Created marchFood, [marchFood]).
Proof.
  split.
  - apply (budget_creation_overlap_check [marchFood] [food] alice
             "65f000000000000000000b05" _ 250%Q
             (instant 2024 3 31 0 0) (instant 2024 4 30 0 0) food);
      try reflexivity.
    exists marchFood. split; [left; reflexivity|].
    unfold overlaps. vm_compute. intuition discriminate.
  - apply (budget_creation_overlap_check [] [food] alice
             "65f000000000000000000b04" monthlyFood 300%Q
             (instant 2024 3 1 0 0) (instant 2024 3 31 0 0) food);
      try reflexivity.
    intros (existing & [] & _).
Defined.

(** ** Transaction mutations and the category invariant *)

Lemma findCategory_some categories id user type c :
  findCategory categories id user type = Some c ->
  In c categories /\ cat_id c = id /\ cat_user c = user
  /\ cat_type c = type /\ cat_isActive c = true.
Proof.
  unfold findCategory. intros H. apply find_some in H.
  destruct H as [Hin H]. rewrite !andb_true_iff, !String.eqb_eq in H.
  tauto.
Qed.

(** A created transaction refers to a category of its user and type. *)
Lemma postTransaction_category_matches
    transactions categories user newId now body t transactions' :
  postTransaction transactions categories user newId now body
  = (Created t, transactions') ->
  categoryMatches categories t = true
  /\ transactions' = (transactions ++ [t])%list.
Proof.
  unfold postTransaction.
  destruct (validateTransactionBody body); [|discriminate].
  destruct (tb_amount body) as [amount|]; [|discriminate].
  destruct (findCategory _ _ _ _) as [c|] eqn:F; [|discriminate].
  destruct (transactionSchemaValid _); [|discriminate].
  intros [= <- <-]. split; [|reflexivity].
  apply findCategory_some in F. destruct F as (Hin & Hid & Hu & Hty & _).
  unfold categoryMatches. apply existsb_exists. exists c.
  split; [exact Hin|]. simpl.
  rewrite !andb_true_iff, !String.eqb_eq. tauto.
Qed.

(** An accepted update that names a category, and does not move the
    transaction to another user, leaves a matching category. *)
Lemma putTransaction_category_checked
    transactions categories user id updates category t transactions' :
  u_category updates = Some category -> truthy category = true ->
  u_user updates = None ->
  putTransaction transactions categories user id updates
  = (Ok t, transactions') ->
  categoryMatches categories t = true.
Proof.
  intros Hc Htruthy Hu. unfold putTransaction.
  destruct (validateTransactionUpdates updates) eqn:V; [|discriminate].
  destruct (isMongoId id); [|discriminate].
  destruct (find _ transactions) as [t0|] eqn:F; [|discriminate].
  apply find_some in F. destruct F as [_ Hown].
  apply andb_prop in Hown. destruct Hown as [_ Hown].
  apply String.eqb_eq in Hown.
  unfold verifyUpdatedCategory. rewrite Hc, Htruthy.
  destruct (isMongoId category); [|discriminate].
  destruct (findCategory _ _ _ _) as [c|] eqn:FC; [|discriminate].
  destruct (assignUpdates t0 updates) as [t'|] eqn:A; [|discriminate].
  destruct (transactionSchemaValid t'); [|discriminate].
  intros [= <- <-].
  apply findCategory_some in FC. destruct FC as (Hin & Hid & Hcu & Hty & _).
  unfold assignUpdates in A.
  assert (Htype : tx_type t'
                  = match u_type updates with
                    | Some type => if truthy type then type else tx_type t0
                    | None => tx_type t0
                    end).
  { unfold validateTransactionUpdates in V.
    destruct (u_type updates) as [type|] eqn:T.
    - assert (Hin' : isIn ["income"; "expense"] type = true).
      { destruct (isIn _ type); [reflexivity|discriminate V]. }
      assert (Ht : truthy type = true).
      { unfold isIn in Hin'. simpl in Hin'.
        destruct (String.eqb type "income") eqn:E1;
          [apply String.eqb_eq in E1; subst; reflexivity|].
        destruct (String.eqb type "expense") eqn:E2;
          [apply String.eqb_eq in E2; subst; reflexivity|discriminate]. }
      rewrite Ht.
      destruct (u_amount updates), (u_date updates); inversion A; reflexivity.
    - destruct (u_amount updates), (u_date updates); inversion A; reflexivity. }
  assert (Hcat : tx_category t' = category /\ tx_user t' = tx_user t0).
  { rewrite Hc, Hu in A.
    destruct (u_amount updates), (u_date updates); inversion A; split;
      reflexivity. }
  destruct Hcat as [Hcat Huser].
  unfold categoryMatches. apply existsb_exists. exists c.
  split; [exact Hin|].
  rewrite !andb_true_iff, !String.eqb_eq. rewrite Hcat, Huser, Htype.
  repeat split; congruence.
Qed.

(** C9: an update that changes only the type is accepted without any
    category check: the expense in the expense category Food becomes an
    income that still refers to Food, and is stored so. *)
Theorem type_only_update_breaks_category_match :
  categoryMatches [food] dinner = true
  /\ exists t',
       putTransaction [dinner] [food] alice (tx_id dinner) onlyType
       = (Ok t', [t'])
       /\ tx_type t' = "income"
       /\ tx_category t' = cat_id food
       /\ cat_type food = "expense"
       /\ categoryMatches [food] t' = false.
Proof.
  split; [vm_compute; reflexivity|].
  eexists. split; [vm_compute; reflexivity|].
  repeat split.
Qed.

(** ** Budget updates *)




Section PutBudgetFacts.
Variable amountValid : jsval -> bool.
Variable cast : string -> jsval -> option jsval.
Variable unchanged : jsval -> jsval -> bool.
Variable schemaValid : gmap string jsval -> bool.
Variable documentMember : string -> bool.







(** The outcomes of the handler for a body the model covers. *)
Lemma putBudget_cases budgets user id now body r budgets' :
  putBudget amountValid cast unchanged schemaValid documentMember
    budgets user id now body = Some (r, budgets') ->
  (budgets' = budgets /\ forall b, r <> Ok b)
  \/ exists budget d,
       find (ownedBy user id) budgets = Some budget
       /\ applyUpdates cast unchanged documentMember budget body = Some d
       /\ d_castError d = false
       /\ ((d_modified d = false /\ r = Ok (d_fields d)
            /\ budgets' = budgets)
           \/ (r = Ok (<["updatedAt" := now]> (d_fields d))
               /\ budgets'
                  = replaceFirst (ownedBy user id)
                      (<["updatedAt" := now]> (d_fields d)) budgets)).
Proof.
  unfold putBudget.
  destruct (negb _); [intros [= <- <-]; left; now split|].
  destruct (isMongoId id); [|intros [= <- <-]; left; now split].
  destruct (find _ budgets) as [budget|] eqn:F;
    [|intros [= <- <-]; left; now split].
  destruct (applyUpdates _ _ _ budget body) as [d|] eqn:A; [|discriminate].
  destruct (d_castError d) eqn:C; cbn [orb];
    [intros [= <- <-]; left; now split|].
  destruct (negb (schemaValid (d_fields d)));
    [intros [= <- <-]; left; now split|].
  destruct (d_modified d) eqn:M; intros [= <- <-]; right;
    exists budget, d; repeat split; try assumption.
  - now right.
  - left. now repeat split.
Qed.

End PutBudgetFacts.




(** * Further properties *)

(** ** The Budget model's virtuals taken together *)

Lemma percentage_ge_100 s a :
  (0 < a)%Q -> ((100 <= s / a * 100)%Q <-> (a <= s)%Q).
Proof.
  intros Ha.
  assert (Hs : (s == a * (s / a))%Q)
    by (symmetry; apply Qmult_div_r; lra).
  set (q := (s / a)%Q) in *. split; intros H; nra.
Qed.

Lemma percentage_gt_100 s a :
  (0 < a)%Q -> ((100 < s / a * 100)%Q <-> (a < s)%Q).
Proof.
  intros Ha.
  assert (Hs : (s == a * (s / a))%Q)
    by (symmetry; apply Qmult_div_r; lra).
  set (q := (s / a)%Q) in *. split; intros H; nra.
Qed.

Lemma percentage_monotone s s' a :
  (0 < a)%Q -> (s <= s')%Q -> (s / a * 100 <= s' / a * 100)%Q.
Proof.
  intros Ha Hs.
  assert (Hinv : (0 < / a)%Q) by (apply Qinv_lt_0_compat; exact Ha).
  unfold Qdiv. nra.
Qed.

Lemma status_exceeded_test (b : Budget) :
  status b = "exceeded" <-> js_ge (percentageUsed b) 100 = true.
Proof.
  unfold status.
  destruct (js_ge (percentageUsed b) 100); [tauto|].
  destruct (js_ge _ (critical _)); [split; discriminate|].
  destruct (js_ge _ (warning _)); split; discriminate.
Qed.

(** X1: for a budget with a positive amount the virtuals agree on when the
    budget is used up: the status is 'exceeded' exactly when spent has
    reached the amount, and that is exactly when nothing remains. *)
Theorem exceeded_iff_nothing_remains (b : Budget) :
  (0 < amount b)%Q ->
  (status b = "exceeded" <-> (amount b <= spent b)%Q)
  /\ ((remaining b == 0)%Q <-> (amount b <= spent b)%Q)
  /\ (status b = "exceeded" <-> (remaining b == 0)%Q).
Proof.
  intros Ha.
  assert (H1 : status b = "exceeded" <-> (amount b <= spent b)%Q).
  { rewrite status_exceeded_test, percentageUsed_Num.
    rewrite (proj2 (Qltb_lt _ _) Ha). simpl.
    rewrite Qle_bool_iff. apply percentage_ge_100, Ha. }
  assert (H2 : (remaining b == 0)%Q <-> (amount b <= spent b)%Q).
  { unfold remaining, Math_max.
    destruct (Qle_bool 0 (amount b - spent b)) eqn:E; qprop;
      split; intros H; lra. }
  split; [exact H1|]. split; [exact H2|]. rewrite H1, H2. reflexivity.
Qed.

Lemma exceeded_iff_nothing_remains_witness :
  status overspentBudget = "exceeded" <-> (remaining overspentBudget == 0)%Q.
Proof.
  apply (exceeded_iff_nothing_remains overspentBudget). reflexivity.
Defined.

Lemma statusRank_status (b : Budget) (p : Q) :
  percentageUsed b = Num p ->
  statusRank (status b)
  = if Qle_bool 100 p then 3
    else if Qle_bool (critical (alertThresholds b)) p then 2
    else if Qle_bool (warning (alertThresholds b)) p then 1
    else 0.
Proof.
  intros Hp. unfold status. rewrite Hp. simpl.
  destruct (Qle_bool 100 p); [reflexivity|].
  destruct (Qle_bool (critical _) p); [reflexivity|].
  destruct (Qle_bool (warning _) p); reflexivity.
Qed.

(** X2: with the amount and the thresholds fixed, more spending never
    gives a milder status: good, warning, critical, exceeded only move
    upwards as spent grows. *)
Theorem status_never_improves_with_spending (b b' : Budget) :
  amount b' = amount b ->
  alertThresholds b' = alertThresholds b ->
  (spent b <= spent b')%Q ->
  statusRank (status b) <= statusRank (status b').
Proof.
  intros Ha Ht Hs.
  rewrite (statusRank_status b _ (percentageUsed_Num b)).
  rewrite (statusRank_status b' _ (percentageUsed_Num b')).
  rewrite Ha, Ht.
  destruct (Qltb 0 (amount b)) eqn:E.
  - apply Qltb_lt in E.
    pose proof (percentage_monotone _ _ _ E Hs) as Hm.
    set (p := (spent b / amount b * 100)%Q) in *.
    set (p' := (spent b' / amount b * 100)%Q) in *.
    destruct (Qle_bool 100 p) eqn:E1, (Qle_bool 100 p') eqn:E1';
    destruct (Qle_bool (critical (alertThresholds b)) p) eqn:E2,
             (Qle_bool (critical (alertThresholds b)) p') eqn:E2';
    destruct (Qle_bool (warning (alertThresholds b)) p) eqn:E3,
             (Qle_bool (warning (alertThresholds b)) p') eqn:E3';
    qprop; try lia; exfalso; lra.
  - apply Z.le_refl.
Qed.

Lemma status_never_improves_with_spending_witness :
  statusRank (status halfSpentBudget) <= statusRank (status overspentBudget).
Proof.
  apply (status_never_improves_with_spending halfSpentBudget overspentBudget);
    [reflexivity | reflexivity | vm_compute; discriminate].
Defined.

(** X3: on the Dashboard, for a budget with a positive amount, the status
    is 'over' exactly when the remaining value is negative. *)
Theorem dashboard_over_iff_remaining_negative cm cats fb :
  (0 < Dashboard.fb_amount fb)%Q ->
  (Dashboard.bc_status (Dashboard.budgetStatus cm cats fb) = "over"
   <-> (Dashboard.bc_remaining (Dashboard.budgetStatus cm cats fb) < 0)%Q).
Proof.
  intros Ha. unfold Dashboard.budgetStatus.
  cbn [Dashboard.bc_status Dashboard.bc_remaining].
  set (spent := Dashboard.sumAmounts _).
  rewrite (proj2 (Qltb_lt _ _) Ha), js_div_nonzero by lra. simpl.
  pose proof (percentage_gt_100 spent _ Ha) as Hgt.
  destruct (Qltb 100 (spent / Dashboard.fb_amount fb * 100)) eqn:E; qprop.
  - split; [intros _; apply Hgt in E; lra | reflexivity].
  - split.
    + destruct (Qltb 80 _); discriminate.
    + intros H. exfalso. assert (Hlt : (Dashboard.fb_amount fb < spent)%Q) by lra.
      apply Hgt in Hlt. lra.
Qed.

Lemma dashboard_over_iff_remaining_negative_witness :
  Dashboard.bc_status (Dashboard.budgetStatus [groceries 150] [] foodBudget)
  = "over".
Proof.
  apply (dashboard_over_iff_remaining_negative [groceries 150] [] foodBudget);
    reflexivity.
Defined.

(** ** What the summary reports *)

Lemma sumQ_ones {A : Type} (l : list A) :
  (sumQ (map (fun _ => 1) l) == inject_Z (Z.of_nat (length l)))%Q.
Proof.
  induction l as [|x l IH]; [reflexivity|].
  cbn [map sumQ fold_right length]. fold (sumQ (map (fun _ : A => 1%Q) l)).
  rewrite IH, Nat2Z.inj_succ, <- Z.add_1_l, inject_Z_plus. reflexivity.
Qed.

Lemma sumZ_inject l : (inject_Z (sumZ l) == sumQ (map inject_Z l))%Q.
Proof.
  induction l as [|z l IH]; [reflexivity|].
  cbn [sumZ map sumQ fold_right]. fold (sumZ l).
  fold (sumQ (map inject_Z l)). rewrite inject_Z_plus, IH. reflexivity.
Qed.

(** The two entries of the summary are the statistics of the groups with
    the keys 'income' and 'expense', or zeros when there is no group. *)
Lemma summary_entries transactions user startDate endDate :
  let groups :=
    group tx_type String.eqb sc_init sc_step
      (summaryMatched transactions user startDate endDate) in
  income (summary transactions user startDate endDate)
  = match find (fun g => String.eqb (fst g) "income") groups with
    | Some g => sc_stat (snd g)
    | None => zeroStat
    end
  /\ expense (summary transactions user startDate endDate)
     = match find (fun g => String.eqb (fst g) "expense") groups with
       | Some g => sc_stat (snd g)
       | None => zeroStat
       end.
Proof.
  intros groups. unfold summary. fold groups.
  assert (Hnd : List.NoDup (map fst groups))
    by (apply group_NoDup, String.eqb_eq).
  pose proof (setStat_fold_income groups zeroStat zeroStat Hnd) as Hinc.
  pose proof (setStat_fold_expense groups zeroStat zeroStat Hnd) as Hexp.
  destruct (fold_left setStat groups (zeroStat, zeroStat)) as [inc exp].
  split; [exact Hinc | exact Hexp].
Qed.

Lemma summarySelected_matched transactions user startDate endDate type :
  summarySelected transactions user startDate endDate type
  = List.filter (fun t => String.eqb type (tx_type t))
                (summaryMatched transactions user startDate endDate).
Proof.
  unfold summarySelected, summaryMatched, dateInRange.
  induction transactions as [|t l IH]; [reflexivity|].
  cbn [List.filter]. rewrite (String.eqb_sym (tx_type t) type).
  destruct (String.eqb (tx_user t) user);
    destruct (match startDate with
              | Some s => (s <=? tx_date t)%Z
              | None => true
              end);
    destruct (match endDate with
              | Some e => (tx_date t <=? e)%Z
              | None => true
              end);
    destruct (String.eqb type (tx_type t)) eqn:E;
    cbn [andb List.filter]; rewrite ?E, IH; reflexivity.
Qed.

(** The statistics of one type: total and count of the selected
    transactions of that type, and the zero entry when there is none. *)
Lemma summary_group_stat transactions user startDate endDate type :
  let selected :=
    summarySelected transactions user startDate endDate type in
  let stat :=
    match find (fun g => String.eqb (fst g) type)
               (group tx_type String.eqb sc_init sc_step
                  (summaryMatched transactions user startDate endDate)) with
    | Some g => sc_stat (snd g)
    | None => zeroStat
    end in
  (st_total stat == sumQ (map tx_amount selected))%Q
  /\ st_count stat = Z.of_nat (length selected)
  /\ (selected = [] -> stat = zeroStat).
Proof.
  intros selected stat.
  set (matched := summaryMatched transactions user startDate endDate) in *.
  assert (Hsel : selected
                 = List.filter (fun t => String.eqb type (tx_type t)) matched)
    by apply summarySelected_matched.
  assert (Htotal : (st_total stat == sumQ (map tx_amount selected))%Q).
  { pose proof (group_totalOf tx_type String.eqb sc_init sc_step
                  sc_total tx_amount) as H.
    specialize (H (fun d => ltac:(simpl; lra)) (fun a d => Qeq_refl _)
                  String.eqb_eq matched type).
    unfold stat. rewrite Hsel.
    rewrite <- H. destruct (find _ _); reflexivity. }
  assert (Hcount : (inject_Z (st_count stat)
                    == inject_Z (Z.of_nat (length selected)))%Q).
  { pose proof (group_totalOf tx_type String.eqb sc_init sc_step
                  (fun a => inject_Z (sc_count a))
                  (fun _ : Transaction => 1%Q)) as H.
    assert (Hstep : forall (a : SumCount) (d : Transaction),
              (inject_Z (sc_count (sc_step a d))
               == inject_Z (sc_count a) + 1)%Q).
    { intros a d. simpl. rewrite inject_Z_plus. reflexivity. }
    specialize (H (fun d => Qeq_refl _) Hstep String.eqb_eq matched type).
    rewrite <- sumQ_ones. unfold stat. rewrite Hsel.
    rewrite <- H. destruct (find _ _); reflexivity. }
  split; [exact Htotal|]. split; [apply inject_Z_injective, Hcount|].
  intro Hnone. unfold stat.
  destruct (find _ _) as [g|] eqn:F; [exfalso|reflexivity].
  apply find_some in F. destruct F as [Hin Hk].
  apply String.eqb_eq in Hk.
  assert (In (fst g)
             (map fst (group tx_type String.eqb sc_init sc_step matched)))
    as Hkey by (apply in_map, Hin).
  apply group_keys in Hkey. destruct Hkey as [t [Ht Hty]].
  assert (In t selected) as Hs.
  { rewrite Hsel. apply filter_In. split; [exact Ht|].
    apply String.eqb_eq. congruence. }
  rewrite Hnone in Hs. destruct Hs.
Qed.

(** X4: the summary reports, for income and for expense, the total and
    the number of the requester's transactions of that type inside the
    date bounds, and zeros for a type of which there is none; the balance
    is the income total less the expense total and totalTransactions is
    the number of both together.  Transactions of other users, of other
    types and outside the bounds count nowhere. *)
Theorem summary_reports_selected transactions user startDate endDate :
  let result := summary transactions user startDate endDate in
  let incomes :=
    summarySelected transactions user startDate endDate "income" in
  let expenses :=
    summarySelected transactions user startDate endDate "expense" in
  (st_total (income result) == sumQ (map tx_amount incomes))%Q
  /\ st_count (income result) = Z.of_nat (length incomes)
  /\ (incomes = [] -> income result = zeroStat)
  /\ (st_total (expense result) == sumQ (map tx_amount expenses))%Q
  /\ st_count (expense result) = Z.of_nat (length expenses)
  /\ (expenses = [] -> expense result = zeroStat)
  /\ (balance result
      == st_total (income result) - st_total (expense result))%Q
  /\ totalTransactions result
     = Z.of_nat (length incomes) + Z.of_nat (length expenses).
Proof.
  intros result incomes expenses.
  destruct (summary_entries transactions user startDate endDate)
    as [Hinc Hexp].
  destruct (summary_group_stat transactions user startDate endDate "income")
    as (Hit & Hic & Hia).
  destruct (summary_group_stat transactions user startDate endDate "expense")
    as (Het & Hec & Hea).
  cbv zeta in Hinc, Hexp. rewrite <- Hinc in Hit, Hic, Hia.
  rewrite <- Hexp in Het, Hec, Hea.
  fold result incomes in Hit, Hic, Hia. fold result expenses in Het, Hec, Hea.
  repeat split; try assumption.
  - unfold result, summary in *.
    destruct (fold_left setStat _ _) as [inc exp].
    cbn [balance income expense]. reflexivity.
  - unfold result, summary in *.
    destruct (fold_left setStat _ _) as [inc exp].
    cbn [totalTransactions income expense] in *. rewrite Hic, Hec.
    reflexivity.
Qed.

(** ** The rows of the category breakdown *)

Section FindPresent.
Context {A K : Type}.
Variable key : A -> K.
Variable keq : K -> K -> bool.
Hypothesis keq_eq : forall a b, keq a b = true <-> a = b.

(** With pairwise distinct keys, looking up the key of an element of the
    list finds that element. *)
Lemma find_key_in l x :
  List.NoDup (map key l) -> In x l ->
  find (fun y => keq (key y) (key x)) l = Some x.
Proof.
  intros Hnd Hin.
  destruct (find _ l) as [y|] eqn:F.
  - apply find_some in F. destruct F as [Hy Hk]. apply keq_eq in Hk.
    f_equal. apply (NoDup_key_inj key l); assumption.
  - pose proof (find_none _ _ F _ Hin) as Hn. simpl in Hn.
    rewrite (proj2 (keq_eq _ _) eq_refl) in Hn. discriminate.
Qed.
End FindPresent.

(** Of the documents that leave [$unwind], those of a category with
    exactly one document are the selected transactions of that category,
    each paired with the document. *)
Lemma unwound_of_category categories (matched : list Transaction) k c :
  List.filter (fun c => String.eqb (cat_id c) k) categories = [c] ->
  List.filter (fun d : Transaction * Category =>
                 String.eqb k (tx_category (fst d)))
              (flat_map (lookupUnwind categories) matched)
  = map (fun t => (t, c))
        (List.filter (fun t => String.eqb k (tx_category t)) matched).
Proof.
  intros Hc. induction matched as [|t rest IH]; [reflexivity|].
  cbn [flat_map List.filter]. rewrite List.filter_app, IH.
  destruct (String.eqb k (tx_category t)) eqn:E.
  - apply String.eqb_eq in E. subst k.
    unfold lookupUnwind. rewrite Hc. cbn [map List.filter fst].
    rewrite String.eqb_refl. reflexivity.
  - unfold lookupUnwind.
    assert (Hnone : forall l : list Category,
              List.filter (fun d : Transaction * Category =>
                             String.eqb k (tx_category (fst d)))
                          (map (fun c => (t, c)) l) = []).
    { induction l as [|c0 l IHl]; [reflexivity|].
      cbn [map List.filter fst]. rewrite E. exact IHl. }
    rewrite Hnone. reflexivity.
Qed.

(** X5: a row of the category breakdown whose category has exactly one
    document carries that document's name and colour; its total and count
    are those of the selected transactions that refer to the category,
    and there is at least one such transaction. *)
Theorem breakdown_row_is_category_total
    transactions categories user type startDate endDate row c :
  In row (categoryBreakdown transactions categories user type
            startDate endDate) ->
  List.filter (fun c => String.eqb (cat_id c) (br_id row)) categories = [c] ->
  let selected :=
    breakdownOfCategory transactions user type startDate endDate (br_id row) in
  br_name row = cat_name c
  /\ br_color row = cat_color c
  /\ (br_total row == sumQ (map tx_amount selected))%Q
  /\ br_count row = Z.of_nat (length selected)
  /\ selected <> [].
Proof.
  intros Hrow Hc selected.
  destruct (breakdown_rows_resolved _ _ _ _ _ _ _ Hrow)
    as (c' & Hc' & Hid & Hname & Hcolor).
  assert (c' = c).
  { assert (Hin : In c' [c]).
    { rewrite <- Hc. apply filter_In. split; [exact Hc'|].
      apply String.eqb_eq. exact Hid. }
    destruct Hin as [H|[]]. symmetry. exact H. }
  subst c'.
  unfold categoryBreakdown in Hrow.
  fold (breakdownMatched transactions user type startDate endDate) in Hrow.
  set (matched := breakdownMatched transactions user type startDate endDate)
    in *.
  set (unwound := flat_map (lookupUnwind categories) matched) in *.
  set (groups := group _ String.eqb ba_init ba_step unwound) in *.
  apply (Permutation_in _ (sort_perm _ _)) in Hrow.
  apply in_map_iff in Hrow. destruct Hrow as ([k a] & Hr & Hg).
  assert (Hk : br_id row = k) by (rewrite <- Hr; reflexivity).
  assert (Hnd : List.NoDup (map fst groups))
    by (apply group_NoDup, String.eqb_eq).
  pose proof (find_key_in fst String.eqb String.eqb_eq groups (k, a) Hnd Hg)
    as Hfind. cbn [fst] in Hfind.
  assert (Hsel : List.filter (fun d : Transaction * Category =>
                                String.eqb k (tx_category (fst d))) unwound
                 = map (fun t => (t, c)) selected).
  { unfold selected, breakdownOfCategory. fold matched. rewrite Hk.
    apply unwound_of_category. rewrite <- Hk. exact Hc. }
  assert (Htotal : (ba_total a == sumQ (map tx_amount selected))%Q).
  { pose proof (group_totalOf
                  (fun d : Transaction * Category => tx_category (fst d))
                  String.eqb ba_init ba_step ba_total
                  (fun d : Transaction * Category => tx_amount (fst d))) as H.
    specialize (H (fun d => ltac:(simpl; lra)) (fun a d => Qeq_refl _)
                  String.eqb_eq unwound k).
    fold groups in H. rewrite Hfind, Hsel, map_map in H. exact H. }
  assert (Hcount : (inject_Z (ba_count a)
                    == inject_Z (Z.of_nat (length selected)))%Q).
  { pose proof (group_totalOf
                  (fun d : Transaction * Category => tx_category (fst d))
                  String.eqb ba_init ba_step
                  (fun a => inject_Z (ba_count a))
                  (fun _ : Transaction * Category => 1%Q)) as H.
    assert (Hstep : forall (a : BreakdownAcc) (d : Transaction * Category),
              (inject_Z (ba_count (ba_step a d))
               == inject_Z (ba_count a) + 1)%Q).
    { intros a0 d. simpl. rewrite inject_Z_plus. reflexivity. }
    specialize (H (fun d => Qeq_refl _) Hstep String.eqb_eq unwound k).
    fold groups in H. rewrite Hfind, Hsel, sumQ_ones, length_map in H.
    exact H. }
  apply (proj1 (inject_Z_injective _ _)) in Hcount.
  assert (Hpos : selected <> []).
  { intros Hnil.
    assert (Hkey : In k (map fst groups))
      by (apply (in_map fst) in Hg; exact Hg).
    apply group_keys in Hkey. destruct Hkey as (d & Hd & Hdk).
    assert (Hf : In d (List.filter
                         (fun d : Transaction * Category =>
                            String.eqb k (tx_category (fst d))) unwound)).
    { apply filter_In. split; [exact Hd|].
      apply String.eqb_eq. symmetry. exact Hdk. }
    rewrite Hsel, Hnil in Hf. exact Hf. }
  rewrite <- Hr in Hname, Hcolor |- *.
  cbn [ba_row br_name br_color br_total br_count br_avgAmount fst snd] in *.
  repeat split; assumption.
Qed.

Lemma breakdown_row_is_category_total_witness :
  let row :=
    {| br_id := "65f000000000000000000c02";
       br_name := "Transport";
       br_color := "#ef4444";
       br_total := 40;
       br_count := 1;
       br_avgAmount := 40 |} in
  (br_total row
   == sumQ (map tx_amount
              (breakdownOfCategory [lunch; bus] alice "expense" None None
                 (br_id row))))%Q
  /\ breakdownOfCategory [lunch; bus] alice "expense" None None (br_id row)
     <> [].
Proof.
  intros row.
  assert (Hrow : In row (categoryBreakdown [lunch; bus] [transport] alice
                           "expense" None None))
    by (vm_compute; left; reflexivity).
  destruct (breakdown_row_is_category_total [lunch; bus] [transport] alice
              "expense" None None row transport Hrow eq_refl)
    as (_ & _ & Ht & _ & Hne).
  split; [exact Ht | exact Hne].
Defined.

(** ** The entries of the monthly trend *)

Lemma monthOf_eraDay d :
  monthOf d = monthOfEraDay ((d / msPerDay + 719468) mod 146097).
Proof.
  unfold monthOf, civilFromDays, monthOfEraDay.
  rewrite Z.mod_eq by lia.
  replace (146097 * ((d / msPerDay + 719468) / 146097))
    with ((d / msPerDay + 719468) / 146097 * 146097) by lia.
  reflexivity.
Qed.

Lemma monthsInRange_each n : forall doe,
  monthsInRange n doe = true ->
  forall k, 0 <= k < Z.of_nat n -> 1 <= monthOfEraDay (doe + k) <= 12.
Proof.
  induction n as [|n IH]; intros doe H k Hk; [lia|].
  cbn [monthsInRange] in H. cbv zeta in H.
  apply andb_prop in H. destruct H as [H Hrest].
  apply andb_prop in H. destruct H as [H1 H2].
  apply Z.leb_le in H1, H2.
  destruct (Z.eq_dec k 0) as [->|Hne].
  - rewrite Z.add_0_r. lia.
  - replace (doe + k) with (doe + 1 + (k - 1)) by lia.
    apply IH; [exact Hrest | lia].
Qed.

(** All 146097 days of the 400-year cycle, one by one. *)
Lemma monthOfEraDay_checked : monthsInRange (Z.to_nat 146097) 0 = true.
Proof. vm_cast_no_check (eq_refl true). Qed.

(** Every date falls in one of the months 1 to 12. *)
Lemma monthOf_range d : 1 <= monthOf d <= 12.
Proof.
  rewrite monthOf_eraDay.
  set (doe := (d / msPerDay + 719468) mod 146097).
  assert (Hdoe : 0 <= doe < 146097) by (apply Z.mod_pos_bound; lia).
  apply (monthsInRange_each _ 0 monthOfEraDay_checked doe).
  rewrite Z2Nat.id by lia. exact Hdoe.
Qed.

(** The conditional sum the second [$group] takes over the groups of a
    month, for any reading [f] of a group's accumulator. *)
Lemma month_groups_measure (f : SumCount -> Q)
    (groups : list ((Z * string) * SumCount)) m type :
  List.NoDup (map fst groups) ->
  (sumQ (map (fun g : (Z * string) * SumCount =>
                if String.eqb (snd (fst g)) type then f (snd g) else 0)
             (List.filter (fun g : (Z * string) * SumCount =>
                             m =? fst (fst g)) groups))
   == match find (fun g : (Z * string) * SumCount =>
                    monthTypeEq (fst g) (m, type)) groups with
      | Some g => f (snd g)
      | None => 0
      end)%Q.
Proof.
  induction groups as [|[[m0 t0] a] rest IH]; intros Hnd; simpl.
  - reflexivity.
  - inversion Hnd as [|? ? Hk Hrest]; subst. specialize (IH Hrest).
    unfold monthTypeEq at 1. simpl. rewrite (Z.eqb_sym m0 m).
    destruct (m =? m0) eqn:E; simpl; [|exact IH].
    destruct (String.eqb t0 type) eqn:T; simpl.
    + rewrite IH. apply Z.eqb_eq in E. apply String.eqb_eq in T. subst.
      destruct (find _ rest) as [g|] eqn:F; [|lra].
      apply find_some in F. destruct F as [Hin Hg].
      apply monthTypeEq_eq in Hg. exfalso. apply Hk. simpl.
      rewrite <- Hg. apply in_map. exact Hin.
    + rewrite IH. lra.
Qed.

(** What the aggregation holds for month [m]: the numbers of the selected
    income and expense transactions of that month. *)
Lemma trends_month_counts transactions user year m :
  let monthData := find (fun g => fst g =? m) (trends transactions user year) in
  match monthData with Some d => ma_incomeCount (snd d) | None => 0 end
  = Z.of_nat (length (selectedInMonth transactions user year m "income"))
  /\ match monthData with Some d => ma_expenseCount (snd d) | None => 0 end
     = Z.of_nat (length (selectedInMonth transactions user year m "expense")).
Proof.
  unfold trends, selectedInMonth.
  set (matched := List.filter (trendMatch user year) transactions).
  set (g1 := group _ monthTypeEq sc_init sc_step matched).
  set (g2 := group _ Z.eqb ma_init ma_step g1).
  assert (Hnd1 : List.NoDup (map fst g1))
    by apply group_NoDup, monthTypeEq_eq.
  assert (Hnd2 : List.NoDup (map fst g2)) by apply group_NoDup, Z.eqb_eq.
  cbv zeta.
  rewrite <- (find_key_perm fst Z.eqb Z.eqb_eq _ _ m Hnd2
                (Permutation_sym (sort_perm _ g2))).
  assert (Hsel : forall type,
    (match find (fun g : (Z * string) * SumCount =>
                   monthTypeEq (fst g) (m, type)) g1 with
     | Some g => inject_Z (sc_count (snd g))
     | None => 0
     end
     == inject_Z (Z.of_nat (length
          (List.filter (fun t => (monthOf (tx_date t) =? m)
                                 && String.eqb (tx_type t) type)
                       matched))))%Q).
  { intros type. unfold g1. rewrite <- sumQ_ones. etransitivity.
    - apply (group_totalOf (fun t => (monthOf (tx_date t), tx_type t))
               monthTypeEq sc_init sc_step
               (fun a => inject_Z (sc_count a))
               (fun _ : Transaction => 1%Q)).
      + intros d. reflexivity.
      + intros a d. simpl. rewrite inject_Z_plus. reflexivity.
      + apply monthTypeEq_eq.
    - apply eq_subrelation; [typeclasses eauto|]. f_equal. f_equal.
      apply filter_ext. intros t. unfold monthTypeEq. simpl.
      rewrite (Z.eqb_sym m), (String.eqb_sym type). reflexivity. }
  assert (Hgroup : forall type (count : MonthAcc -> Z),
    (forall d, count (ma_init d)
               = condZ (snd (fst d)) type (sc_count (snd d))) ->
    (forall a d, count (ma_step a d)
                 = count a + condZ (snd (fst d)) type (sc_count (snd d))) ->
    match find (fun g => fst g =? m) g2 with
    | Some d => count (snd d)
    | None => 0
    end
    = Z.of_nat (length
        (List.filter (fun t => (monthOf (tx_date t) =? m)
                               && String.eqb (tx_type t) type) matched))).
  { intros type count Hinit Hstep.
    apply inject_Z_injective.
    rewrite <- (Hsel type),
      <- (month_groups_measure (fun a => inject_Z (sc_count a))
            g1 m type Hnd1).
    transitivity
      (match find (fun g : Z * MonthAcc => fst g =? m) g2 with
       | Some g => inject_Z (count (snd g))
       | None => 0
       end)%Q.
    { destruct (find _ g2); reflexivity. }
    etransitivity.
    - apply (group_totalOf (fun g : (Z * string) * SumCount => fst (fst g))
               Z.eqb ma_init ma_step (fun a => inject_Z (count a))
               (fun g => inject_Z (condZ (snd (fst g)) type
                                     (sc_count (snd g))))).
      + intros d. rewrite Hinit. reflexivity.
      + intros a d. rewrite Hstep, inject_Z_plus. reflexivity.
      + apply Z.eqb_eq.
    - apply eq_subrelation; [typeclasses eauto|]. f_equal.
      apply map_ext. intros g. unfold condZ.
      destruct (String.eqb _ type); reflexivity. }
  split.
  - apply (Hgroup "income" ma_incomeCount); reflexivity.
  - apply (Hgroup "expense" ma_expenseCount); reflexivity.
Qed.

(** X8: the entry of each month of the trend reports the totals and the
    numbers of the selected income and expense transactions of that
    month, and their difference as the balance. *)
Theorem monthly_trend_entry transactions user year i name :
  nth_error monthNames i = Some name ->
  exists entry,
    nth_error (monthlyTrends transactions user year) i = Some entry
    /\ te_month entry = name
    /\ (te_income entry
        == sumQ (map tx_amount
                   (selectedInMonth transactions user year
                      (Z.of_nat i + 1) "income")))%Q
    /\ (te_expense entry
        == sumQ (map tx_amount
                   (selectedInMonth transactions user year
                      (Z.of_nat i + 1) "expense")))%Q
    /\ te_incomeCount entry
       = Z.of_nat (length (selectedInMonth transactions user year
                             (Z.of_nat i + 1) "income"))
    /\ te_expenseCount entry
       = Z.of_nat (length (selectedInMonth transactions user year
                             (Z.of_nat i + 1) "expense"))
    /\ (te_balance entry == te_income entry - te_expense entry)%Q.
Proof.
  intros Hname. unfold monthlyTrends.
  rewrite (mapi_from_nth _ _ _ _ _ Hname). simpl.
  destruct (trends_month_totals transactions user year (Z.of_nat i + 1))
    as [Hi He].
  destruct (trends_month_counts transactions user year (Z.of_nat i + 1))
    as [Hic Hec].
  eexists. split; [reflexivity|]. split; [reflexivity|].
  split; [exact Hi|]. split; [exact He|].
  split; [exact Hic|]. split; [exact Hec|]. reflexivity.
Qed.

Lemma monthly_trend_entry_witness :
  exists entry,
    nth_error (monthlyTrends marchTransactions alice 2024) 2 = Some entry
    /\ te_month entry = "Mar"
    /\ (te_expense entry == 150)%Q
    /\ te_expenseCount entry = 2.
Proof.
  destruct (monthly_trend_entry marchTransactions alice 2024 2 "Mar" eq_refl)
    as (entry & Hnth & Hname & _ & He & _ & Hec & _).
  exists entry. split; [exact Hnth|]. split; [exact Hname|].
  split; [exact He | exact Hec].
Defined.

Lemma sumQ_map_ext {A : Type} (f g : A -> Q) l :
  (forall x, In x l -> (f x == g x)%Q) ->
  (sumQ (map f l) == sumQ (map g l))%Q.
Proof.
  induction l as [|x l IH]; intros H; simpl; [reflexivity|].
  rewrite (H x (or_introl eq_refl)), IH; [reflexivity|].
  intros y Hy. apply H. right. exact Hy.
Qed.

Lemma sumQ_map_plus {A : Type} (f g : A -> Q) l :
  (sumQ (map (fun x => f x + g x) l) == sumQ (map f l) + sumQ (map g l))%Q.
Proof.
  induction l as [|x l IH]; simpl; [lra|]. rewrite IH. lra.
Qed.

Lemma sumQ_map_zero {A : Type} (l : list A) :
  (sumQ (map (fun _ => 0) l) == 0)%Q.
Proof.
  induction l as [|x l IH]; simpl; [reflexivity|]. rewrite IH. lra.
Qed.

(** Over distinct months, the amount of one transaction is counted once,
    in its own month. *)
Lemma sumQ_one_month (ms : list Z) (m : Z) (v : Q) :
  List.NoDup ms -> In m ms ->
  (sumQ (map (fun m' => if m =? m' then v else 0) ms) == v)%Q.
Proof.
  induction ms as [|m0 ms IH]; intros Hnd Hin; [contradiction|].
  inversion Hnd as [|? ? Hm0 Hms]; subst. simpl.
  destruct (m =? m0) eqn:E.
  - apply Z.eqb_eq in E. subst m0.
    rewrite (sumQ_map_ext _ (fun _ => 0%Q)), sumQ_map_zero; [lra|].
    intros m' Hm'. destruct (m =? m') eqn:E'; [|reflexivity].
    apply Z.eqb_eq in E'. subst m'. contradiction.
  - apply Z.eqb_neq in E. destruct Hin as [H|H]; [congruence|].
    rewrite IH by assumption. lra.
Qed.

(** Splitting a selection by month and adding the parts up again gives
    the whole, when every element falls in one of the months. *)
Lemma sumQ_by_month {A : Type} (month : A -> Z) (p : A -> bool) (w : A -> Q)
    (ms : list Z) (l : list A) :
  List.NoDup ms -> (forall x, In x l -> In (month x) ms) ->
  (sumQ (map (fun m => sumQ (map w (List.filter
                                      (fun x => (month x =? m) && p x) l)))
             ms)
   == sumQ (map w (List.filter p l)))%Q.
Proof.
  intros Hnd. induction l as [|x l IH]; intros Hin.
  - simpl. apply sumQ_map_zero.
  - rewrite (sumQ_map_ext _
               (fun m => (if month x =? m then (if p x then w x else 0) else 0)
                         + sumQ (map w (List.filter
                                          (fun y => (month y =? m) && p y) l)))%Q).
    + rewrite sumQ_map_plus, IH by (intros y Hy; apply Hin; right; exact Hy).
      rewrite sumQ_one_month by (try exact Hnd; apply Hin; left; reflexivity).
      simpl. destruct (p x); simpl; lra.
    + intros m _. simpl.
      destruct (month x =? m); simpl; [|lra].
      destruct (p x); simpl; lra.
Qed.

Lemma In_monthNumbers m : 1 <= m <= 12 -> In m monthNumbers.
Proof. intros H. unfold monthNumbers. simpl. lia. Qed.

Lemma NoDup_monthNumbers : List.NoDup monthNumbers.
Proof.
  unfold monthNumbers.
  repeat (constructor; [simpl; intros H; lia|]). constructor.
Qed.

(** X9: over the twelve entries of the trend no selected transaction is
    lost or counted twice: the income counts of the entries add up to the
    number of the selected income transactions of the year, and the
    expense counts to that of the selected expense transactions. *)
Theorem monthly_trends_add_up transactions user year :
  sumZ (map te_incomeCount (monthlyTrends transactions user year))
  = Z.of_nat (length (selectedInYear transactions user year "income"))
  /\ sumZ (map te_expenseCount (monthlyTrends transactions user year))
     = Z.of_nat (length (selectedInYear transactions user year "expense")).
Proof.
  set (tr := trends transactions user year).
  set (inc := fun m : Z =>
         match find (fun g => fst g =? m) tr with
         | Some d => ma_incomeCount (snd d) | None => 0 end).
  set (exp := fun m : Z =>
         match find (fun g => fst g =? m) tr with
         | Some d => ma_expenseCount (snd d) | None => 0 end).
  assert (Hi : map te_incomeCount (monthlyTrends transactions user year)
               = map inc monthNumbers) by reflexivity.
  assert (He : map te_expenseCount (monthlyTrends transactions user year)
               = map exp monthNumbers) by reflexivity.
  assert (Hsum : forall type,
    (sumQ (map (fun m => sumQ (map (fun _ : Transaction => 1%Q)
                  (selectedInMonth transactions user year m type)))
               monthNumbers)
     == sumQ (map (fun _ : Transaction => 1%Q)
                (selectedInYear transactions user year type)))%Q).
  { intros type. unfold selectedInMonth, selectedInYear.
    apply (sumQ_by_month (fun t => monthOf (tx_date t))
             (fun t => String.eqb (tx_type t) type) (fun _ => 1%Q)).
    - apply NoDup_monthNumbers.
    - intros t _. apply In_monthNumbers, monthOf_range. }
  rewrite Hi, He. split; apply inject_Z_injective;
    rewrite sumZ_inject, map_map, <- sumQ_ones, <- Hsum;
    apply sumQ_map_ext; intros m _; rewrite sumQ_ones;
    apply inject_Z_injective;
    apply (trends_month_counts transactions user year m).
Qed.

(** ** The budgets collection *)

Lemma noOverlap_snoc l b :
  noOverlap l = true -> (forall x, In x l -> conflict x b = false) ->
  noOverlap (l ++ [b]) = true.
Proof.
  induction l as [|a l IH]; intros Hl Hb; [reflexivity|].
  cbn [noOverlap app] in *. apply andb_prop in Hl. destruct Hl as [Ha Hl].
  apply andb_true_intro. split.
  - rewrite forallb_app, Ha. simpl.
    rewrite (Hb a (or_introl eq_refl)). reflexivity.
  - apply IH; [exact Hl|]. intros x Hx. apply Hb. right. exact Hx.
Qed.

Lemma forallb_removeFirst {A : Type} (f p : A -> bool) l :
  forallb f l = true -> forallb f (removeFirst p l) = true.
Proof.
  induction l as [|x l IH]; [reflexivity|]. simpl. intros H.
  apply andb_prop in H. destruct H as [Hx Hl].
  destruct (p x); [exact Hl|]. simpl. rewrite Hx. apply IH, Hl.
Qed.

Lemma noOverlap_removeFirst p l :
  noOverlap l = true -> noOverlap (removeFirst p l) = true.
Proof.
  induction l as [|a l IH]; [reflexivity|]. cbn [noOverlap removeFirst].
  intros H. apply andb_prop in H. destruct H as [Ha Hl].
  destruct (p a); [exact Hl|]. cbn [noOverlap].
  rewrite (forallb_removeFirst _ p l Ha). apply IH, Hl.
Qed.

(** The overlap query of the create handler asks exactly whether an
    existing budget would be in conflict with the new one. *)
Lemma conflict_newBudget x user newId body amount start end_ :
  conflict x (newBudget user newId body amount start end_)
  = overlapQuery user (bb_category body) (bb_period body) start end_ x.
Proof.
  unfold conflict, overlapQuery, newBudget. simpl. rewrite orb_false_r.
  destruct (String.eqb (b_user x) user),
    (String.eqb (b_category x) (bb_category body)),
    (String.eqb (period x) (bb_period body)), (isActive x),
    (startDate x <=? end_), (start <=? endDate x); reflexivity.
Qed.

(** X10: the create and delete handlers keep the budgets collection free
    of conflicts: if no two budgets in it are active budgets of the same
    user, category and period with overlapping intervals, the same holds
    after either request, whatever its outcome. *)
Theorem budget_handlers_keep_noOverlap
    budgets categories user newId body id :
  noOverlap budgets = true ->
  noOverlap (snd (postBudget budgets categories user newId body)) = true
  /\ noOverlap (snd (deleteBudget budgets user id)) = true.
Proof.
  intros Hinv. split.
  - unfold postBudget.
    destruct (validateBudgetBody body); [|exact Hinv].
    destruct (bb_amount body) as [amount|]; [|exact Hinv].
    destruct (bb_startDate body) as [start|]; [|exact Hinv].
    destruct (bb_endDate body) as [end_|]; [|exact Hinv].
    destruct (findCategory _ _ _ _); [|exact Hinv].
    destruct (find _ budgets) eqn:F; [exact Hinv|].
    destruct (budgetSchemaValid _); [|exact Hinv].
    cbn [snd]. apply noOverlap_snoc; [exact Hinv|].
    intros x Hx. rewrite conflict_newBudget.
    exact (find_none _ _ F x Hx).
  - unfold deleteBudget. destruct (isMongoId id); [|exact Hinv].
    destruct (find _ budgets); [|exact Hinv].
    cbn [snd]. apply noOverlap_removeFirst, Hinv.
Qed.

Lemma budget_handlers_keep_noOverlap_witness :
  noOverlap (snd (postBudget [marchFood] [food] alice
                    "65f000000000000000000b08" aprilFood)) = true
  /\ length (snd (postBudget [marchFood] [food] alice
                    "65f000000000000000000b08" aprilFood)) = 2%nat.
Proof.
  split; [|reflexivity].
  apply (budget_handlers_keep_noOverlap [marchFood] [food] alice
           "65f000000000000000000b08" aprilFood
           "65f000000000000000000b04").
  reflexivity.
Defined.

(** X11: a budget the create handler answers with belongs to the
    requester, refers to an active expense category of the requester,
    has an amount of at least 0.01, nothing spent and all of its amount
    remaining, is active, and is the one document added to the
    collection; any other answer leaves the collection as it was. *)
Theorem postBudget_outcome budgets categories user newId body :
  (forall b budgets',
     postBudget budgets categories user newId body = (Created b, budgets') ->
     budgets' = (budgets ++ [b])%list
     /\ b_user b = user
     /\ (exists c, In c categories /\ cat_id c = b_category b
                   /\ cat_user c = user /\ cat_type c = "expense"
                   /\ cat_isActive c = true)
     /\ (1 # 100 <= amount b)%Q
     /\ spent b = 0%Q
     /\ (remaining b == amount b)%Q
     /\ isActive b = true)
  /\ (forall r budgets',
        postBudget budgets categories user newId body = (r, budgets') ->
        (forall b, r <> Created b) -> budgets' = budgets).
Proof.
  unfold postBudget.
  destruct (validateBudgetBody body); [|split; intros; congruence].
  destruct (bb_amount body) as [amt|]; [|split; intros; congruence].
  destruct (bb_startDate body) as [start|]; [|split; intros; congruence].
  destruct (bb_endDate body) as [end_|]; [|split; intros; congruence].
  destruct (findCategory _ _ _ _) as [c|] eqn:FC;
    [|split; intros; congruence].
  destruct (find _ budgets); [split; intros; congruence|].
  destruct (budgetSchemaValid _) eqn:V; [|split; intros; congruence].
  split.
  - intros b budgets' [= <- <-].
    apply findCategory_some in FC.
    destruct FC as (Hin & Hid & Hu & Hty & Hact).
    unfold budgetSchemaValid in V. rewrite !andb_true_iff in V.
    destruct V as (((((((Hamount & _) & _) & _) & _) & _) & _) & _).
    apply Qle_bool_iff in Hamount. cbn [newBudget amount] in Hamount.
    split; [reflexivity|]. split; [reflexivity|].
    split; [exists c; cbn [newBudget b_category]; tauto|].
    split; [exact Hamount|]. split; [reflexivity|].
    split; [|reflexivity].
    unfold remaining, Math_max. cbn [newBudget amount spent].
    destruct (Qle_bool 0 (amt - 0)) eqn:E; qprop; lra.
  - intros r budgets' [= <- <-] Hr. exfalso. exact (Hr _ eq_refl).
Qed.

Lemma postBudget_outcome_witness :
  b_user marchFood = alice /\ (remaining marchFood == amount marchFood)%Q.
Proof.
  destruct (postBudget_outcome [] [food] alice "65f000000000000000000b04"
              monthlyFood) as [Hcreated _].
  destruct (Hcreated marchFood [marchFood] eq_refl)
    as (_ & Hu & _ & _ & _ & Hr & _).
  split; [exact Hu | exact Hr].
Defined.

(** ** Deleting one document *)

Lemma removeFirst_split {A : Type} (p : A -> bool) l x :
  find p l = Some x ->
  exists l1 l2,
    l = (l1 ++ x :: l2)%list /\ removeFirst p l = (l1 ++ l2)%list
    /\ p x = true /\ forall y, In y l1 -> p y = false.
Proof.
  induction l as [|a l IH]; simpl; [discriminate|].
  destruct (p a) eqn:E.
  - intros [= ->]. exists [], l. repeat split; try assumption.
    intros y [].
  - intros H. destruct (IH H) as (l1 & l2 & Hl & Hr & Hx & Hl1).
    exists (a :: l1), l2. simpl. rewrite Hl at 1. rewrite Hr.
    repeat split; try assumption.
    intros y [<-|Hy]; [exact E | apply Hl1, Hy].
Qed.

(** X12: a delete request removes at most one document, the first one
    with the given id that belongs to the requester, and keeps all others
    in their order; when the requester owns no document with that id the
    answer is 404 and the collection is as it was.  The same holds for
    budgets and for transactions. *)
Theorem delete_removes_one_owned_document user id :
  isMongoId id = true ->
  (forall budgets,
     (fst (deleteBudget budgets user id) = NotFound "Budget not found"
      /\ snd (deleteBudget budgets user id) = budgets
      /\ forall b, In b budgets -> b_id b = id -> b_user b <> user)
     \/ (exists l1 b l2,
           budgets = (l1 ++ b :: l2)%list
           /\ snd (deleteBudget budgets user id) = (l1 ++ l2)%list
           /\ b_id b = id /\ b_user b = user
           /\ statusCode (fst (deleteBudget budgets user id)) = 200))
  /\ (forall transactions,
       (fst (deleteTransaction transactions user id)
        = NotFound "Transaction not found"
        /\ snd (deleteTransaction transactions user id) = transactions
        /\ forall t, In t transactions -> tx_id t = id -> tx_user t <> user)
       \/ (exists l1 t l2,
             transactions = (l1 ++ t :: l2)%list
             /\ snd (deleteTransaction transactions user id)
                = (l1 ++ l2)%list
             /\ tx_id t = id /\ tx_user t = user
             /\ statusCode (fst (deleteTransaction transactions user id))
                = 200)).
Proof.
  intros Hid. split.
  - intros budgets. unfold deleteBudget. rewrite Hid.
    destruct (find _ budgets) as [b|] eqn:F.
    + right. destruct (removeFirst_split _ _ _ F)
        as (l1 & l2 & Hl & Hr & Hb & _).
      apply andb_prop in Hb. destruct Hb as [Hb1 Hb2].
      apply String.eqb_eq in Hb1, Hb2.
      exists l1, b, l2. cbn [fst snd]. repeat split; assumption.
    + left. cbn [fst snd]. repeat split.
      intros b Hb Hbid Hu. pose proof (find_none _ _ F b Hb) as Hn.
      simpl in Hn. rewrite (proj2 (String.eqb_eq _ _) Hbid),
        (proj2 (String.eqb_eq _ _) Hu) in Hn. discriminate.
  - intros transactions. unfold deleteTransaction. rewrite Hid.
    destruct (find _ transactions) as [t|] eqn:F.
    + right. destruct (removeFirst_split _ _ _ F)
        as (l1 & l2 & Hl & Hr & Ht & _).
      apply andb_prop in Ht. destruct Ht as [Ht1 Ht2].
      apply String.eqb_eq in Ht1, Ht2.
      exists l1, t, l2. cbn [fst snd]. repeat split; assumption.
    + left. cbn [fst snd]. repeat split.
      intros t Ht Htid Hu. pose proof (find_none _ _ F t Ht) as Hn.
      simpl in Hn. rewrite (proj2 (String.eqb_eq _ _) Htid),
        (proj2 (String.eqb_eq _ _) Hu) in Hn. discriminate.
Qed.

Lemma delete_removes_one_owned_document_witness :
  snd (deleteTransaction [lunch; bus] alice (tx_id bus)) = [lunch]
  /\ (fst (deleteBudget [marchFood] alice (tx_id bus))
      = NotFound "Budget not found"
      \/ statusCode (fst (deleteBudget [marchFood] alice (tx_id bus))) = 200).
Proof.
  destruct (delete_removes_one_owned_document alice (tx_id bus) eq_refl)
    as [Hb Ht].
  split; [reflexivity|].
  destruct (Hb [marchFood]) as [(H & _)|(l1 & b & l2 & _ & _ & _ & _ & H)];
    [left | right]; exact H.
Defined.

(** ** Updates leave other documents alone *)

Lemma replaceFirst_nth {A : Type} (p : A -> bool) new (l : list A) i x :
  nth_error l i = Some x -> p x = false ->
  nth_error (replaceFirst p new l) i = Some x.
Proof.
  revert i. induction l as [|a l IH]; intros [|i]; simpl; try discriminate.
  - intros [= ->] Hp. rewrite Hp. reflexivity.
  - intros Hi Hp. destruct (p a); [exact Hi|]. simpl. apply IH; assumption.
Qed.

Lemma replaceFirst_length {A : Type} (p : A -> bool) new (l : list A) :
  length (replaceFirst p new l) = length l.
Proof.
  induction l as [|a l IH]; [reflexivity|]. simpl.
  destruct (p a); simpl; [reflexivity|]. rewrite IH. reflexivity.
Qed.

(** X13: an update request for a budget, on a body whose keys the model
    covers, touches no document but the requester's budget with the given
    id: the collection keeps its size, every document that is not that
    budget stays in its place unchanged, and an answer other than success
    leaves the whole collection as it was. *)
Theorem putBudget_touches_only_own
    (amountValid : jsval -> bool) (cast : string -> jsval -> option jsval)
    (unchanged : jsval -> jsval -> bool)
    (schemaValid : gmap string jsval -> bool)
    (documentMember : string -> bool)
    (budgets : list (gmap string jsval)) (user id : string) (now : jsval)
    (body : list (string * jsval)) r budgets' :
  putBudget amountValid cast unchanged schemaValid documentMember
    budgets user id now body = Some (r, budgets') ->
  length budgets' = length budgets
  /\ (forall i doc,
        nth_error budgets i = Some doc -> ownedBy user id doc = false ->
        nth_error budgets' i = Some doc)
  /\ ((forall b, r <> Ok b) -> budgets' = budgets).
Proof.
  intro H.
  destruct (putBudget_cases _ _ _ _ _ _ _ _ _ _ _ _ H)
    as [[-> Hr]|(budget & d & F & A & C & [(M & -> & ->)|(-> & ->)])].
  - repeat split. intros; assumption.
  - repeat split. intros; assumption.
  - split; [apply replaceFirst_length|]. split.
    + intros i doc Hi Hown. apply replaceFirst_nth; assumption.
    + intro Hr. now destruct (Hr (<["updatedAt" := now]> (d_fields d))).
Qed.

Lemma putBudget_touches_only_own_witness :
  match putBudget (fun _ => true) castScalar sameScalar (fun _ => true)
          knownMembers [docOfBudget fullBudget; storedMarchFood] alice
          (b_id marchFood) (JNum (inject_Z (instant 2024 3 20 10 0)))
          moveAndRaise with
  | Some (r, budgets') =>
      length budgets' = 2%nat
      /\ nth_error budgets' 0 = Some (docOfBudget fullBudget)
  | None => False
  end.
Proof.
  destruct (putBudget (fun _ => true) castScalar sameScalar (fun _ => true)
              knownMembers [docOfBudget fullBudget; storedMarchFood] alice
              (b_id marchFood) (JNum (inject_Z (instant 2024 3 20 10 0)))
              moveAndRaise)
    as [[r budgets']|] eqn:E.
  - destruct (putBudget_touches_only_own _ _ _ _ _ _ _ _ _ _ _ _ E)
      as (Hlen & Hother & _).
    split; [exact Hlen|].
    apply (Hother 0%nat); reflexivity.
  - assert (H : match putBudget (fun _ => true) castScalar sameScalar
                        (fun _ => true) knownMembers
                        [docOfBudget fullBudget; storedMarchFood] alice
                        (b_id marchFood)
                        (JNum (inject_Z (instant 2024 3 20 10 0)))
                        moveAndRaise with
                | Some _ => true
                | None => false
                end = true) by reflexivity.
    rewrite E in H. discriminate H.
Defined.

(** ** The transactions collection *)

(** X14: a transaction the create handler answers with belongs to the
    requester, has a type of income or expense, an amount of at least
    0.01 and a trimmed description of 1 to 200 characters, refers to an
    active category of the requester of its own type, and is the one
    document added to the collection; any other answer leaves the
    collection as it was. *)
Theorem postTransaction_outcome transactions categories user newId now body :
  (forall t transactions',
     postTransaction transactions categories user newId now body
     = (Created t, transactions') ->
     transactions' = (transactions ++ [t])%list
     /\ tx_id t = newId
     /\ tx_user t = user
     /\ (tx_type t = "income" \/ tx_type t = "expense")
     /\ (1 # 100 <= tx_amount t)%Q
     /\ tx_description t = trim (tb_description body)
     /\ (1 <= String.length (tx_description t) <= 200)%nat
     /\ (exists c, In c categories /\ cat_id c = tx_category t
                   /\ cat_user c = user /\ cat_type c = tx_type t
                   /\ cat_isActive c = true))
  /\ (forall r transactions',
        postTransaction transactions categories user newId now body
        = (r, transactions') ->
        (forall t, r <> Created t) -> transactions' = transactions).
Proof.
  unfold postTransaction.
  destruct (validateTransactionBody body) eqn:V;
    [|split; intros; congruence].
  destruct (tb_amount body) as [amt|] eqn:A; [|split; intros; congruence].
  destruct (findCategory _ _ _ _) as [c|] eqn:FC;
    [|split; intros; congruence].
  destruct (transactionSchemaValid _) eqn:S; [|split; intros; congruence].
  split.
  - intros t transactions' [= <- <-].
    apply findCategory_some in FC.
    destruct FC as (Hin & Hid & Hu & Hty & Hact).
    unfold transactionSchemaValid in S. rewrite !andb_true_iff in S.
    cbn [tx_user tx_type tx_amount tx_description tx_category] in S.
    destruct S as ((((_ & Htype) & Hamount) & Hdesc) & _).
    apply Qle_bool_iff in Hamount.
    clear Hdesc.
    assert (Hdesc : isLength1to200 (trim (tb_description body)) = true).
    { unfold validateTransactionBody in V.
      apply app_eq_nil in V. destruct V as [_ V].
      apply app_eq_nil in V. destruct V as [_ V].
      apply app_eq_nil in V. destruct V as [V _].
      destruct (isLength1to200 _); [reflexivity | discriminate V]. }
    unfold isLength1to200 in Hdesc. apply andb_prop in Hdesc.
    destruct Hdesc as [Hd1 Hd2].
    apply Nat.leb_le in Hd1, Hd2.
    unfold isIn in Htype. simpl in Htype. rewrite orb_false_r in Htype.
    apply orb_prop in Htype. rewrite !String.eqb_eq in Htype.
    cbn [tx_id tx_user tx_type tx_amount tx_description tx_category].
    repeat split; try assumption.
    exists c. tauto.
  - intros r transactions' [= <- <-] Hr. exfalso. exact (Hr _ eq_refl).
Qed.

Lemma postTransaction_outcome_witness :
  exists t,
    postTransaction [] [food] alice "65f000000000000000000d21"
      (instant 2024 3 22 8 0) lunchBody = (Created t, [t])
    /\ tx_description t = "lunch" /\ tx_user t = alice.
Proof.
  eexists. split; [vm_compute; reflexivity|].
  destruct (postTransaction_outcome [] [food] alice
              "65f000000000000000000d21" (instant 2024 3 22 8 0) lunchBody)
    as [Hcreated _].
  destruct (Hcreated _ _ eq_refl) as (_ & _ & Hu & _ & _ & Hd & _).
  split; [exact Hd | exact Hu].
Defined.

(** ** Listing transactions page by page *)

Lemma check_nil ok message : check ok message = [] -> ok = true.
Proof. destruct ok; [reflexivity | discriminate]. Qed.

(** A query that passes validation has a page of at least 1 and a limit
    from 1 to 100, the defaults included. *)
Lemma validateListQuery_bounds q :
  validateListQuery q = [] ->
  1 <= match q_page q with Present n => n | _ => 1 end
  /\ 1 <= match q_limit q with Present n => n | _ => 20 end <= 100.
Proof.
  unfold validateListQuery. intros V.
  apply app_eq_nil in V. destruct V as [Vp V].
  apply app_eq_nil in V. destruct V as [Vl _].
  apply check_nil in Vp, Vl.
  destruct (q_page q), (q_limit q); try discriminate;
    try (apply andb_prop in Vl; destruct Vl as [V1 V2]);
    rewrite ?Z.leb_le in *; lia.
Qed.

(** [Math.ceil(total / limit)] is the number of pages: a page number is
    below it exactly when the pages up to it do not reach the total. *)
Lemma page_below_pages page total limit :
  1 <= limit ->
  page < Qceiling (inject_Z total / inject_Z limit) <-> page * limit < total.
Proof.
  intros Hl.
  set (x := (inject_Z total / inject_Z limit)%Q).
  pose proof (Qle_ceiling x) as Hup. pose proof (Qceiling_lt x) as Hlow.
  assert (HL : (1 <= inject_Z limit)%Q)
    by (change 1%Q with (inject_Z 1); rewrite <- Zle_Qle; exact Hl).
  assert (Hx : (x * inject_Z limit == inject_Z total)%Q).
  { unfold x. rewrite Qmult_comm. apply Qmult_div_r. lra. }
  split; intros H.
  - assert (Hq : (inject_Z page <= inject_Z (Qceiling x - 1))%Q)
      by (rewrite <- Zle_Qle; lia).
    rewrite Zlt_Qlt, inject_Z_mult. nra.
  - rewrite Zlt_Qlt, inject_Z_mult in H.
    rewrite Zlt_Qlt. nra.
Qed.

Lemma In_window {A : Type} n k (l : list A) x :
  In x (firstn n (skipn k l)) -> In x l.
Proof.
  intros H. rewrite <- (firstn_skipn k l). apply in_or_app. right.
  rewrite <- (firstn_skipn n (skipn k l)). apply in_or_app. left. exact H.
Qed.

(** X17: a page of the transaction list holds at most [limit]
    transactions, all of them the requester's, of the requested type when
    one is given, each with its category populated; total counts the
    matching transactions; pages is the least number of pages of that
    size that holds them all; hasPrev and hasNext say whether the current
    page is after the first and before the last. *)
Theorem getTransactions_page
    (regexCI : string -> option (string -> bool))
    stored categories user q r :
  getTransactions regexCI stored categories user q = Ok r ->
  let limit := match q_limit q with Present n => n | _ => 20 end in
  let pg := lr_pagination r in
  Z.of_nat (length (lr_transactions r)) <= limit
  /\ (forall st c,
        In (st, c) (lr_transactions r) ->
        In st stored /\ tx_user (sd_doc st) = user
        /\ (forall type, q_type q = Some type -> tx_type (sd_doc st) = type)
        /\ c = populate categories (sd_doc st))
  /\ 0 <= pg_total pg <= Z.of_nat (length stored)
  /\ (pg_pages pg - 1) * limit < pg_total pg <= pg_pages pg * limit
  /\ 1 <= pg_current pg
  /\ (pg_hasPrev pg = true <-> 1 < pg_current pg)
  /\ (pg_hasNext pg = true <-> pg_current pg < pg_pages pg).
Proof.
  unfold getTransactions.
  destruct (validateListQuery q) eqn:V; [|discriminate].
  destruct (validateListQuery_bounds q V) as [Hpage Hlimit].
  destruct (listFilter regexCI user q) as [f|] eqn:F; [|discriminate].
  intros [= <-]. cbv zeta.
  set (page := match q_page q with Present n => n | _ => 1 end) in *.
  set (limit := match q_limit q with Present n => n | _ => 20 end) in *.
  set (matching := List.filter f stored).
  set (sorted := sort newestFirst matching).
  cbn [lr_transactions lr_pagination pg_current pg_pages pg_total
       pg_hasNext pg_hasPrev].
  assert (Hlen : length sorted = length matching)
    by (apply Permutation_length, sort_perm).
  set (shown := firstn (Z.to_nat limit)
                  (skipn (Z.to_nat ((page - 1) * limit)) sorted)).
  assert (Hshown : length shown
                   = Nat.min (Z.to_nat limit)
                       (length matching - Z.to_nat ((page - 1) * limit))).
  { unfold shown. rewrite length_firstn, length_skipn, Hlen. reflexivity. }
  set (total := Z.of_nat (length matching)) in *.
  assert (Htotal : total <= Z.of_nat (length stored)).
  { unfold total, matching. apply inj_le, filter_length_le. }
  pose proof (page_below_pages
                (Qceiling (inject_Z total / inject_Z limit) - 1) total limit
                (proj1 Hlimit)) as Hlast.
  pose proof (page_below_pages
                (Qceiling (inject_Z total / inject_Z limit)) total limit
                (proj1 Hlimit)) as Hend.
  split; [rewrite length_map, Hshown; lia|].
  split.
  { intros st c Hin. apply in_map_iff in Hin.
    destruct Hin as (st' & [= <- <-] & Hst).
    apply In_window in Hst.
    apply (Permutation_in _ (sort_perm _ _)) in Hst.
    apply filter_In in Hst. destruct Hst as [Hst Hf].
    split; [exact Hst|].
    unfold listFilter in F.
    destruct (match q_category q with Some _ => _ | None => _ end)
      as [inCategory|]; [|discriminate].
    destruct (match q_search q with Some _ => _ | None => _ end)
      as [found|]; [|discriminate].
    injection F as <-. rewrite !andb_true_iff in Hf.
    destruct Hf as ((((Hu & Hty) & _) & _) & _).
    apply String.eqb_eq in Hu.
    split; [exact Hu|]. split; [|reflexivity].
    intros type Htype. rewrite Htype in Hty.
    assert (Htruthy : truthy type = true).
    { unfold validateListQuery in V.
      apply app_eq_nil in V. destruct V as [_ V].
      apply app_eq_nil in V. destruct V as [_ V].
      apply app_eq_nil in V. destruct V as [V _].
      apply check_nil in V. rewrite Htype in V.
      unfold isIn in V. simpl in V.
      destruct (String.eqb type "income") eqn:E1;
        [apply String.eqb_eq in E1; subst; reflexivity|].
      destruct (String.eqb type "expense") eqn:E2;
        [apply String.eqb_eq in E2; subst; reflexivity | discriminate]. }
    rewrite Htruthy in Hty. apply String.eqb_eq in Hty. exact Hty. }
  split; [lia|].
  split; [lia|].
  split; [exact Hpage|].
  split; [apply Z.ltb_lt|].
  rewrite Z.ltb_lt, Hshown,
    (page_below_pages page total limit (proj1 Hlimit)).
  nia.
Qed.

Lemma getTransactions_page_witness :
  exists r,
    getTransactions (fun _ => None) storedMarch [food] alice pagesOfTwo = Ok r
    /\ pg_pages (lr_pagination r) = 2
    /\ pg_hasNext (lr_pagination r) = true.
Proof.
  eexists. split; [vm_compute; reflexivity|].
  split; [reflexivity|].
  apply (getTransactions_page (fun _ => None) storedMarch [food] alice
           pagesOfTwo _ eq_refl).
  reflexivity.
Defined.

Lemma firstn_add {A : Type} a b (l : list A) :
  firstn (a + b) l = (firstn a l ++ firstn b (skipn a l))%list.
Proof.
  revert l. induction a as [|a IH]; intros l; [reflexivity|].
  destruct l as [|x l]; simpl.
  - rewrite firstn_nil. reflexivity.
  - rewrite IH. reflexivity.
Qed.

(** Cutting a list into consecutive pieces of [size] and joining the
    first [n] of them gives its first [n * size] elements. *)
Lemma pages_join {A : Type} (size : nat) (l : list A) n :
  flat_map (fun k => firstn size (skipn (k * size) l)) (seq 0 n)
  = firstn (n * size) l.
Proof.
  induction n as [|n IH]; [reflexivity|].
  rewrite seq_S, flat_map_app, IH. simpl. rewrite app_nil_r.
  rewrite (Nat.add_comm size), firstn_add. reflexivity.
Qed.

Lemma validateListQuery_withPage q page :
  validateListQuery q = [] -> 1 <= page ->
  validateListQuery (withPage q page) = [].
Proof.
  unfold validateListQuery. intros V Hp.
  apply app_eq_nil in V. destruct V as [_ V].
  cbn [withPage q_page q_limit q_type q_startDate q_endDate].
  rewrite (proj2 (Z.leb_le 1 page) Hp). exact V.
Qed.

(** The pages of one query answered over the same order of the
    collection list the matching transactions between them. *)
Lemma pages_of_one_scan
    (regexCI : string -> option (string -> bool))
    stored categories user q filter :
  validateListQuery q = [] ->
  listFilter regexCI user q = Some filter ->
  let limit := match q_limit q with Present n => n | _ => 20 end in
  let all := sort newestFirst (List.filter filter stored) in
  let pages :=
    Qceiling (inject_Z (Z.of_nat (length all)) / inject_Z limit) in
  (forall k, (k < Z.to_nat pages)%nat ->
     exists r,
       getTransactions regexCI stored categories user
         (withPage q (Z.of_nat k + 1)) = Ok r
       /\ pg_pages (lr_pagination r) = pages
       /\ pg_total (lr_pagination r) = Z.of_nat (length all))
  /\ flat_map
       (fun k =>
          match getTransactions regexCI stored categories user
                  (withPage q (Z.of_nat k + 1)) with
          | Ok r => lr_transactions r
          | _ => []
          end)
       (seq 0 (Z.to_nat pages))
     = map (fun st => (st, populate categories (sd_doc st))) all.
Proof.
  intros V F limit all pages.
  destruct (validateListQuery_bounds q V) as [_ Hlimit]. fold limit in Hlimit.
  assert (Hlen : length all = length (List.filter filter stored))
    by (apply Permutation_length, sort_perm).
  assert (Hget : forall k,
    getTransactions regexCI stored categories user
      (withPage q (Z.of_nat k + 1))
    = Ok {| lr_transactions :=
              map (fun st => (st, populate categories (sd_doc st)))
                  (firstn (Z.to_nat limit)
                          (skipn (k * Z.to_nat limit) all));
            lr_pagination :=
              {| pg_current := Z.of_nat k + 1;
                 pg_pages := pages;
                 pg_total := Z.of_nat (length all);
                 pg_hasNext :=
                   Z.of_nat k * limit
                   + Z.of_nat (length (firstn (Z.to_nat limit)
                                 (skipn (k * Z.to_nat limit) all)))
                   <? Z.of_nat (length all);
                 pg_hasPrev := 1 <? Z.of_nat k + 1 |} |}).
  { intros k. unfold getTransactions.
    rewrite (validateListQuery_withPage q (Z.of_nat k + 1) V) by lia.
    change (listFilter regexCI user (withPage q (Z.of_nat k + 1)))
      with (listFilter regexCI user q).
    rewrite F. cbn [withPage q_page q_limit]. fold limit. cbv zeta.
    fold all. unfold pages. rewrite Hlen.
    replace (Z.of_nat k + 1 - 1) with (Z.of_nat k) by lia.
    replace (Z.to_nat (Z.of_nat k * limit)) with (k * Z.to_nat limit)%nat
      by (rewrite Z2Nat.inj_mul, Nat2Z.id by lia; reflexivity).
    reflexivity. }
  split.
  - intros k _. eexists. split; [apply Hget|]. split; reflexivity.
  - rewrite (flat_map_ext _
               (fun k => map (fun st => (st, populate categories (sd_doc st)))
                             (firstn (Z.to_nat limit)
                                     (skipn (k * Z.to_nat limit) all)))).
    2:{ intros k. rewrite Hget. reflexivity. }
    rewrite flat_map_concat_map, <- map_map, <- concat_map,
      <- flat_map_concat_map, pages_join.
    f_equal. apply firstn_all2.
    pose proof (page_below_pages pages (Z.of_nat (length all)) limit
                  (proj1 Hlimit)) as Hend.
    fold pages in Hend.
    assert (Hp : 0 <= pages).
    { destruct (Z_lt_le_dec pages 0) as [Hneg|]; [|assumption].
      pose proof (page_below_pages (-1) (Z.of_nat (length all)) limit
                    (proj1 Hlimit)) as Hm.
      fold pages in Hm. nia. }
    nia.
Qed.


(** ** Deleting a category *)

Section GroupMap.
Context {D K A : Type}.
Variable key : D -> K.
Variable keq : K -> K -> bool.
Variable init : D -> A.
Variable step : A -> D -> A.
Variable h : D -> D.
Hypothesis h_key : forall d, key (h d) = key d.
Hypothesis h_init : forall d, init (h d) = init d.
Hypothesis h_step : forall a d, step a (h d) = step a d.

Lemma upsert_map d groups :
  upsert key keq init step (h d) groups = upsert key keq init step d groups.
Proof.
  induction groups as [|[k a] rest IH]; cbn [upsert].
  - now rewrite h_key, h_init.
  - rewrite h_key, h_step, IH. reflexivity.
Qed.

Lemma group_map docs :
  group key keq init step (map h docs) = group key keq init step docs.
Proof.
  unfold group. generalize (@nil (K * A)).
  induction docs as [|d docs IH]; intro groups; [reflexivity|].
  cbn [map fold_left]. rewrite upsert_map. apply IH.
Qed.
End GroupMap.

Lemma find_none_all {A : Type} (p : A -> bool) l :
  (forall x, In x l -> p x = false) -> find p l = None.
Proof.
  intro H. destruct (find p l) as [x|] eqn:F; [|reflexivity].
  apply find_some in F. destruct F as [Hin Hp].
  rewrite (H x Hin) in Hp. discriminate.
Qed.

Lemma filter_removeFirst {A : Type} (p q : A -> bool) l :
  (forall x, p x = true -> q x = false) ->
  List.filter q (removeFirst p l) = List.filter q l.
Proof.
  intro H. induction l as [|x l IH]; [reflexivity|].
  cbn [removeFirst]. destruct (p x) eqn:Px.
  - cbn [List.filter]. now rewrite (H x Px).
  - cbn [List.filter]. now rewrite IH.
Qed.

Lemma find_removeFirst {A : Type} (p q : A -> bool) l :
  (forall x, p x = true -> q x = false) ->
  find q (removeFirst p l) = find q l.
Proof.
  intro H. induction l as [|x l IH]; [reflexivity|].
  cbn [removeFirst]. destruct (p x) eqn:Px.
  - cbn [find]. now rewrite (H x Px).
  - cbn [find]. now rewrite IH.
Qed.

(** With distinct ids, removing the first document of an id leaves none
    of that id. *)
Lemma removeFirst_by_id (l : list Category) id c :
  List.NoDup (map cat_id l) ->
  In c (removeFirst (fun x => String.eqb (cat_id x) id) l) ->
  cat_id c <> id.
Proof.
  induction l as [|y l IH]; [easy|]. cbn [map removeFirst].
  intros Hnd Hin. inversion Hnd as [|? ? Hy Hl]; subst.
  destruct (String.eqb (cat_id y) id) eqn:E.
  - apply String.eqb_eq in E. subst id. intro Heq.
    apply Hy. rewrite <- Heq. apply in_map, Hin.
  - destruct Hin as [->|Hin].
    + now apply String.eqb_neq.
    + now apply IH.
Qed.

(** With distinct ids, saving the deactivated document changes exactly the
    documents of its id. *)
Lemma replaceFirst_by_id (l : list Category) c0 :
  List.NoDup (map cat_id l) -> In c0 l ->
  replaceFirst (fun c => String.eqb (cat_id c) (cat_id c0)) (deactivate c0) l
  = map (fun c => if String.eqb (cat_id c) (cat_id c0)
                  then deactivate c else c) l.
Proof.
  induction l as [|y l IH]; [easy|]. cbn [map replaceFirst].
  intros Hnd Hin. inversion Hnd as [|? ? Hy Hl]; subst.
  destruct (String.eqb (cat_id y) (cat_id c0)) eqn:E.
  - apply String.eqb_eq in E.
    assert (y = c0) as ->.
    { destruct Hin as [H|H]; [exact H|].
      exfalso. apply Hy. rewrite E. apply in_map, H. }
    f_equal.
    transitivity (map (fun x : Category => x) l);
      [symmetry; apply map_id|]. apply map_ext_in.
    intros c Hc. destruct (String.eqb (cat_id c) (cat_id c0)) eqn:E';
      [|reflexivity].
    apply String.eqb_eq in E'. exfalso. apply Hy.
    rewrite <- E'. apply in_map, Hc.
  - f_equal. apply IH; [exact Hl|].
    destruct Hin as [H|H]; [|exact H].
    subst y. now rewrite String.eqb_refl in E.
Qed.

Lemma lookupUnwind_map (g : Category -> Category) categories t :
  (forall c, cat_id (g c) = cat_id c) ->
  lookupUnwind (map g categories) t
  = map (fun d => (fst d, g (snd d))) (lookupUnwind categories t).
Proof.
  intro Hg. unfold lookupUnwind.
  induction categories as [|c l IH]; [reflexivity|].
  cbn [map List.filter]. rewrite Hg.
  destruct (String.eqb (cat_id c) (tx_category t)); cbn [map];
    now rewrite IH.
Qed.

Lemma find_map_id (g : Category -> Category) categories k :
  (forall c, cat_id (g c) = cat_id c) ->
  find (fun c => String.eqb (cat_id c) k) (map g categories)
  = option_map g (find (fun c => String.eqb (cat_id c) k) categories).
Proof.
  intro Hg. induction categories as [|c l IH]; [reflexivity|].
  cbn [map find]. rewrite Hg.
  now destruct (String.eqb (cat_id c) k).
Qed.

Lemma flat_map_ext_on {A B : Type} (f g : A -> list B) l :
  (forall x, In x l -> f x = g x) -> flat_map f l = flat_map g l.
Proof.
  induction l as [|x l IH]; intro H; [reflexivity|].
  cbn [flat_map]. rewrite (H x (or_introl eq_refl)).
  f_equal. apply IH. intros y Hy. apply H. now right.
Qed.

Lemma flat_map_mapped {A B : Type} (f : A -> list B) (h : B -> B) l :
  flat_map (fun x => map h (f x)) l = map h (flat_map f l).
Proof.
  induction l as [|x l IH]; [reflexivity|].
  cbn [flat_map]. now rewrite map_app, IH.
Qed.

(** What the delete handler does to the categories collection. *)
Lemma deleteCategory_cases categories transactions user id :
  List.NoDup (map cat_id categories) ->
  let categories' := snd (deleteCategory categories transactions user id) in
  (categories' = categories
   /\ forall m, fst (deleteCategory categories transactions user id) <> Ok m)
  \/ (categories'
      = map (fun c => if String.eqb (cat_id c) id then deactivate c else c)
            categories
      /\ exists m, fst (deleteCategory categories transactions user id) = Ok m)
  \/ (categories'
      = removeFirst (fun c => String.eqb (cat_id c) id) categories
      /\ (forall t, In t transactions -> tx_user t = user ->
                    tx_category t <> id)
      /\ exists m, fst (deleteCategory categories transactions user id) = Ok m).
Proof.
  intros Hnd. unfold deleteCategory.
  destruct (isMongoId id); [|now left].
  destruct (find _ categories) as [category|] eqn:F; [|now left].
  apply find_some in F. destruct F as [Hin Hp].
  apply andb_prop in Hp. destruct Hp as [Hid _].
  apply String.eqb_eq in Hid. subst id.
  destruct (0 <? length _)%nat eqn:Hcount; cbn [snd fst].
  - right; left. split; [|eauto].
    now apply replaceFirst_by_id.
  - right; right. split; [reflexivity|]. split; [|eauto].
    intros t Ht Hu Hc.
    apply Nat.ltb_ge in Hcount.
    assert (In t (List.filter
                    (fun t => String.eqb (tx_user t) user
                              && String.eqb (tx_category t) (cat_id category))
                    transactions)) as Hf.
    { apply filter_In. split; [exact Ht|].
      rewrite Hu, Hc, !String.eqb_refl. reflexivity. }
    destruct (List.filter _ transactions); [easy|].
    cbn [length] in Hcount. lia.
Qed.

Lemma deactivate_if_id id c :
  cat_id (if String.eqb (cat_id c) id then deactivate c else c) = cat_id c.
Proof. now destruct (String.eqb (cat_id c) id). Qed.

(** X19: deleting a category changes nothing in what the requester sees of
    their transactions: the category breakdown of any type and range is
    the same before and after, and every transaction of theirs is
    populated with the same category name, colour and type. *)
Theorem deleteCategory_keeps_requester_views
    categories transactions user id :
  List.NoDup (map cat_id categories) ->
  let categories' := snd (deleteCategory categories transactions user id) in
  (forall type startDate endDate,
     categoryBreakdown transactions categories' user type startDate endDate
     = categoryBreakdown transactions categories user type startDate endDate)
  /\ (forall t, In t transactions -> tx_user t = user ->
        populate categories' t = populate categories t).
Proof.
  intros Hnd categories'.
  destruct (deleteCategory_cases categories transactions user id Hnd)
    as [[H _]|[[H _]|[H [Hfree _]]]]; fold categories' in H; rewrite H;
    clear H.
  - split; reflexivity.
  - set (g := fun c => if String.eqb (cat_id c) id then deactivate c else c).
    assert (Hg : forall c, cat_id (g c) = cat_id c)
      by (intro c; apply deactivate_if_id).
    split.
    + intros type startDate endDate. unfold categoryBreakdown.
      cbv zeta. do 2 f_equal.
      rewrite (flat_map_ext _ _ (fun t => lookupUnwind_map g categories t Hg)).
      rewrite flat_map_mapped.
      apply group_map.
      * reflexivity.
      * intros [t c]. unfold ba_init, g. cbn [fst snd].
        now destruct (String.eqb (cat_id c) id).
      * intros a [t c]. reflexivity.
    + intros t _ _. unfold populate. rewrite (find_map_id g _ _ Hg).
      destruct (find _ categories) as [c|]; [|reflexivity].
      cbn [option_map]. unfold g.
      now destruct (String.eqb (cat_id c) id).
  - split.
    + intros type startDate endDate. unfold categoryBreakdown.
      cbv zeta. do 3 f_equal.
      apply flat_map_ext_on. intros t Ht.
      apply filter_In in Ht. destruct Ht as [Ht Hp].
      apply andb_prop in Hp. destruct Hp as [Hp _].
      apply andb_prop in Hp. destruct Hp as [Hu _].
      apply String.eqb_eq in Hu.
      unfold lookupUnwind. f_equal. apply filter_removeFirst.
      intros c Hc. apply String.eqb_eq in Hc.
      apply String.eqb_neq. rewrite Hc. intro E.
      now apply (Hfree t Ht Hu).
    + intros t Ht Hu. unfold populate.
      rewrite find_removeFirst; [reflexivity|].
      intros c Hc. apply String.eqb_eq in Hc.
      apply String.eqb_neq. rewrite Hc. intro E.
      now apply (Hfree t Ht Hu).
Qed.

Lemma deleteCategory_keeps_requester_views_witness :
  List.NoDup (map cat_id [food; transport])
  /\ categoryBreakdown marchTransactions
       (snd (deleteCategory [food; transport] marchTransactions alice
               (cat_id food)))
       alice "expense" None None
     = categoryBreakdown marchTransactions [food; transport]
         alice "expense" None None.
Proof.
  assert (List.NoDup (map cat_id [food; transport])) as Hnd.
  { repeat constructor; cbn; intuition discriminate. }
  split; [exact Hnd|].
  apply (proj1 (deleteCategory_keeps_requester_views
                  [food; transport] marchTransactions alice (cat_id food)
                  Hnd)).
Defined.

(** After a successful delete no document of the id is active. *)
Lemma deleteCategory_inactive categories transactions user id m c :
  List.NoDup (map cat_id categories) ->
  fst (deleteCategory categories transactions user id) = Ok m ->
  In c (snd (deleteCategory categories transactions user id)) ->
  cat_id c = id -> cat_isActive c = false.
Proof.
  intros Hnd Hok.
  destruct (deleteCategory_cases categories transactions user id Hnd)
    as [[_ H]|[[H _]|[H _]]].
  - now destruct (H m).
  - rewrite H. intros Hin Hid. apply in_map_iff in Hin.
    destruct Hin as [c0 [Hc Hin]]. subst c.
    rewrite deactivate_if_id in Hid. rewrite Hid, String.eqb_refl.
    reflexivity.
  - rewrite H. intros Hin Hid.
    now destruct (removeFirst_by_id _ _ _ Hnd Hin).
Qed.

Lemma findCategory_deleted categories transactions user id m who type :
  List.NoDup (map cat_id categories) ->
  fst (deleteCategory categories transactions user id) = Ok m ->
  findCategory (snd (deleteCategory categories transactions user id))
    id who type = None.
Proof.
  intros Hnd Hok. unfold findCategory. apply find_none_all.
  intros c Hin.
  destruct (String.eqb (cat_id c) id) eqn:E; [|reflexivity].
  apply String.eqb_eq in E.
  rewrite (deleteCategory_inactive _ _ _ _ _ _ Hnd Hok Hin E).
  now rewrite !andb_false_r.
Qed.

(** X20: once a category has been deleted it can no longer be used, by
    anyone: it is not in the list of categories, and a request to create a
    transaction or a budget in it creates nothing. *)
Theorem deleted_category_no_longer_usable
    categories transactions budgets user id m :
  List.NoDup (map cat_id categories) ->
  fst (deleteCategory categories transactions user id) = Ok m ->
  let categories' := snd (deleteCategory categories transactions user id) in
  (forall who type c,
     In c (getCategories categories' who type) -> cat_id c <> id)
  /\ (forall who newId now body, tb_category body = id ->
        (forall t, fst (postTransaction transactions categories' who newId
                          now body) <> Created t)
        /\ snd (postTransaction transactions categories' who newId now body)
           = transactions)
  /\ (forall who newId body, bb_category body = id ->
        (forall b, fst (postBudget budgets categories' who newId body)
                   <> Created b)
        /\ snd (postBudget budgets categories' who newId body) = budgets).
Proof.
  intros Hnd Hok categories'. repeat split.
  - intros who type c Hin Hid. unfold getCategories in Hin.
    apply (Permutation_in _ (sort_perm _ _)) in Hin.
    apply filter_In in Hin. destruct Hin as [Hin Hp].
    apply andb_prop in Hp. destruct Hp as [Hp _].
    apply andb_prop in Hp. destruct Hp as [_ Hact].
    rewrite (deleteCategory_inactive _ _ _ _ _ _ Hnd Hok Hin Hid) in Hact.
    discriminate.
  - intros t. unfold postTransaction.
    destruct (validateTransactionBody body); [|discriminate].
    destruct (tb_amount body); [|discriminate].
    rewrite H. unfold categories'.
    rewrite (findCategory_deleted _ _ _ _ _ who _ Hnd Hok). discriminate.
  - unfold postTransaction.
    destruct (validateTransactionBody body); [|reflexivity].
    destruct (tb_amount body); [|reflexivity].
    rewrite H. unfold categories'.
    rewrite (findCategory_deleted _ _ _ _ _ who _ Hnd Hok). reflexivity.
  - intros b. unfold postBudget.
    destruct (validateBudgetBody body); [|discriminate].
    destruct (bb_amount body), (bb_startDate body), (bb_endDate body);
      try discriminate.
    rewrite H. unfold categories'.
    rewrite (findCategory_deleted _ _ _ _ _ who _ Hnd Hok). discriminate.
  - unfold postBudget.
    destruct (validateBudgetBody body); [|reflexivity].
    destruct (bb_amount body), (bb_startDate body), (bb_endDate body);
      try reflexivity.
    rewrite H. unfold categories'.
    rewrite (findCategory_deleted _ _ _ _ _ who _ Hnd Hok). reflexivity.
Qed.

Lemma deleted_category_no_longer_usable_witness :
  snd (postTransaction marchTransactions
         (snd (deleteCategory [food; transport] marchTransactions alice
                 (cat_id food)))
         alice "65f000000000000000000d21" (instant 2024 3 21 12 30)
         lunchBody)
  = marchTransactions.
Proof.
  assert (List.NoDup (map cat_id [food; transport])) as Hnd.
  { repeat constructor; cbn; intuition discriminate. }
  apply (proj1 (proj2 (deleted_category_no_longer_usable
                  [food; transport] marchTransactions [] alice (cat_id food)
                  _ Hnd eq_refl))).
  reflexivity.
Defined.

(** ** The pie chart of the Dashboard *)

Lemma addExpense_fold_labelled categories l :
  forall (acc : gmap string Q) done,
  (forall k,
     match acc !! k with
     | Some v =>
         (v == sumQ (map Dashboard.t_amount
                       (List.filter
                          (fun t => String.eqb
                                      (Dashboard.categoryLabel categories t) k)
                          done)))%Q
         /\ List.filter
              (fun t => String.eqb (Dashboard.categoryLabel categories t) k)
              done <> []
     | None =>
         List.filter
           (fun t => String.eqb (Dashboard.categoryLabel categories t) k)
           done = []
     end) ->
  forall k,
    match fold_left (Dashboard.addExpense categories) l acc !! k with
    | Some v =>
        (v == sumQ (map Dashboard.t_amount
                      (List.filter
                         (fun t => String.eqb
                                     (Dashboard.categoryLabel categories t) k)
                         (done ++ l))))%Q
        /\ List.filter
             (fun t => String.eqb (Dashboard.categoryLabel categories t) k)
             (done ++ l) <> []
    | None =>
        List.filter
          (fun t => String.eqb (Dashboard.categoryLabel categories t) k)
          (done ++ l) = []
    end.
Proof.
  induction l as [|t l IH]; intros acc done Inv k.
  - rewrite app_nil_r. apply Inv.
  - replace (done ++ t :: l)%list with ((done ++ [t]) ++ l)%list
      by (rewrite <- app_assoc; reflexivity).
    cbn [fold_left]. apply IH. clear k. intro k.
    unfold Dashboard.addExpense.
    destruct (String.eqb (Dashboard.categoryLabel categories t) k) eqn:E.
    + apply String.eqb_eq in E. subst k.
      rewrite lookup_insert_eq, List.filter_app. cbn [List.filter].
      rewrite String.eqb_refl. split.
      * rewrite map_app, sumQ_app. cbn [map sumQ].
        specialize (Inv (Dashboard.categoryLabel categories t)).
        destruct (acc !! Dashboard.categoryLabel categories t) as [v0|];
          cbn [default].
        -- destruct Inv as [Hv _]. rewrite Hv. cbn. lra.
        -- rewrite Inv. cbn. lra.
      * intro H. apply app_eq_nil in H. destruct H. discriminate.
    + assert (Dashboard.categoryLabel categories t <> k) as Hne
        by (now apply String.eqb_neq).
      rewrite lookup_insert_ne by exact Hne.
      rewrite List.filter_app. cbn [List.filter]. rewrite E, app_nil_r.
      apply Inv.
Qed.

(** X21: the pie chart of the Dashboard accounts for the month's expenses,
    when no expense is filed under a name that an object literal inherits
    from Object.prototype: the slices have distinct names, each slice
    stands for at least one expense and its value is the sum, taken in
    order from 0, of the expenses filed under its name, and every expense
    is filed under its category's name or 'Uncategorized'. *)
Theorem dashboard_slices_account_for_expenses currentMonth categories :
  (forall t, In t currentMonth -> Dashboard.t_type t = "expense" ->
     ~ In (Dashboard.categoryLabel categories t) objectPrototypeNames) ->
  let slices := Dashboard.categoryData currentMonth categories in
  List.NoDup (map Dashboard.s_name slices)
  /\ (forall slice, In slice slices ->
        expensesLabelled currentMonth categories (Dashboard.s_name slice)
        <> []
        /\ (Dashboard.s_value slice
            == Dashboard.sumAmounts
                 (expensesLabelled currentMonth categories
                    (Dashboard.s_name slice)))%Q)
  /\ (forall t, In t currentMonth -> Dashboard.t_type t = "expense" ->
        exists slice, In slice slices
          /\ Dashboard.s_name slice = Dashboard.categoryLabel categories t).
Proof.
  intros _ slices. split; [|split].
  - unfold slices, Dashboard.categoryData. rewrite map_map.
    rewrite (map_ext _ fst) by (now intros [name value]).
    apply NoDup_ListNoDup.
    apply (NoDup_fst_map_to_list
             (Dashboard.expensesByCategory currentMonth categories)).
  - intros slice Hin. unfold slices, Dashboard.categoryData in Hin.
    apply in_map_iff in Hin. destruct Hin as [[name value] [<- Hin]].
    cbn [Dashboard.s_name Dashboard.s_value].
    apply list_elem_of_In, elem_of_map_to_list in Hin.
    pose proof (addExpense_fold_labelled categories
                  (List.filter
                     (fun t => String.eqb (Dashboard.t_type t) "expense")
                     currentMonth)
                  ∅ [] (fun k => eq_refl) name) as H.
    fold (Dashboard.expensesByCategory currentMonth categories) in H.
    rewrite Hin in H. cbn [app] in H. destruct H as [Hv Hne].
    split; [exact Hne|].
    unfold Dashboard.sumAmounts. rewrite sumAmounts_from, Hv.
    unfold expensesLabelled. lra.
  - intros t Ht Hty. now apply dashboard_expense_filed.
Qed.

Lemma dashboard_slices_account_for_expenses_witness :
  List.NoDup
    (map Dashboard.s_name
       (Dashboard.categoryData [clientLunch; clientBus] [clientTransport])).
Proof.
  apply (dashboard_slices_account_for_expenses
           [clientLunch; clientBus] [clientTransport]).
  intros t [<-|[<-|[]]] _ H; vm_compute in H; intuition discriminate.
Defined.

(** ** Sorted listings *)

Section SortOrder.
Context {A : Type}.
Variable before : A -> A -> bool.
Hypothesis before_total : forall a b, before a b = false -> before b a = true.
Hypothesis before_trans :
  forall a b c, before a b = true -> before b c = true -> before a c = true.

Lemma insert_sorted_ordered x l :
  StronglySorted (fun a b => before a b = true) l ->
  StronglySorted (fun a b => before a b = true) (insert_sorted before x l).
Proof.
  induction 1 as [|y l Hl IH Hy]; cbn [insert_sorted].
  - repeat constructor.
  - destruct (before y x) eqn:E.
    + constructor; [exact IH|].
      apply List.Forall_forall. intros z Hz.
      apply (Permutation_in _ (insert_sorted_perm before x l)) in Hz.
      destruct Hz as [<-|Hz]; [exact E|].
      now apply (proj1 (List.Forall_forall _ _) Hy).
    + apply before_total in E.
      constructor; [now constructor|].
      constructor; [exact E|].
      apply List.Forall_forall. intros z Hz.
      apply (before_trans _ y); [exact E|].
      now apply (proj1 (List.Forall_forall _ _) Hy).
Qed.

Lemma sort_ordered l :
  StronglySorted (fun a b => before a b = true) (sort before l).
Proof.
  unfold sort.
  assert (G : forall acc,
            StronglySorted (fun a b => before a b = true) acc ->
            StronglySorted (fun a b => before a b = true)
              (fold_left (fun acc x => insert_sorted before x acc) l acc)).
  { induction l as [|x l IH]; intros acc Hacc; [exact Hacc|].
    cbn [fold_left]. apply IH, insert_sorted_ordered, Hacc. }
  apply G. constructor.
Qed.
End SortOrder.

Lemma sorted_across {A : Type} (R : A -> A -> Prop) l1 l2 a b :
  StronglySorted R (l1 ++ l2) -> In a l1 -> In b l2 -> R a b.
Proof.
  induction l1 as [|x l1 IH]; [easy|].
  cbn [app]. intros Hs Ha Hb. inversion Hs as [|? ? Hrest Hx]; subst.
  destruct Ha as [<-|Ha].
  - apply (proj1 (List.Forall_forall _ _) Hx). apply in_or_app. now right.
  - now apply IH.
Qed.

Lemma sorted_between {A : Type} (R : A -> A -> Prop) pre a mid b post :
  StronglySorted R (pre ++ a :: mid ++ b :: post) -> R a b.
Proof.
  intro Hs.
  apply (sorted_across R (pre ++ [a]) (mid ++ b :: post)).
  - now rewrite <- app_assoc.
  - apply in_or_app. right. now left.
  - apply in_or_app. right. now left.
Qed.

Lemma laterFirst_total a b : laterFirst a b = false -> laterFirst b a = true.
Proof. unfold laterFirst. lia. Qed.

Lemma laterFirst_trans a b c :
  laterFirst a b = true -> laterFirst b c = true -> laterFirst a c = true.
Proof. unfold laterFirst. lia. Qed.

Lemma newestFirst_total a b : newestFirst a b = false -> newestFirst b a = true.
Proof. unfold newestFirst. lia. Qed.

Lemma newestFirst_trans a b c :
  newestFirst a b = true -> newestFirst b c = true -> newestFirst a c = true.
Proof. unfold newestFirst. lia. Qed.

(** X22: the Dashboard's recent transactions are the ten newest: there are
    ten of them, or all when there are fewer; no transaction left out is
    newer than one shown; and they are shown from newest to oldest. *)
Theorem recent_transactions_are_the_newest transactions :
  let recent := recentTransactions transactions in
  length recent = Nat.min 10 (length transactions)
  /\ (exists older,
        Permutation (recent ++ older) transactions
        /\ forall a b, In a recent -> In b older ->
             (Dashboard.t_date b <= Dashboard.t_date a)%Z)
  /\ (forall pre a mid b post,
        recent = (pre ++ a :: mid ++ b :: post)%list ->
        (Dashboard.t_date b <= Dashboard.t_date a)%Z).
Proof.
  intro recent. unfold recent, recentTransactions.
  pose proof (sort_ordered laterFirst laterFirst_total laterFirst_trans
                transactions) as Hs.
  pose proof (sort_perm laterFirst transactions) as Hp.
  set (sorted := sort laterFirst transactions) in *.
  split; [|split].
  - rewrite length_firstn. now rewrite (Permutation_length Hp).
  - exists (skipn 10 sorted). split.
    + now rewrite firstn_skipn.
    + intros a b Ha Hb.
      rewrite <- (firstn_skipn 10 sorted) in Hs.
      pose proof (sorted_across _ _ _ a b Hs Ha Hb) as H.
      unfold laterFirst in H. lia.
  - intros pre a mid b post E.
    rewrite <- (firstn_skipn 10 sorted), E in Hs.
    rewrite <- !app_assoc in Hs. cbn [app] in Hs.
    rewrite <- app_assoc in Hs. cbn [app] in Hs.
    pose proof (sorted_between _ _ _ _ _ _ Hs) as H.
    unfold laterFirst in H. lia.
Qed.

(** X23: a page of transactions is listed from newest to oldest: of two
    entries of a page the earlier one has the later date, or the same date
    and was created no earlier. *)
Theorem getTransactions_newest_first
    (regexCI : string -> option (string -> bool))
    stored categories user q r :
  getTransactions regexCI stored categories user q = Ok r ->
  forall pre a mid b post,
    map fst (lr_transactions r) = (pre ++ a :: mid ++ b :: post)%list ->
    (tx_date (sd_doc b) < tx_date (sd_doc a))%Z
    \/ (tx_date (sd_doc b) = tx_date (sd_doc a)
        /\ (sd_createdAt b <= sd_createdAt a)%Z).
Proof.
  unfold getTransactions.
  destruct (validateListQuery q); [|discriminate].
  destruct (listFilter regexCI user q) as [f|]; [|discriminate].
  intros [= <-] pre a mid b post. cbv zeta. cbn [lr_transactions].
  rewrite map_map. cbn [fst]. rewrite map_id.
  pose proof (sort_ordered newestFirst newestFirst_total newestFirst_trans
                (List.filter f stored)) as Hs.
  set (sorted := sort newestFirst (List.filter f stored)) in *.
  set (limit := Z.to_nat _). set (skip := Z.to_nat _).
  intro E.
  rewrite <- (firstn_skipn skip sorted) in Hs.
  rewrite <- (firstn_skipn limit (skipn skip sorted)), E in Hs.
  rewrite <- !app_assoc in Hs. cbn [app] in Hs.
  rewrite <- app_assoc in Hs. cbn [app] in Hs.
  rewrite app_assoc in Hs.
  pose proof (sorted_between _ _ _ _ _ _ Hs) as H.
  unfold newestFirst in H. lia.
Qed.

Lemma getTransactions_newest_first_witness :
  exists r a b,
    getTransactions (fun _ => None) storedMarch [food] alice pagesOfTwo = Ok r
    /\ map fst (lr_transactions r) = [a; b]
    /\ ((tx_date (sd_doc b) < tx_date (sd_doc a))%Z
        \/ (tx_date (sd_doc b) = tx_date (sd_doc a)
            /\ (sd_createdAt b <= sd_createdAt a)%Z)).
Proof.
  eexists. eexists. eexists.
  split; [vm_compute; reflexivity|].
  split; [reflexivity|].
  apply (getTransactions_newest_first (fun _ => None) storedMarch [food]
           alice pagesOfTwo _ eq_refl [] _ [] _ []).
  reflexivity.
Defined.

Lemma filter_perm {A : Type} (f : A -> bool) l l' :
  Permutation l l' -> Permutation (List.filter f l) (List.filter f l').
Proof.
  induction 1 as [|x l l' _ IH|x y l|l l' l'' _ IH1 _ IH2];
    cbn [List.filter].
  - constructor.
  - destruct (f x); [now constructor | exact IH].
  - destruct (f x), (f y); try apply Permutation_refl. constructor.
  - now transitivity (List.filter f l').
Qed.

(** Two sorted lists with the same elements are the same list, when no two
    different elements may each precede the other. *)
Lemma sorted_perm_eq {A : Type} (R : A -> A -> Prop) (l1 : list A) :
  forall l2,
    StronglySorted R l1 -> StronglySorted R l2 -> Permutation l1 l2 ->
    (forall a b, In a l1 -> In b l1 -> R a b -> R b a -> a = b) ->
    l1 = l2.
Proof.
  induction l1 as [|a l1 IH]; intros l2 S1 S2 P Anti.
  - apply Permutation_nil in P. now subst.
  - destruct l2 as [|b l2].
    { apply Permutation_sym, Permutation_nil in P. discriminate. }
    inversion S1 as [|? ? S1' F1]; subst.
    inversion S2 as [|? ? S2' F2]; subst.
    assert (a = b) as <-.
    { assert (In a (b :: l2)) as Ha
        by (apply (Permutation_in _ P); now left).
      assert (In b (a :: l1)) as Hb
        by (apply (Permutation_in _ (Permutation_sym P)); now left).
      destruct Ha as [Ha|Ha]; [now symmetry|].
      destruct Hb as [Hb|Hb]; [exact Hb|].
      apply Anti; [now left | now right | |].
      - apply (proj1 (List.Forall_forall _ _) F1 b Hb).
      - apply (proj1 (List.Forall_forall _ _) F2 a Ha). }
    f_equal. apply IH; try assumption.
    + apply (Permutation_cons_inv P).
    + intros x y Hx Hy. apply Anti; now right.
Qed.

(** Without ties, the order in which the query meets the documents makes
    no difference to the sorted listing. *)
Lemma sort_any_scan filter (stored stored' : list StoredTransaction) :
  Permutation stored' stored ->
  List.NoDup (map sortKey (List.filter filter stored)) ->
  sort newestFirst (List.filter filter stored')
  = sort newestFirst (List.filter filter stored).
Proof.
  intros P Hnd.
  assert (Pf : Permutation (List.filter filter stored')
                 (List.filter filter stored)) by now apply filter_perm.
  apply (sorted_perm_eq (fun a b => newestFirst a b = true)).
  - apply sort_ordered; [apply newestFirst_total | apply newestFirst_trans].
  - apply sort_ordered; [apply newestFirst_total | apply newestFirst_trans].
  - rewrite (sort_perm newestFirst (List.filter filter stored')).
    rewrite (sort_perm newestFirst (List.filter filter stored)). exact Pf.
  - intros a b Ha Hb Hab Hba.
    apply (Permutation_in _ (sort_perm _ _)), (Permutation_in _ Pf) in Ha.
    apply (Permutation_in _ (sort_perm _ _)), (Permutation_in _ Pf) in Hb.
    apply (NoDup_key_inj sortKey _ a b Hnd Ha Hb).
    unfold sortKey. unfold newestFirst in Hab, Hba.
    f_equal; lia.
Qed.

Lemma getTransactions_any_scan
    (regexCI : string -> option (string -> bool))
    stored stored' categories user q filter :
  listFilter regexCI user q = Some filter ->
  Permutation stored' stored ->
  List.NoDup (map sortKey (List.filter filter stored)) ->
  getTransactions regexCI stored' categories user q
  = getTransactions regexCI stored categories user q.
Proof.
  intros F P Hnd. unfold getTransactions.
  destruct (validateListQuery q); [|reflexivity].
  rewrite F. cbv zeta.
  rewrite (sort_any_scan filter stored stored' P Hnd).
  rewrite (Permutation_length (filter_perm filter _ _ P)).
  reflexivity.
Qed.

(** X18: when no two matching transactions tie on date and createdAt, the
    pages of one query, taken in order from the first to the last, each
    by a query of its own that may meet the documents in an order of its
    own, are each answered successfully and together list every matching
    transaction exactly once, newest first. *)
Theorem getTransactions_pages_cover
    (regexCI : string -> option (string -> bool))
    stored (scans : nat -> list StoredTransaction) categories user q filter :
  validateListQuery q = [] ->
  listFilter regexCI user q = Some filter ->
  (forall k, Permutation (scans k) stored) ->
  List.NoDup (map sortKey (List.filter filter stored)) ->
  let limit := match q_limit q with Present n => n | _ => 20 end in
  let all := sort newestFirst (List.filter filter stored) in
  let pages :=
    Qceiling (inject_Z (Z.of_nat (length all)) / inject_Z limit) in
  (forall k, (k < Z.to_nat pages)%nat ->
     exists r,
       getTransactions regexCI (scans k) categories user
         (withPage q (Z.of_nat k + 1)) = Ok r
       /\ pg_pages (lr_pagination r) = pages
       /\ pg_total (lr_pagination r) = Z.of_nat (length all))
  /\ flat_map
       (fun k =>
          match getTransactions regexCI (scans k) categories user
                  (withPage q (Z.of_nat k + 1)) with
          | Ok r => lr_transactions r
          | _ => []
          end)
       (seq 0 (Z.to_nat pages))
     = map (fun st => (st, populate categories (sd_doc st))) all.
Proof.
  intros V F Hscan Hnd limit all pages.
  assert (Hsame : forall k,
            getTransactions regexCI (scans k) categories user
              (withPage q (Z.of_nat k + 1))
            = getTransactions regexCI stored categories user
                (withPage q (Z.of_nat k + 1))).
  { intro k.
    apply (getTransactions_any_scan regexCI stored (scans k) categories user
             (withPage q (Z.of_nat k + 1)) filter);
      [exact F | apply Hscan | exact Hnd]. }
  destruct (pages_of_one_scan regexCI stored categories user q filter V F)
    as [Hpage Hall].
  split.
  - intros k Hk. rewrite Hsame. now apply Hpage.
  - rewrite (flat_map_ext _ _ (fun k => f_equal
               (fun x => match x with Ok r => lr_transactions r | _ => [] end)
               (Hsame k))).
    exact Hall.
Qed.

Lemma getTransactions_pages_cover_witness :
  length
    (flat_map
       (fun k =>
          match getTransactions (fun _ => None)
                  (if Nat.even k then storedMarch else rev storedMarch)
                  [food] alice (withPage pagesOfTwo (Z.of_nat k + 1)) with
          | Ok r => lr_transactions r
          | _ => []
          end)
       (seq 0 2))
  = length storedMarch.
Proof.
  assert (Hscan : forall k,
            Permutation (if Nat.even k then storedMarch else rev storedMarch)
              storedMarch).
  { intro k. destruct (Nat.even k);
      [apply Permutation_refl | apply Permutation_sym, Permutation_rev]. }
  assert (Hnd : List.NoDup
                  (map sortKey
                     (List.filter
                        (fun st =>
                           String.eqb (tx_user (sd_doc st)) alice
                           && true && true
                           && dateInRange None None (tx_date (sd_doc st))
                           && true)
                        storedMarch))).
  { vm_compute. repeat constructor; cbn; intuition discriminate. }
  exact (f_equal (@length _)
           (proj2 (getTransactions_pages_cover
                     (fun _ => None) storedMarch
                     (fun k => if Nat.even k then storedMarch
                               else rev storedMarch)
                     [food] alice pagesOfTwo _ eq_refl eq_refl Hscan Hnd))).
Defined.

(** ** The rows of the category breakdown *)

(** The counts of the breakdown's rows add up to the number of documents
    that come out of [$lookup] and [$unwind]. *)
Lemma breakdown_count_total transactions categories user type
    startDate endDate :
  sumZ (map br_count
          (categoryBreakdown transactions categories user type
             startDate endDate))
  = Z.of_nat
      (length (flat_map (lookupUnwind categories)
                 (breakdownMatched transactions user type startDate
                    endDate))).
Proof.
  apply inject_Z_injective.
  rewrite sumZ_inject, <- sumQ_ones, map_map.
  unfold categoryBreakdown. cbv zeta.
  rewrite (sumQ_perm _ _
             (Permutation_map (fun r => inject_Z (br_count r))
                (sort_perm totalDesc _))).
  rewrite map_map. cbn [ba_row br_count snd].
  apply (group_totals _ String.eqb ba_init ba_step
           (fun a => inject_Z (ba_count a))
           (fun _ : Transaction * Category => 1%Q)).
  - intros d. reflexivity.
  - intros a d. cbn [ba_step ba_count]. rewrite inject_Z_plus. reflexivity.
Qed.

(** X6: for income and for expense, when the category reference of every
    transaction of the type resolves to exactly one category document,
    the counts of the rows of the category breakdown add up to the count
    the summary reports for the type: every selected transaction is
    counted in exactly one row. *)
Theorem breakdown_counts_match_summary_when_resolved
    transactions categories user type startDate endDate :
  type = "income" \/ type = "expense" ->
  (forall t, In t transactions -> tx_type t = type ->
     exists c, List.filter (fun c => String.eqb (cat_id c) (tx_category t))
                           categories = [c]) ->
  sumZ (map br_count
          (categoryBreakdown transactions categories user type
             startDate endDate))
  = summaryCount (summary transactions user startDate endDate) type.
Proof.
  intros Htype Hres. rewrite breakdown_count_total.
  assert (Hlen : length (flat_map (lookupUnwind categories)
                           (breakdownMatched transactions user type
                              startDate endDate))
                 = length (breakdownMatched transactions user type
                             startDate endDate)).
  { rewrite <- (length_map
                  (fun d : Transaction * Category => tx_amount (fst d))).
    rewrite unwind_resolved; [apply length_map|].
    intros t Ht. apply filter_In in Ht. destruct Ht as [Ht Hc].
    apply Hres; [exact Ht|].
    apply andb_prop in Hc. destruct Hc as [Hc _].
    apply andb_prop in Hc. destruct Hc as [_ Hc].
    now apply String.eqb_eq in Hc. }
  rewrite Hlen. unfold breakdownMatched.
  rewrite breakdown_filter_split, <- summarySelected_matched.
  destruct (summary_entries transactions user startDate endDate)
    as [Hinc Hexp].
  cbv zeta in Hinc, Hexp. unfold summaryCount.
  destruct Htype as [-> | ->]; cbn [String.eqb Ascii.eqb Bool.eqb].
  - rewrite Hinc. symmetry.
    apply (summary_group_stat transactions user startDate endDate "income").
  - rewrite Hexp. symmetry.
    apply (summary_group_stat transactions user startDate endDate "expense").
Qed.

Lemma breakdown_counts_match_summary_when_resolved_witness :
  sumZ (map br_count
          (categoryBreakdown marchTransactions [food; transport] alice
             "expense" None None))
  = summaryCount (summary marchTransactions alice None None) "expense".
Proof.
  apply (breakdown_counts_match_summary_when_resolved
           marchTransactions [food; transport] alice "expense" None None).
  - right. reflexivity.
  - intros t [<-|[<-|[<-|[]]]] Hty; try discriminate;
      exists food; reflexivity.
Defined.

Lemma totalDesc_total a b : totalDesc a b = false -> totalDesc b a = true.
Proof.
  unfold totalDesc. intro H. apply Qle_bool_gt in H.
  apply Qle_bool_iff. lra.
Qed.

Lemma totalDesc_trans a b c :
  totalDesc a b = true -> totalDesc b c = true -> totalDesc a c = true.
Proof.
  unfold totalDesc. rewrite !Qle_bool_iff. lra.
Qed.

(** X7: the category breakdown has one row per category in use: the row
    ids are distinct; an id has a row exactly when a selected transaction
    refers to it and a category document has it; and the rows are listed
    by decreasing total. *)
Theorem breakdown_rows_are_categories_in_use
    transactions categories user type startDate endDate :
  let rows :=
    categoryBreakdown transactions categories user type startDate endDate in
  List.NoDup (map br_id rows)
  /\ (forall k,
        In k (map br_id rows) <->
        breakdownOfCategory transactions user type startDate endDate k <> []
        /\ exists c, In c categories /\ cat_id c = k)
  /\ (forall pre a mid b post,
        rows = (pre ++ a :: mid ++ b :: post)%list ->
        (br_total b <= br_total a)%Q).
Proof.
  intro rows. unfold rows, categoryBreakdown. cbv zeta.
  fold (breakdownMatched transactions user type startDate endDate).
  set (matched := breakdownMatched transactions user type startDate endDate).
  set (unwound := flat_map (lookupUnwind categories) matched).
  set (groups := group (fun d : Transaction * Category => tx_category (fst d))
                   String.eqb ba_init ba_step unwound).
  assert (Hids : Permutation (map br_id (sort totalDesc (map ba_row groups)))
                   (map fst groups)).
  { rewrite (Permutation_map br_id (sort_perm totalDesc (map ba_row groups))).
    rewrite map_map. apply Permutation_refl. }
  split; [|split].
  - apply (Permutation_NoDup (Permutation_sym Hids)).
    apply group_NoDup, String.eqb_eq.
  - intro k. split.
    + intro Hk. apply (Permutation_in _ Hids) in Hk.
      apply group_keys in Hk. destruct Hk as [[t c] [Hd Hkey]].
      cbn [fst] in Hkey. subst k.
      apply in_flat_map in Hd. destruct Hd as [t' [Ht' Hd]].
      unfold lookupUnwind in Hd. apply in_map_iff in Hd.
      destruct Hd as [c' [[= <- <-] Hc]].
      apply filter_In in Hc. destruct Hc as [Hc Hid].
      apply String.eqb_eq in Hid. split.
      * unfold breakdownOfCategory.
        assert (In t' (List.filter
                         (fun t => String.eqb (tx_category t') (tx_category t))
                         matched)) as Hin.
        { apply filter_In. split; [exact Ht'|]. apply String.eqb_refl. }
        fold matched. intro E. rewrite E in Hin. destruct Hin.
      * exists c'. split; [exact Hc | exact Hid].
    + intros [Hsel [c [Hc Hid]]].
      unfold breakdownOfCategory in Hsel. fold matched in Hsel.
      destruct (List.filter _ matched) as [|t rest] eqn:E; [easy|].
      assert (In t (t :: rest)) as Hin by now left.
      rewrite <- E in Hin. apply filter_In in Hin.
      destruct Hin as [Ht Hk]. apply String.eqb_eq in Hk.
      apply (Permutation_in _ (Permutation_sym Hids)).
      assert (In (t, c) unwound) as Hd.
      { apply in_flat_map. exists t. split; [exact Ht|].
        unfold lookupUnwind. apply in_map, filter_In.
        split; [exact Hc|]. apply String.eqb_eq. congruence. }
      apply (group_covers
               (fun d : Transaction * Category => tx_category (fst d))
               String.eqb ba_init ba_step String.eqb_eq) in Hd.
      cbn [fst] in Hd. fold groups in Hd. now rewrite Hk.
  - intros pre a mid b post E.
    pose proof (sort_ordered totalDesc totalDesc_total totalDesc_trans
                  (map ba_row groups)) as Hs.
    rewrite E in Hs. apply sorted_between in Hs.
    unfold totalDesc in Hs. now apply Qle_bool_iff in Hs.
Qed.
